(** * Learning-analytics hierarchy: a shallow embedding of [analytics-component.js]

    The file embeds the data-transformation core of the component
    ([truncateToDecimals], [calculateAverage], the duration helpers,
    [getLearningSystemHierarchy]), the computations of the student,
    concept and activity views and of the diagnostic panel, and proves
    their properties against that embedding.  What the views write into
    the page is not modelled.

    Numbers.  A JavaScript number is modelled as a rational extended with
    [NaN] and the two infinities.  Finite values are kept in lowest terms,
    so that equal numbers are equal terms.  The operations of [Js] are
    exact: they agree with the language wherever the exact result is a
    double, which is the case of the integers below [2^53] that the
    counters and durations of the component range over.  [Double] rounds
    every result to the nearest double, with overflow to an infinity; the
    duration helpers are given over both, and the statements that depend
    on rounding are made over [Double].  A decimal constant of the source
    such as [1.1] stands for the rational it denotes, and the sign of zero
    is not modelled.  Strings are strings of 8-bit characters. *)

From Stdlib Require Import ZArith QArith Qabs Qround Qreduction.
From Stdlib Require Import List String Ascii Bool Lia.
From Stdlib Require Import Sorting.Sorted Permutation.
Import ListNotations.

Local Open Scope Z_scope.

(* ------------------------------------------------------------------ *)
(** ** JavaScript numbers *)

Module Js.

Inductive num : Type :=
| NaN
| Inf (negative : bool)
| Fin (q : Q).

Definition fin (q : Q) : num := Fin (Qred q).
Definition ofZ (z : Z) : num := Fin (z # 1).

Definition is_zero (q : Q) : bool := Qnum q =? 0.
Definition is_neg (q : Q) : bool := Qnum q <? 0.

Definition isNaN (x : num) : bool :=
  match x with NaN => true | _ => false end.

Definition add (x y : num) : num :=
  match x, y with
  | NaN, _ | _, NaN => NaN
  | Inf a, Inf b => if Bool.eqb a b then Inf a else NaN
  | Inf a, Fin _ | Fin _, Inf a => Inf a
  | Fin p, Fin q => fin (p + q)
  end.

Definition neg (x : num) : num :=
  match x with
  | NaN => NaN
  | Inf a => Inf (negb a)
  | Fin q => fin (- q)
  end.

Definition sub (x y : num) : num := add x (neg y).

Definition mul (x y : num) : num :=
  match x, y with
  | NaN, _ | _, NaN => NaN
  | Inf a, Inf b => Inf (xorb a b)
  | Inf a, Fin q | Fin q, Inf a =>
      if is_zero q then NaN else Inf (xorb a (is_neg q))
  | Fin p, Fin q => fin (p * q)
  end.

Definition div (x y : num) : num :=
  match x, y with
  | NaN, _ | _, NaN => NaN
  | Inf _, Inf _ => NaN
  | Inf a, Fin q => Inf (xorb a (is_neg q))
  | Fin _, Inf _ => Fin 0
  | Fin p, Fin q =>
      if is_zero q
      then (if is_zero p then NaN else Inf (is_neg p))
      else fin (p / q)
  end.

(** Truncation towards zero, as the remainder operator [%] uses it. *)
Definition Qtrunc (q : Q) : Z :=
  if is_neg q then Qceiling q else Qfloor q.

Definition rem (x y : num) : num :=
  match x, y with
  | NaN, _ | _, NaN => NaN
  | Inf _, _ => NaN
  | Fin p, Inf _ => Fin p
  | Fin p, Fin q =>
      if is_zero q then NaN
      else fin (p - q * inject_Z (Qtrunc (p / q)))
  end.

Definition ltb (x y : num) : bool :=
  match x, y with
  | NaN, _ | _, NaN => false
  | Inf a, Inf b => a && negb b
  | Inf a, Fin _ => a
  | Fin _, Inf b => negb b
  | Fin p, Fin q => negb (Qle_bool q p)
  end.

Definition gtb (x y : num) : bool := ltb y x.

(** [x <= y]. *)
Definition leb (x y : num) : bool :=
  match x, y with
  | NaN, _ | _, NaN => false
  | _, _ => negb (ltb y x)
  end.

(** [ToBoolean] on a number: [0] and [NaN] are falsy. *)
Definition truthy_num (x : num) : bool :=
  match x with
  | NaN => false
  | Inf _ => true
  | Fin q => negb (is_zero q)
  end.

(** [x || 0] on a number. *)
Definition or0 (x : num) : num := if truthy_num x then x else Fin 0.

(** The result of [Math.floor]: an integer, [NaN] or an infinity. *)
Inductive integral : Type :=
| INaN
| IInf (negative : bool)
| IInt (z : Z).

Definition floor (x : num) : integral :=
  match x with
  | NaN => INaN
  | Inf a => IInf a
  | Fin q => IInt (Qfloor q)
  end.

(* ---------------------------------------------------------------- *)
(** ** Strings and the conversions between strings and numbers *)

Local Open Scope string_scope.

Definition digit_char (d : Z) : ascii := ascii_of_nat (48 + Z.to_nat d).

(** Value of a digit character in the given radix. *)
Definition digit_val (radix : Z) (c : ascii) : option Z :=
  let n := Z.of_nat (nat_of_ascii c) in
  let v := (if (48 <=? n) && (n <=? 57) then n - 48
            else if (97 <=? n) && (n <=? 102) then n - 87
            else if (65 <=? n) && (n <=? 70) then n - 55
            else radix)%Z in
  if (v <? radix)%Z then Some v else None.

(** Decimal digits of a non-negative integer, most significant first. *)
Fixpoint decimal_fuel (fuel : nat) (n : Z) (acc : string) : string :=
  match fuel with
  | O => acc
  | S f =>
      let acc' := String (digit_char (n mod 10)) acc in
      if (n <? 10)%Z then acc' else decimal_fuel f (n / 10) acc'
  end.

Definition decimal (n : Z) : string :=
  decimal_fuel (S (Z.to_nat (Z.log2 n))) n "".

(** The double nearest to a positive integer: 53 significant bits, a tie
    goes to the even significand. *)
Definition nearestDouble (z : Z) : Z :=
  let e := (Z.log2 z - 52)%Z in
  if (e <=? 0)%Z then z
  else
    let ulp := (2 ^ e)%Z in
    let q := (z / ulp)%Z in
    let r := (z mod ulp)%Z in
    if (2 * r <? ulp)%Z then (q * ulp)%Z
    else if (ulp <? 2 * r)%Z then ((q + 1) * ulp)%Z
    else if Z.even q then (q * ulp)%Z else ((q + 1) * ulp)%Z.

(** The fewest leading digits [s] of the [n]-digit integer [z], with the
    power of ten they are scaled by, that still read back as [z]; the
    search starts at [k] digits. *)
Fixpoint shortest_fuel (fuel : nat) (k n z : Z) : Z * Z :=
  let t := (10 ^ (n - k))%Z in
  let s := ((2 * z + t) / (2 * t))%Z in
  match fuel with
  | O => (s, (n - k)%Z)
  | S f =>
      if (nearestDouble (s * t) =? z)%Z then (s, (n - k)%Z)
      else shortest_fuel f (k + 1)%Z n z
  end.

Fixpoint strip_zeros (fuel : nat) (s : Z) : Z :=
  match fuel with
  | O => s
  | S f => if (0 <? s)%Z && (s mod 10 =? 0)%Z then strip_zeros f (s / 10)%Z else s
  end.

(** The exponent notation of an integer from [10^21] on: the fewest digits
    that denote the same double, a point after the first of them, and the
    power of ten. *)
Definition exponential (z : Z) : string :=
  let n := String.length (decimal z) in
  let '(s, p) := shortest_fuel (n - 1) 1 (Z.of_nat n) z in
  let e := (Z.of_nat (String.length (decimal s)) + p - 1)%Z in
  match decimal (strip_zeros n s) with
  | String c EmptyString => String c ("e+" ++ decimal e)
  | String c r => String c ("." ++ r ++ "e+" ++ decimal e)
  | EmptyString => EmptyString
  end.

(** [ToString] on a non-negative integer: its digits below [10^21], the
    exponent notation from there on. *)
Definition magnitude (n : Z) : string :=
  if (n <? 10 ^ 21)%Z then decimal n else exponential n.

Definition Z_toString (z : Z) : string :=
  if (z <? 0)%Z then String "-" (magnitude (- z)) else magnitude z.

(** [Number.prototype.toString] on the result of [Math.floor]. *)
Definition toString (v : integral) : string :=
  match v with
  | INaN => "NaN"
  | IInf false => "Infinity"
  | IInf true => "-Infinity"
  | IInt z => Z_toString z
  end.

Fixpoint zeros (n : nat) : string :=
  match n with O => "" | S k => String "0" (zeros k) end.

(** [s.padStart(len, '0')]. *)
Definition padStart0 (len : nat) (s : string) : string :=
  zeros (len - String.length s) ++ s.

(** [parts.join(sep)]. *)
Fixpoint join (sep : string) (parts : list string) : string :=
  match parts with
  | [] => ""
  | [p] => p
  | p :: rest => p ++ sep ++ join sep rest
  end.

(** [s.split(sep)] for a one-character separator. *)
Fixpoint split (sep : ascii) (s : string) : list string :=
  match s with
  | EmptyString => [""]
  | String c r =>
      if Ascii.eqb c sep then "" :: split sep r
      else match split sep r with
           | [] => [String c ""]
           | h :: t => String c h :: t
           end
  end.

(** White space and line terminators among the characters of the model:
    tab to carriage return, the space and the no-break space. *)
Definition is_space (c : ascii) : bool :=
  let n := nat_of_ascii c in
  ((9 <=? n) && (n <=? 13))%nat || (n =? 32)%nat || (n =? 160)%nat.

Fixpoint trimStart (s : string) : string :=
  match s with
  | String c r => if is_space c then trimStart r else s
  | EmptyString => s
  end.

Fixpoint all_space (s : string) : bool :=
  match s with
  | String c r => is_space c && all_space r
  | EmptyString => true
  end.

(** Longest run of digits at the head of [s]: the value accumulated onto
    [acc], the number of digits read after [cnt], and the rest. *)
Fixpoint read_digits (radix : Z) (s : string) (acc : Z) (cnt : nat)
  : Z * nat * string :=
  match s with
  | String c r =>
      match digit_val radix c with
      | Some d => read_digits radix r (radix * acc + d) (S cnt)
      | None => (acc, cnt, s)
      end
  | EmptyString => (acc, cnt, s)
  end.

Fixpoint strip_prefix (p s : string) : option string :=
  match p, s with
  | EmptyString, _ => Some s
  | String a p', String b s' => if Ascii.eqb a b then strip_prefix p' s' else None
  | String _ _, EmptyString => None
  end.

(** [ExponentPart]: consumed only when at least one digit follows. *)
Definition exponentPart (s : string) : Z * string :=
  match s with
  | String c r =>
      if Ascii.eqb c "e" || Ascii.eqb c "E" then
        let '(negative, r1) :=
          match r with
          | String "+" r' => (false, r')
          | String "-" r' => (true, r')
          | _ => (false, r)
          end in
        let '(e, n, r2) := read_digits 10 r1 0 0 in
        if (n =? 0)%nat then (0, s)
        else ((if negative then - e else e), r2)
      else (0, s)
  | EmptyString => (0, s)
  end.

(** Longest prefix of [s] that is a [StrDecimalLiteral], with its value. *)
Definition strDecimalLiteral (s : string) : option (num * string) :=
  let '(negative, s1) :=
    match s with
    | String "+" r => (false, r)
    | String "-" r => (true, r)
    | _ => (false, s)
    end in
  match strip_prefix "Infinity" s1 with
  | Some r => Some (Inf negative, r)
  | None =>
      let '(ip, ni, r1) := read_digits 10 s1 0 0 in
      let '(fp, nf, r2) :=
        match r1 with
        | String "." r => read_digits 10 r 0 0
        | _ => (0, O, r1)
        end in
      if (ni + nf =? 0)%nat then None
      else
        let '(e, r3) := exponentPart r2 in
        let m := (inject_Z ip + inject_Z fp / inject_Z (10 ^ Z.of_nat nf))%Q in
        let v := (m * Qpower 10 e)%Q in
        Some (fin (if negative then - v else v)%Q, r3)
  end.

(** [parseFloat] on a string. *)
Definition parseFloat_string (s : string) : num :=
  match strDecimalLiteral (trimStart s) with
  | Some (v, _) => v
  | None => NaN
  end.

Definition nonDecimalRadix (s : string) : option (Z * string) :=
  match s with
  | String "0" (String c r) =>
      if Ascii.eqb c "x" || Ascii.eqb c "X" then Some (16, r)
      else if Ascii.eqb c "o" || Ascii.eqb c "O" then Some (8, r)
      else if Ascii.eqb c "b" || Ascii.eqb c "B" then Some (2, r)
      else None
  | _ => None
  end.

(** [Number(s)] on a string ([StringToNumber]). *)
Definition Number_string (s : string) : num :=
  let t := trimStart s in
  if all_space t then Fin 0
  else
    match nonDecimalRadix t with
    | Some (radix, r) =>
        let '(v, n, rest) := read_digits radix r 0 0 in
        if negb (n =? 0)%nat && all_space rest then ofZ v else NaN
    | None =>
        match strDecimalLiteral t with
        | Some (v, rest) => if all_space rest then v else NaN
        | None => NaN
        end
    end.

(** The digit counts [toFixed] accepts: it raises a [RangeError] on any
    other.  The component passes 0, 1 or 2. *)
Class Digits (d : nat) : Prop := digits_in_range : (d <=? 100)%nat = true.

#[export] Instance digits_0 : Digits 0 := eq_refl.
#[export] Instance digits_1 : Digits 1 := eq_refl.
#[export] Instance digits_2 : Digits 2 := eq_refl.

(** [x.toFixed(d)]: the decimal with [d] fraction digits nearest to [x],
    the larger one on a tie of the magnitudes.  From [10^21] on the source
    falls back to [ToString]; a double that large is an integer. *)
Definition toFixed (x : num) (d : nat) `{Digits d} : string :=
  match x with
  | NaN => "NaN"
  | Inf false => "Infinity"
  | Inf true => "-Infinity"
  | Fin q =>
      let a := Qabs q in
      let sign := if is_neg q then "-" else "" in
      if Qle_bool (inject_Z (10 ^ 21)) a then sign ++ magnitude (Qfloor a)
      else
        let n := Qfloor (a * inject_Z (10 ^ Z.of_nat d) + (1 # 2))%Q in
        let ds := padStart0 (S d) (decimal n) in
        let k := (String.length ds - d)%nat in
        sign ++ substring 0 k ds
             ++ (if (d =? 0)%nat then "" else String "." (substring k d ds))
  end.

(* ---------------------------------------------------------------- *)
(** ** JSON scalars *)

(** A numeric field of a row as the JSON holds it. *)
Inductive jsval : Type :=
| Undefined
| Null
| JBool (b : bool)
| JNum (n : num)
| JStr (s : string).

Definition truthy (v : jsval) : bool :=
  match v with
  | Undefined | Null => false
  | JBool b => b
  | JNum n => truthy_num n
  | JStr s => negb (String.length s =? 0)%nat
  end.

(** [parseFloat(v)]: the argument is converted to a string and its longest
    numeric prefix is read; a number prints and reads back as itself. *)
Definition parseFloat (v : jsval) : num :=
  match v with
  | JNum n => n
  | JStr s => parseFloat_string s
  | Undefined | Null | JBool _ => NaN
  end.

(** [ToNumber], as the operands of [-] undergo it. *)
Definition ToNumber (v : jsval) : num :=
  match v with
  | Undefined => NaN
  | Null => Fin 0
  | JBool b => if b then Fin 1 else Fin 0
  | JNum n => n
  | JStr s => Number_string s
  end.

End Js.

Import Js.

(* ------------------------------------------------------------------ *)
(** ** Scalar helpers of the component *)

Local Open Scope string_scope.

(** [const n = parseFloat(num); if (isNaN(n)) return 0;
     return parseFloat(n.toFixed(d));] *)
Definition truncateToDecimals (v : jsval) (d : nat) `{Digits d} : num :=
  let n := parseFloat v in
  if isNaN n then Fin 0 else parseFloat_string (toFixed n d).

(** [if (!arr || arr.length === 0) return 0;
     return arr.reduce((acc, val) => acc + val, 0) / arr.length;] *)
Definition calculateAverage (arr : list num) : num :=
  match arr with
  | [] => Fin 0
  | _ => div (fold_left add arr (Fin 0)) (ofZ (Z.of_nat (List.length arr)))
  end.

Definition formatSecondsToDuration (s : num) : string :=
  if isNaN s || ltb s (Fin 0) then "00:00:00"
  else
    let h := floor (div s (Fin 3600)) in
    let m := floor (div (rem s (Fin 3600)) (Fin 60)) in
    let sec := floor (rem s (Fin 60)) in
    join ":" (map (fun v => padStart0 2 (toString v)) [h; m; sec]).

(** [p[0] * 3600 + p[1] * 60 + p[2]] on the three components. *)
Definition parseDurationToSeconds (d : jsval) : num :=
  if negb (truthy d) then Fin 0
  else
    match d with
    | JStr s =>
        match map Number_string (split ":" s) with
        | [p0; p1; p2] => add (add (mul p0 (Fin 3600)) (mul p1 (Fin 60))) p2
        | _ => Fin 0
        end
    | _ => Fin 0
    end.

(** *** The duration helpers on doubles

    The arithmetic of the language rounds every result to the nearest
    double.  The two duration helpers are repeated here over that
    arithmetic, to tell how far their properties reach. *)
Module Double.

(** The exponent [e] of a positive rational: [2^e <= a < 2^(e+1)]. *)
Definition exponentOf (a : Q) : Z :=
  let p := Qnum a in
  let d := Zpos (Qden a) in
  let k := (Z.log2 p - Z.log2 d)%Z in
  if (d * 2 ^ Z.max k 0 <=? p * 2 ^ Z.max (- k) 0)%Z then k else (k - 1)%Z.

(** The integer nearest to [n / d], the even one on a tie. *)
Definition nearestEven (n d : Z) : Z :=
  let q := (n / d)%Z in
  let r := (n mod d)%Z in
  if (2 * r <? d)%Z then q
  else if (d <? 2 * r)%Z then (q + 1)%Z
  else if Z.even q then q else (q + 1)%Z.

(** The double nearest to a positive rational: a significand of 53 bits
    scaled by a power of two, the exponent being at least -1022; an
    infinity from [2^1024] on. *)
Definition roundPositive (a : Q) (negative : bool) : num :=
  let e := Z.max (exponentOf a) (-1022) in
  let s := (52 - e)%Z in
  let n := nearestEven (Qnum a * 2 ^ Z.max s 0)
                       (Zpos (Qden a) * 2 ^ Z.max (- s) 0) in
  let v := (n * 2 ^ Z.max (- s) 0 # Z.to_pos (2 ^ Z.max s 0)) in
  if Qle_bool (inject_Z (2 ^ 1024)) v then Inf negative
  else fin (if negative then - v else v)%Q.

Definition round (q : Q) : num :=
  if is_zero q then Fin 0
  else roundPositive (Qabs q) (is_neg q).

Definition rounded (x : num) : num :=
  match x with
  | Fin q => round q
  | _ => x
  end.

Definition add (x y : num) : num := rounded (Js.add x y).
Definition mul (x y : num) : num := rounded (Js.mul x y).
Definition div (x y : num) : num := rounded (Js.div x y).

(** The remainder of two doubles is a double. *)
Definition rem (x y : num) : num := rounded (Js.rem x y).

Definition Number_string (s : string) : num := rounded (Js.Number_string s).

Definition formatSecondsToDuration (s : num) : string :=
  if isNaN s || ltb s (Fin 0) then "00:00:00"
  else
    let h := floor (div s (Fin 3600)) in
    let m := floor (div (rem s (Fin 3600)) (Fin 60)) in
    let sec := floor (rem s (Fin 60)) in
    join ":" (map (fun v => padStart0 2 (toString v)) [h; m; sec]).

Definition parseDurationToSeconds (d : jsval) : num :=
  if negb (truthy d) then Fin 0
  else
    match d with
    | JStr s =>
        match map Number_string (split ":" s) with
        | [p0; p1; p2] => add (add (mul p0 (Fin 3600)) (mul p1 (Fin 60))) p2
        | _ => Fin 0
        end
    | _ => Fin 0
    end.

End Double.

(** The time-spent field of a row: a JSON scalar, or an object whose
    [hours], [minutes] and [seconds] are numbers ([None] when absent). *)
Inductive timeval : Type :=
| TVal (v : jsval)
| TObj (hours minutes seconds : option num).

Definition truthy_time (t : timeval) : bool :=
  match t with
  | TVal v => truthy v
  | TObj _ _ _ => true
  end.

(** [t.hours || 0] on a numeric property that may be absent. *)
Definition prop_or0 (p : option num) : num :=
  match p with
  | Some n => or0 n
  | None => Fin 0
  end.

(** A truthy scalar that is not a string has no [hours], [minutes] or
    [seconds] property: each reads as [undefined]. *)
Definition parseTimeObjectToSeconds (t : timeval) : num :=
  if negb (truthy_time t) then Fin 0
  else
    match t with
    | TVal (JStr s) => parseDurationToSeconds (JStr s)
    | TVal _ =>
        add (add (mul (prop_or0 None) (Fin 3600)) (mul (prop_or0 None) (Fin 60)))
            (prop_or0 None)
    | TObj h m s =>
        add (add (mul (prop_or0 h) (Fin 3600)) (mul (prop_or0 m) (Fin 60)))
            (prop_or0 s)
    end.

(* ------------------------------------------------------------------ *)
(** ** Identifiers, labels and insertion-ordered maps *)

(** A JSON scalar used as an identifier or a label: absent, [null], an
    integer or a string. *)
Inductive scalar : Type :=
| SUndefined
| SNull
| SInt (z : Z)
| SStr (s : string).

Definition truthy_scalar (v : scalar) : bool :=
  match v with
  | SUndefined | SNull => false
  | SInt z => negb (z =? 0)%Z
  | SStr s => negb (String.length s =? 0)%nat
  end.

(** [String(v)]. *)
Definition String_ (v : scalar) : string :=
  match v with
  | SUndefined => "undefined"
  | SNull => "null"
  | SInt z => Z_toString z
  | SStr s => s
  end.

(** Strict equality, which on these scalars is also the key equality of
    [Map] and [Set]. *)
Definition scalar_eqb (a b : scalar) : bool :=
  match a, b with
  | SUndefined, SUndefined | SNull, SNull => true
  | SInt x, SInt y => (x =? y)%Z
  | SStr x, SStr y => String.eqb x y
  | _, _ => false
  end.

(** A [Map] as the list of its entries in insertion order. *)
Module JsMap.
Section Ops.
  Context {K V : Type} (eqb : K -> K -> bool).

Fixpoint get (m : list (K * V)) (k : K) : option V :=
    match m with
    | [] => None
    | (k', v) :: m' => if eqb k' k then Some v else get m' k
    end.

Definition has (m : list (K * V)) (k : K) : bool :=
    match get m k with Some _ => true | None => false end.

  (** [m.set(k, v)]: a present key keeps its position. *)
Fixpoint set (m : list (K * V)) (k : K) (v : V) : list (K * V) :=
    match m with
    | [] => [(k, v)]
    | (k', v') :: m' =>
        if eqb k' k then (k', v) :: m' else (k', v') :: set m' k v
    end.

Definition values (m : list (K * V)) : list V := map snd m.
Definition keys (m : list (K * V)) : list K := map fst m.
End Ops.
End JsMap.

(** [arr.find(p)] is [List.find]; the element found is then mutated in
    place: [update_first p f arr]. *)
Fixpoint update_first {A : Type} (p : A -> bool) (f : A -> A) (l : list A)
  : list A :=
  match l with
  | [] => []
  | x :: l' => if p x then f x :: l' else x :: update_first p f l'
  end.

(** [arr.sort(cmp)]: the sort is stable; [cmp a b > 0] puts [b] first, any
    other result (negative, zero, [NaN]) leaves [a] before [b].  Every
    stable sort gives this list when [cmp] is a consistent comparator.
    When it is not, as with a difference that is [NaN] against some
    elements only, the language leaves the order to the implementation;
    the insertion below then keeps such elements where they stand, as the
    run detection of a merge sort does on a short array. *)
Section Sort.
  Context {A : Type} (cmp : A -> A -> num).

Fixpoint insert (x : A) (l : list A) : list A :=
    match l with
    | [] => [x]
    | y :: l' => if gtb (cmp x y) (Fin 0) then y :: insert x l' else x :: l
    end.

Fixpoint sort (l : list A) : list A :=
    match l with
    | [] => []
    | x :: l' => insert x (sort l')
    end.
End Sort.

(* ------------------------------------------------------------------ *)
(** ** The flat table and the hierarchy *)

Record Row : Type := {
  ChapterId : scalar;
  ChapterNo : jsval;
  ChapterName : scalar;
  UnitId : scalar;
  UnitNo : jsval;
  UnitName : scalar;
  ActivityTypeId : scalar;
  ActivityTypeName : scalar;
  SequenceBuilderID : scalar;
  ConceptId : scalar;
  ConceptName : scalar;
  ConceptCategory : scalar;
  ConceptParentId : scalar;
  ConceptParentName : scalar;
  UserId : scalar;
  UserFullName : scalar;
  UnitCompletionPercentage : jsval;
  UnitAccuracyPercentage : jsval;
  UnitTimeSpent : timeval;
  ActivityTypeAccuracyPercentage : jsval;
  ActivityTotalAttempts : num;
  ConceptAccuracyPercentage : jsval
}.

Module Element.
Record t : Type := { elementId : string; elementName : scalar; accuracy : num }.
End Element.

Module Component.
Record t : Type :=
    { componentId : string; componentName : scalar; elements : list Element.t }.
Definition with_elements (c : t) (e : list Element.t) : t :=
    {| componentId := componentId c; componentName := componentName c;
       elements := e |}.
End Component.

Module Category.
Record t : Type := { category : scalar; components : list Component.t }.
Definition with_components (c : t) (cs : list Component.t) : t :=
    {| category := category c; components := cs |}.
End Category.

(** An entry of a user's [_activityPerformanceMap]; it is handed over
    unchanged as an element of the user's [activities]. *)
Module Activity.
Record t : Type := {
    activityName : scalar;
    accuracy : num;
    totalAttempts : num;
    performanceByCategory : list Category.t
  }.
Definition with_performanceByCategory (a : t) (p : list Category.t) : t :=
    {| activityName := activityName a; accuracy := accuracy a;
       totalAttempts := totalAttempts a; performanceByCategory := p |}.
End Activity.

Module Concept.
Record t : Type :=
    { conceptId : string; conceptName : scalar; conceptCategory : scalar }.
End Concept.

(** The nested accumulators of the grouping pass. *)
Module Acc.
Record activity : Type := {
    activityId : string;
    activityName : scalar;
    concepts : list Concept.t
  }.

Record user : Type := {
    userId : string;
    userName : scalar;
    completion : num;
    accuracy : num;
    totalTimeSpentSeconds : num;
    _activityPerformanceMap : list (string * Activity.t)
  }.

Record unit : Type := {
    unitId : string;
    unitNo : jsval;
    unitName : scalar;
    _activitiesMap : list (scalar * activity);
    _usersMap : list (scalar * user)
  }.

Record chapter : Type := {
    chapterId : string;
    chapterNo : jsval;
    chapterName : scalar;
    _unitsMap : list (scalar * unit)
  }.

Definition with_concepts (a : activity) (c : list Concept.t) : activity :=
    {| activityId := activityId a; activityName := activityName a;
       concepts := c |}.

Definition with_performance (u : user) (m : list (string * Activity.t))
    : user :=
    {| userId := userId u; userName := userName u;
       completion := completion u; accuracy := accuracy u;
       totalTimeSpentSeconds := totalTimeSpentSeconds u;
       _activityPerformanceMap := m |}.

Definition with_maps (u : unit) (a : list (scalar * activity))
             (us : list (scalar * user)) : unit :=
    {| unitId := unitId u; unitNo := unitNo u; unitName := unitName u;
       _activitiesMap := a; _usersMap := us |}.

Definition with_units (c : chapter) (m : list (scalar * unit)) : chapter :=
    {| chapterId := chapterId c; chapterNo := chapterNo c;
       chapterName := chapterName c; _unitsMap := m |}.
End Acc.

Module User.
Record t : Type := {
    userId : string;
    userName : scalar;
    accuracy : num;
    completion : num;
    activities : list Activity.t;
    isStruggling : bool;
    totalTimeSpent : string
  }.
End User.

Module Unit.
Record t : Type := {
    unitId : string;
    unitNo : jsval;
    unitName : scalar;
    noOfLearners : nat;
    avgAccuracy : num;
    avgTimeSpent : string;
    isProblematic : bool;
    users : list User.t
  }.
End Unit.

Module Chapter.
Record t : Type := {
    chapterId : string;
    chapterNo : jsval;
    chapterName : scalar;
    units : list Unit.t;
    avgAccuracy : num;
    completion : num
  }.
End Chapter.

Module Course.
Record t : Type := {
    chapters : list Chapter.t;
    noOfLearners : nat;
    avgAccuracy : num;
    completion : num;
    totalTimeSpent : string
  }.
End Course.

(** What the builder returns: the sentinel carrying a [message], or the
    course. *)
Inductive Hierarchy : Type :=
| NoData (message : string)
| Built (root : Course.t).

(* ------------------------------------------------------------------ *)
(** ** The grouping pass of [getLearningSystemHierarchy] *)

Definition ChaptersMap : Type := list (scalar * Acc.chapter).

Definition newChapter (row : Row) : Acc.chapter :=
  {| Acc.chapterId := String_ (ChapterId row);
     Acc.chapterNo := ChapterNo row;
     Acc.chapterName := ChapterName row;
     Acc._unitsMap := [] |}.

Definition newUnit (row : Row) : Acc.unit :=
  {| Acc.unitId := String_ (UnitId row);
     Acc.unitNo := UnitNo row;
     Acc.unitName := UnitName row;
     Acc._activitiesMap := [];
     Acc._usersMap := [] |}.

Definition newActivity (row : Row) : Acc.activity :=
  {| Acc.activityId :=
       String_ (UnitId row) ++ "-" ++ String_ (ActivityTypeId row) ++ "-"
               ++ String_ (SequenceBuilderID row);
     Acc.activityName := ActivityTypeName row;
     Acc.concepts := [] |}.

Definition newConcept (row : Row) : Concept.t :=
  {| Concept.conceptId := String_ (ConceptId row);
     Concept.conceptName := ConceptName row;
     Concept.conceptCategory := ConceptCategory row |}.

Definition newUser (row : Row) : Acc.user :=
  {| Acc.userId := String_ (UserId row);
     Acc.userName := UserFullName row;
     Acc.completion := or0 (parseFloat (UnitCompletionPercentage row));
     Acc.accuracy := or0 (parseFloat (UnitAccuracyPercentage row));
     Acc.totalTimeSpentSeconds := parseTimeObjectToSeconds (UnitTimeSpent row);
     Acc._activityPerformanceMap := [] |}.

Definition newPerformance (activity : Acc.activity) (row : Row) : Activity.t :=
  {| Activity.activityName := Acc.activityName activity;
     Activity.accuracy :=
       or0 (truncateToDecimals (ActivityTypeAccuracyPercentage row) 2);
     Activity.totalAttempts := ActivityTotalAttempts row;
     Activity.performanceByCategory := [] |}.

Definition newCategory (row : Row) : Category.t :=
  {| Category.category := ConceptCategory row; Category.components := [] |}.

Definition newComponent (row : Row) : Component.t :=
  {| Component.componentId := String_ (ConceptParentId row);
     Component.componentName := ConceptParentName row;
     Component.elements := [] |}.

Definition newElement (row : Row) : Element.t :=
  {| Element.elementId := String_ (ConceptId row);
     Element.elementName := ConceptName row;
     Element.accuracy :=
       or0 (truncateToDecimals (ConceptAccuracyPercentage row) 2) |}.

(** [if (!arr.find(p)) arr.push(x)], also [if (!arr.some(p)) arr.push(x)]. *)
Definition push_unless {A : Type} (p : A -> bool) (x : A) (arr : list A)
  : list A :=
  match find p arr with
  | Some _ => arr
  | None => arr ++ [x]
  end.

Definition isCategory (row : Row) (c : Category.t) : bool :=
  scalar_eqb (Category.category c) (ConceptCategory row).

Definition isComponent (row : Row) (c : Component.t) : bool :=
  String.eqb (Component.componentId c) (String_ (ConceptParentId row)).

Definition isElement (row : Row) (e : Element.t) : bool :=
  String.eqb (Element.elementId e) (String_ (ConceptId row)).

Definition addElement (row : Row) (c : Component.t) : Component.t :=
  Component.with_elements c
    (push_unless (isElement row) (newElement row) (Component.elements c)).

Definition addComponent (row : Row) (c : Category.t) : Category.t :=
  Category.with_components c
    (update_first (isComponent row) (addElement row)
       (push_unless (isComponent row) (newComponent row)
          (Category.components c))).

(** The body of [if (activity && row.ConceptId)] on the performance
    record of the user. *)
Definition addCategory (row : Row) (ap : Activity.t) : Activity.t :=
  Activity.with_performanceByCategory ap
    (update_first (isCategory row) (addComponent row)
       (push_unless (isCategory row) (newCategory row)
          (Activity.performanceByCategory ap))).

(** The body of [if (row.UserId)] on the user found in the unit;
    [activity] is the activity of the row, when the unit has one. *)
Definition stepUser (activity : option Acc.activity) (row : Row)
           (user : Acc.user) : Acc.user :=
  match activity with
  | None => user
  | Some a =>
      let key := Acc.activityId a in
      let perf := Acc._activityPerformanceMap user in
      let perf1 :=
        if negb (JsMap.has String.eqb perf key)
        then JsMap.set String.eqb perf key (newPerformance a row)
        else perf in
      let perf2 :=
        if truthy_scalar (ConceptId row) then
          match JsMap.get String.eqb perf1 key with
          | Some ap => JsMap.set String.eqb perf1 key (addCategory row ap)
          | None => perf1
          end
        else perf1 in
      Acc.with_performance user perf2
  end.

Definition hasConcept (row : Row) (c : Concept.t) : bool :=
  String.eqb (Concept.conceptId c) (String_ (ConceptId row)).

(** The row inside the unit it names: activity, concept of the
    activity, user. *)
Definition stepUnit (row : Row) (unit : Acc.unit) : Acc.unit :=
  let acts := Acc._activitiesMap unit in
  let sb := SequenceBuilderID row in
  let acts1 :=
    if truthy_scalar (ActivityTypeId row) && negb (JsMap.has scalar_eqb acts sb)
    then JsMap.set scalar_eqb acts sb (newActivity row)
    else acts in
  let activity := JsMap.get scalar_eqb acts1 sb in
  let acts2 :=
    match activity with
    | Some a =>
        if truthy_scalar (ConceptId row)
           && negb (existsb (hasConcept row) (Acc.concepts a))
        then JsMap.set scalar_eqb acts1 sb
               (Acc.with_concepts a (Acc.concepts a ++ [newConcept row]))
        else acts1
    | None => acts1
    end in
  let users := Acc._usersMap unit in
  let users2 :=
    if truthy_scalar (UserId row) then
      let users1 :=
        if negb (JsMap.has scalar_eqb users (UserId row))
        then JsMap.set scalar_eqb users (UserId row) (newUser row)
        else users in
      match JsMap.get scalar_eqb users1 (UserId row) with
      | Some user =>
          JsMap.set scalar_eqb users1 (UserId row) (stepUser activity row user)
      | None => users1
      end
    else users in
  Acc.with_maps unit acts2 users2.

(** The row inside its chapter; without a unit the row stops here
    ([if (!unit) continue]). *)
Definition stepChapter (row : Row) (chapter : Acc.chapter) : Acc.chapter :=
  let units := Acc._unitsMap chapter in
  let units1 :=
    if truthy_scalar (UnitId row) && negb (JsMap.has scalar_eqb units (UnitId row))
    then JsMap.set scalar_eqb units (UnitId row) (newUnit row)
    else units in
  match JsMap.get scalar_eqb units1 (UnitId row) with
  | None => Acc.with_units chapter units1
  | Some unit =>
      Acc.with_units chapter
        (JsMap.set scalar_eqb units1 (UnitId row) (stepUnit row unit))
  end.

(** One iteration of [for (const row of flatData)]. *)
Definition step (chaptersMap : ChaptersMap) (row : Row) : ChaptersMap :=
  let chaptersMap1 :=
    if negb (JsMap.has scalar_eqb chaptersMap (ChapterId row))
    then JsMap.set scalar_eqb chaptersMap (ChapterId row) (newChapter row)
    else chaptersMap in
  match JsMap.get scalar_eqb chaptersMap1 (ChapterId row) with
  | Some chapter =>
      JsMap.set scalar_eqb chaptersMap1 (ChapterId row) (stepChapter row chapter)
  | None => chaptersMap1
  end.

Definition group (flatData : list Row) : ChaptersMap :=
  fold_left step flatData [].

(* ------------------------------------------------------------------ *)
(** ** The rollup pass *)

Definition courseAverageTimePerUnit (flatData : list Row) : num :=
  calculateAverage
    (map (fun r => parseTimeObjectToSeconds (UnitTimeSpent r))
       (filter (fun r => truthy_scalar (UserId r) && truthy_time (UnitTimeSpent r))
          flatData)).

Definition avgUnitTimePerUser (unit : Acc.unit) : num :=
  let us := JsMap.values (Acc._usersMap unit) in
  if (0 <? List.length us)%nat
  then div (fold_left (fun sum u => add sum (Acc.totalTimeSpentSeconds u)) us (Fin 0))
           (ofZ (Z.of_nat (List.length us)))
  else Fin 0.

Definition buildUser (avg : num) (user : Acc.user) : User.t :=
  {| User.userId := Acc.userId user;
     User.userName := Acc.userName user;
     User.accuracy := Acc.accuracy user;
     User.completion := Acc.completion user;
     User.activities := JsMap.values (Acc._activityPerformanceMap user);
     User.isStruggling :=
       ltb (Acc.accuracy user) (Fin 50)
       && gtb (Acc.totalTimeSpentSeconds user) avg;
     User.totalTimeSpent :=
       formatSecondsToDuration (Acc.totalTimeSpentSeconds user) |}.

Definition positive (a : num) : bool := gtb a (Fin 0).

(** The mean the unit is judged by, before it is cut to two decimals. *)
Definition avgUnitAccuracy (users : list User.t) : num :=
  calculateAverage (filter positive (map User.accuracy users)).

Definition buildUnit (courseAvg : num) (unit : Acc.unit) : Unit.t :=
  let avg := avgUnitTimePerUser unit in
  let users := map (buildUser avg) (JsMap.values (Acc._usersMap unit)) in
  {| Unit.unitId := Acc.unitId unit;
     Unit.unitNo := Acc.unitNo unit;
     Unit.unitName := Acc.unitName unit;
     Unit.noOfLearners := List.length users;
     Unit.avgAccuracy := truncateToDecimals (JNum (avgUnitAccuracy users)) 2;
     Unit.avgTimeSpent := formatSecondsToDuration avg;
     Unit.isProblematic :=
       ltb (avgUnitAccuracy users) (Fin 60) && gtb avg courseAvg;
     Unit.users := users |}.

Definition byUnitNo (a b : Acc.unit) : num :=
  sub (ToNumber (Acc.unitNo a)) (ToNumber (Acc.unitNo b)).

Definition byChapterNo (a b : Acc.chapter) : num :=
  sub (ToNumber (Acc.chapterNo a)) (ToNumber (Acc.chapterNo b)).

Definition buildChapter (courseAvg : num) (chapter : Acc.chapter) : Chapter.t :=
  let units :=
    map (buildUnit courseAvg)
        (sort byUnitNo (JsMap.values (Acc._unitsMap chapter))) in
  let chapterAccuracies :=
    flat_map (fun u => map User.accuracy (Unit.users u)) units in
  let chapterCompletions :=
    flat_map (fun u => map User.completion (Unit.users u)) units in
  {| Chapter.chapterId := Acc.chapterId chapter;
     Chapter.chapterNo := Acc.chapterNo chapter;
     Chapter.chapterName := Acc.chapterName chapter;
     Chapter.units := units;
     Chapter.avgAccuracy := calculateAverage chapterAccuracies;
     Chapter.completion := calculateAverage chapterCompletions |}.

(** [new Set(values).size]. *)
Fixpoint distinct (l : list scalar) : list scalar :=
  match l with
  | [] => []
  | x :: l' => x :: filter (fun y => negb (scalar_eqb x y)) (distinct l')
  end.

Definition buildCourse (flatData : list Row) (chaptersMap : ChaptersMap)
  : Course.t :=
  let courseAvg := courseAverageTimePerUnit flatData in
  let chapters :=
    map (buildChapter courseAvg) (sort byChapterNo (JsMap.values chaptersMap)) in
  {| Course.chapters := chapters;
     Course.noOfLearners :=
       List.length (distinct (filter truthy_scalar (map UserId flatData)));
     Course.avgAccuracy :=
       truncateToDecimals
         (JNum (calculateAverage
                  (filter positive
                     (flat_map (fun c => map Unit.avgAccuracy (Chapter.units c))
                               chapters)))) 2;
     Course.completion :=
       truncateToDecimals
         (JNum (calculateAverage
                  (flat_map
                     (fun c => flat_map (fun u => map User.completion (Unit.users u))
                                        (Chapter.units c))
                     chapters))) 2;
     Course.totalTimeSpent :=
       formatSecondsToDuration
         (fold_left add
            (flat_map
               (fun c =>
                  flat_map
                    (fun u =>
                       map (fun user =>
                              parseDurationToSeconds (JStr (User.totalTimeSpent user)))
                           (Unit.users u))
                    (Chapter.units c))
               chapters)
            (Fin 0)) |}.

(** The input is [None] when the caller passes [null] or [undefined]. *)
Definition getLearningSystemHierarchy (flatData : option (list Row))
  : Hierarchy :=
  match flatData with
  | None | Some [] => NoData "No data found for the specified criteria."
  | Some rows => Built (buildCourse rows (group rows))
  end.

(* ------------------------------------------------------------------ *)
(** ** The on-demand classifiers *)

(** The [type] of the learning pattern shown by
    [renderStudentDiagnosticPanel]. *)
Inductive LearningPattern : Type :=
| Methodical
| PersistenceWithoutMastery
| KnowledgeGap.


Module Diagnostic.
Record t : Type := {
    totalAttempts : num;
    activityCount : Z;
    strugglingConcepts : list (scalar * num);
    avgAccuracy : num;
    avgAttemptsPerActivity : num;
    learningPattern : LearningPattern
  }.
End Diagnostic.

Definition isUser (userId : string) (u : User.t) : bool :=
  String.eqb (User.userId u) userId.

(** The elements below an activity, in the order of the nested
    [forEach]. *)
Definition elementsOf (act : Activity.t) : list Element.t :=
  flat_map (fun cat => flat_map Component.elements (Category.components cat))
           (Activity.performanceByCategory act).

(** The activities the scan visits: those of the first user of each unit
    whose id is [userId]. *)
Definition studentActivities (fullData : Course.t) (userId : string)
  : list Activity.t :=
  flat_map
    (fun ch =>
       flat_map
         (fun unit =>
            match find (isUser userId) (Unit.users unit) with
            | Some user => User.activities user
            | None => []
            end)
         (Chapter.units ch))
    (Course.chapters fullData).

Definition noteStruggles (m : list (scalar * num)) (act : Activity.t)
  : list (scalar * num) :=
  fold_left
    (fun m el =>
       if ltb (Element.accuracy el) (Fin 60)
       then JsMap.set scalar_eqb m (Element.elementName el) (Element.accuracy el)
       else m)
    (elementsOf act) m.

Definition studentAccuracies (fullData : Course.t) (userId : string)
  : list num :=
  flat_map
    (fun c =>
       flat_map
         (fun u => map User.accuracy (filter (isUser userId) (Unit.users u)))
         (Chapter.units c))
    (Course.chapters fullData).

Definition classify (avgAttemptsPerActivity avgAccuracy : num)
  : LearningPattern :=
  if gtb avgAttemptsPerActivity (Fin 15) && ltb avgAccuracy (Fin 70)
  then PersistenceWithoutMastery
  else if ltb avgAccuracy (Fin 60) then KnowledgeGap
  else Methodical.

(** The computation of [renderStudentDiagnosticPanel]; [None] is the early
    return on a missing or empty [userId]. *)
Definition renderStudentDiagnosticPanel (fullData : Course.t)
           (userId : option string) : option Diagnostic.t :=
  match userId with
  | None => None
  | Some id =>
      if (String.length id =? 0)%nat then None
      else
        let acts := studentActivities fullData id in
        let totalAttempts :=
          fold_left (fun t act => add t (Activity.totalAttempts act)) acts (Fin 0) in
        let activityCount := Z.of_nat (List.length acts) in
        let strugglingConcepts := fold_left noteStruggles acts [] in
        let avgAccuracy := calculateAverage (studentAccuracies fullData id) in
        let avgAttemptsPerActivity :=
          div totalAttempts
              (if truthy_num (ofZ activityCount) then ofZ activityCount
               else Fin 1) in
        Some {| Diagnostic.totalAttempts := totalAttempts;
                Diagnostic.activityCount := activityCount;
                Diagnostic.strugglingConcepts := strugglingConcepts;
                Diagnostic.avgAccuracy := avgAccuracy;
                Diagnostic.avgAttemptsPerActivity := avgAttemptsPerActivity;
                Diagnostic.learningPattern :=
                  classify avgAttemptsPerActivity avgAccuracy |}
  end.

Module ConceptStat.
Record t : Type := {
    name : scalar;
    accuracies : list num;
    attempts : list num
  }.
End ConceptStat.

Module RankedConcept.
Record t : Type := {
    name : scalar;
    accuracies : list num;
    attempts : list num;
    avgAccuracy : num;
    avgAttempts : num;
    difficulty : num
  }.
End RankedConcept.

(** Every (user, element) pair the nested [forEach] of
    [renderConceptAnalysis] visits, in its order. *)
Definition observations (data : Course.t) : list (User.t * Element.t) :=
  flat_map
    (fun ch =>
       flat_map
         (fun unit =>
            flat_map
              (fun user =>
                 flat_map (fun activity => map (pair user) (elementsOf activity))
                          (User.activities user))
              (Unit.users unit))
         (Chapter.units ch))
    (Course.chapters data).

Definition mentions (elementId : string) (a : Activity.t) : bool :=
  existsb
    (fun c =>
       existsb
         (fun p =>
            existsb (fun e => String.eqb (Element.elementId e) elementId)
                    (Component.elements p))
         (Category.components c))
    (Activity.performanceByCategory a).

Definition observe (conceptMap : list (string * ConceptStat.t))
           (o : User.t * Element.t) : list (string * ConceptStat.t) :=
  let '(user, el) := o in
  let key := Element.elementId el in
  let conceptMap1 :=
    if negb (JsMap.has String.eqb conceptMap key)
    then JsMap.set String.eqb conceptMap key
           {| ConceptStat.name := Element.elementName el;
              ConceptStat.accuracies := [];
              ConceptStat.attempts := [] |}
    else conceptMap in
  match JsMap.get String.eqb conceptMap1 key with
  | None => conceptMap1
  | Some concept =>
      let accuracies :=
        if gtb (Element.accuracy el) (Fin 0)
        then (ConceptStat.accuracies concept ++ [Element.accuracy el])%list
        else ConceptStat.accuracies concept in
      let attempts :=
        match find (mentions key) (User.activities user) with
        | Some userActivity =>
            (ConceptStat.attempts concept ++ [Activity.totalAttempts userActivity])%list
        | None => ConceptStat.attempts concept
        end in
      JsMap.set String.eqb conceptMap1 key
        {| ConceptStat.name := ConceptStat.name concept;
           ConceptStat.accuracies := accuracies;
           ConceptStat.attempts := attempts |}
  end.

Definition rank (c : ConceptStat.t) : RankedConcept.t :=
  let avgAccuracy := calculateAverage (ConceptStat.accuracies c) in
  let avgAttempts := calculateAverage (ConceptStat.attempts c) in
  let difficulty :=
    mul (sub (Fin 100) avgAccuracy)
        (if gtb avgAttempts (Fin 1) then avgAttempts else Fin (11 # 10)) in
  {| RankedConcept.name := ConceptStat.name c;
     RankedConcept.accuracies := ConceptStat.accuracies c;
     RankedConcept.attempts := ConceptStat.attempts c;
     RankedConcept.avgAccuracy := avgAccuracy;
     RankedConcept.avgAttempts := avgAttempts;
     RankedConcept.difficulty := difficulty |}.

Definition byDifficultyDesc (a b : RankedConcept.t) : num :=
  sub (RankedConcept.difficulty b) (RankedConcept.difficulty a).

(** The ranked list [concepts] of [renderConceptAnalysis]. *)
Definition renderConceptAnalysis (data : Course.t) : list RankedConcept.t :=
  sort byDifficultyDesc
       (map rank (JsMap.values (fold_left observe (observations data) []))).

(* ------------------------------------------------------------------ *)
(** ** The cohort views *)

Module Student.
Record t : Type := {
  userName : scalar;
  accuracies : list num;
  times : list num;
  isStruggling : bool
}.
End Student.

(** The [status] a student card is filed under. *)
Inductive Status : Type :=
| Struggling
| Excelling
| OnTrack.

(** Every user-in-unit record of the course, in the order of the nested
    [forEach]. *)
Definition userRecords (data : Course.t) : list User.t :=
  flat_map (fun ch => flat_map Unit.users (Chapter.units ch))
           (Course.chapters data).

(** One step of the first loop of [renderStudentAnalysis]. *)
Definition noteUser (allStudents : list (string * Student.t)) (user : User.t)
  : list (string * Student.t) :=
  let key := User.userId user in
  let allStudents1 :=
    if negb (JsMap.has String.eqb allStudents key)
    then JsMap.set String.eqb allStudents key
           {| Student.userName := User.userName user;
              Student.accuracies := [];
              Student.times := [];
              Student.isStruggling := false |}
    else allStudents in
  match JsMap.get String.eqb allStudents1 key with
  | None => allStudents1
  | Some student =>
      JsMap.set String.eqb allStudents1 key
        {| Student.userName := Student.userName student;
           Student.accuracies :=
             if gtb (User.accuracy user) (Fin 0)
             then (Student.accuracies student ++ [User.accuracy user])%list
             else Student.accuracies student;
           Student.times :=
             (Student.times student
              ++ [parseDurationToSeconds (JStr (User.totalTimeSpent user))])%list;
           Student.isStruggling :=
             if User.isStruggling user then true
             else Student.isStruggling student |}
  end.

Definition statusOf (student : Student.t) : Status :=
  let avgAccuracy := calculateAverage (Student.accuracies student) in
  if Student.isStruggling student then Struggling
  else if gtb avgAccuracy (Fin 90) then Excelling
  else OnTrack.

(** The cards of [renderStudentAnalysis]: the id of each student with the
    status the card is filed under, in the order of the map. *)
Definition renderStudentAnalysis (data : Course.t) : list (string * Status) :=
  map (fun e => (fst e, statusOf (snd e)))
      (fold_left noteUser (userRecords data) []).

Module ActivityStat.
Record t : Type := {
  accuracies : list num;
  attempts : list num
}.
End ActivityStat.

(** The [text] of the effectiveness shown on an activity card. *)
Inductive Effectiveness : Type :=
| Effective
| NeedsReview
| Moderate.

(** Every activity record of the course, in the order of the nested
    [forEach]. *)
Definition activityRecords (data : Course.t) : list Activity.t :=
  flat_map User.activities (userRecords data).

(** One step of the loop of [renderActivityAnalysis]. *)
Definition noteActivity (activityMap : list (scalar * ActivityStat.t))
           (act : Activity.t) : list (scalar * ActivityStat.t) :=
  let key := Activity.activityName act in
  let activityMap1 :=
    if negb (JsMap.has scalar_eqb activityMap key)
    then JsMap.set scalar_eqb activityMap key
           {| ActivityStat.accuracies := []; ActivityStat.attempts := [] |}
    else activityMap in
  match JsMap.get scalar_eqb activityMap1 key with
  | None => activityMap1
  | Some activity =>
      JsMap.set scalar_eqb activityMap1 key
        {| ActivityStat.accuracies :=
             (ActivityStat.accuracies activity ++ [Activity.accuracy act])%list;
           ActivityStat.attempts :=
             (ActivityStat.attempts activity ++ [Activity.totalAttempts act])%list |}
  end.

Definition effectivenessOf (data : ActivityStat.t) : Effectiveness :=
  let avgAccuracy := calculateAverage (ActivityStat.accuracies data) in
  let avgAttempts := calculateAverage (ActivityStat.attempts data) in
  if ltb avgAccuracy (Fin 70) && gtb avgAttempts (Fin 10) then NeedsReview
  else if ltb avgAccuracy (Fin 80) then Moderate
  else Effective.

(** The cards of [renderActivityAnalysis]: the name of each activity with
    its effectiveness, in the order of the map. *)
Definition renderActivityAnalysis (data : Course.t)
  : list (scalar * Effectiveness) :=
  map (fun e => (fst e, effectivenessOf (snd e)))
      (fold_left noteActivity (activityRecords data) []).

(* ------------------------------------------------------------------ *)
(** ** Sample rows *)

(** A row with every field absent. *)
Definition blankRow : Row :=
  {| ChapterId := SUndefined; ChapterNo := Undefined; ChapterName := SUndefined;
     UnitId := SUndefined; UnitNo := Undefined; UnitName := SUndefined;
     ActivityTypeId := SUndefined; ActivityTypeName := SUndefined;
     SequenceBuilderID := SUndefined;
     ConceptId := SUndefined; ConceptName := SUndefined;
     ConceptCategory := SUndefined;
     ConceptParentId := SUndefined; ConceptParentName := SUndefined;
     UserId := SUndefined; UserFullName := SUndefined;
     UnitCompletionPercentage := Undefined;
     UnitAccuracyPercentage := Undefined;
     UnitTimeSpent := TVal Undefined;
     ActivityTypeAccuracyPercentage := Undefined;
     ActivityTotalAttempts := NaN;
     ConceptAccuracyPercentage := Undefined |}.

(** A row of unit [unit] of chapter [chapter] for user [user], with the
    unit-level figures of that user. *)
Definition unitRow (chapter unit : Z) (user : string)
           (accuracy completion : jsval) (time : string) : Row :=
  {| ChapterId := SInt chapter; ChapterNo := JNum (ofZ chapter);
     ChapterName := SStr "Chapter";
     UnitId := SInt unit; UnitNo := JNum (ofZ unit); UnitName := SStr "Unit";
     ActivityTypeId := SUndefined; ActivityTypeName := SUndefined;
     SequenceBuilderID := SUndefined;
     ConceptId := SUndefined; ConceptName := SUndefined;
     ConceptCategory := SUndefined;
     ConceptParentId := SUndefined; ConceptParentName := SUndefined;
     UserId := SStr user; UserFullName := SStr user;
     UnitCompletionPercentage := completion;
     UnitAccuracyPercentage := accuracy;
     UnitTimeSpent := TVal (JStr time);
     ActivityTypeAccuracyPercentage := Undefined;
     ActivityTotalAttempts := NaN;
     ConceptAccuracyPercentage := Undefined |}.

(** The same row extended with an activity and one concept of it. *)
Definition conceptRow (chapter unit : Z) (user : string)
           (accuracy completion : jsval) (time : string)
           (activity : Z) (attempts : num) (concept : Z)
           (conceptAccuracy : jsval) : Row :=
  {| ChapterId := SInt chapter; ChapterNo := JNum (ofZ chapter);
     ChapterName := SStr "Chapter";
     UnitId := SInt unit; UnitNo := JNum (ofZ unit); UnitName := SStr "Unit";
     ActivityTypeId := SInt 1; ActivityTypeName := SStr "Quiz";
     SequenceBuilderID := SInt activity;
     ConceptId := SInt concept; ConceptName := SStr "Concept";
     ConceptCategory := SStr "Grammar";
     ConceptParentId := SInt 1; ConceptParentName := SStr "Parent";
     UserId := SStr user; UserFullName := SStr user;
     UnitCompletionPercentage := completion;
     UnitAccuracyPercentage := accuracy;
     UnitTimeSpent := TVal (JStr time);
     ActivityTypeAccuracyPercentage := conceptAccuracy;
     ActivityTotalAttempts := attempts;
     ConceptAccuracyPercentage := conceptAccuracy |}.

(** The row without its chapter number. *)
Definition withoutChapterNo (r : Row) : Row :=
  {| ChapterId := ChapterId r; ChapterNo := Undefined;
     ChapterName := ChapterName r;
     UnitId := UnitId r; UnitNo := UnitNo r; UnitName := UnitName r;
     ActivityTypeId := ActivityTypeId r; ActivityTypeName := ActivityTypeName r;
     SequenceBuilderID := SequenceBuilderID r;
     ConceptId := ConceptId r; ConceptName := ConceptName r;
     ConceptCategory := ConceptCategory r;
     ConceptParentId := ConceptParentId r;
     ConceptParentName := ConceptParentName r;
     UserId := UserId r; UserFullName := UserFullName r;
     UnitCompletionPercentage := UnitCompletionPercentage r;
     UnitAccuracyPercentage := UnitAccuracyPercentage r;
     UnitTimeSpent := UnitTimeSpent r;
     ActivityTypeAccuracyPercentage := ActivityTypeAccuracyPercentage r;
     ActivityTotalAttempts := ActivityTotalAttempts r;
     ConceptAccuracyPercentage := ConceptAccuracyPercentage r |}.


(* ------------------------------------------------------------------ *)
(** ** Notions used to state the properties *)

Definition is_digit (c : ascii) : bool :=
  let n := nat_of_ascii c in ((48 <=? n) && (n <=? 57))%nat.

Fixpoint is_digits (s : string) : bool :=
  match s with
  | EmptyString => true
  | String c r => is_digit c && is_digits r
  end.

(** The number a string of decimal digits denotes, read onto [acc]. *)
Fixpoint dvalue (s : string) (acc : Z) : Z :=
  match s with
  | EmptyString => acc
  | String c r => dvalue r (10 * acc + (Z.of_nat (nat_of_ascii c) - 48))
  end.

(** No [:] occurs in the string. *)
Fixpoint colon_free (s : string) : bool :=
  match s with
  | EmptyString => true
  | String c r => negb (Ascii.eqb c ":") && colon_free r
  end.

(** Every unit accumulator of the grouping, chapter by chapter. *)
Definition unitAccs (m : ChaptersMap) : list Acc.unit :=
  flat_map (fun c => JsMap.values (Acc._unitsMap c)) (JsMap.values m).

(** Every user accumulator of the grouping. *)
Definition userAccs (m : ChaptersMap) : list Acc.user :=
  flat_map (fun u => JsMap.values (Acc._usersMap u)) (unitAccs m).

Definition allUnits (root : Course.t) : list Unit.t :=
  flat_map Chapter.units (Course.chapters root).

Definition allUsers (root : Course.t) : list User.t :=
  flat_map Unit.users (allUnits root).

(** The user accumulator was created from the row [r]. *)
Definition userFromRow (r : Row) (u : Acc.user) : Prop :=
  Acc.userId u = String_ (UserId r)
  /\ Acc.userName u = UserFullName r
  /\ Acc.completion u = or0 (parseFloat (UnitCompletionPercentage r))
  /\ Acc.accuracy u = or0 (parseFloat (UnitAccuracyPercentage r))
  /\ Acc.totalTimeSpentSeconds u = parseTimeObjectToSeconds (UnitTimeSpent r).

(** [Math.max] on two numbers that are not [NaN]. *)
Definition maxNum (a b : num) : num := if gtb a b then a else b.

(** The difficulty index as the specification words it. *)
Definition difficultyAsStated (avgAccuracy avgAttempts : num) : num :=
  mul (sub (Fin 100) avgAccuracy) (maxNum avgAttempts (Fin (11 # 10))).

(** The field holds a number: it converts to something other than [NaN]. *)
Definition numbered (v : jsval) : bool := negb (isNaN (ToNumber v)).

(** [a.chapterNo <= b.chapterNo], as the language compares them. *)
Definition leChapterNo (a b : Chapter.t) : Prop :=
  leb (ToNumber (Chapter.chapterNo a)) (ToNumber (Chapter.chapterNo b)) = true.

Definition leUnitNo (a b : Unit.t) : Prop :=
  leb (ToNumber (Unit.unitNo a)) (ToNumber (Unit.unitNo b)) = true.

(** [b] does not rank above [a]. *)
Definition notEasierThan (a b : RankedConcept.t) : Prop :=
  gtb (RankedConcept.difficulty b) (RankedConcept.difficulty a) = false.

(** Eleven learners of one unit who met the same concept in the same
    activity: ten needed one attempt, the last one two. *)
Definition elevenLearners : list Row :=
  map (fun i =>
         conceptRow 1 1 (decimal i) (JNum (Fin 40)) (JNum (Fin 100)) "00:10:00"
                    7 (Fin 1) 9 (JNum (Fin 40)))
      [1; 2; 3; 4; 5; 6; 7; 8; 9; 10]%Z
  ++ [conceptRow 1 1 "11" (JNum (Fin 40)) (JNum (Fin 100)) "00:10:00"
                 7 (Fin 2) 9 (JNum (Fin 40))].

(** Scenario B: two rows of the same chapter, unit and user. *)
Definition scenarioB : list Row :=
  [unitRow 1 1 "u1" (JNum (Fin 30)) (JNum (Fin 100)) "02:00:00";
   unitRow 1 1 "u1" (JNum (Fin 30)) (JNum (Fin 100)) "00:30:00"].

(** Two units of one learner each; the accuracy in the first is just
    below 60. *)
Definition nearSixty : list Row :=
  [unitRow 1 1 "u1" (JNum (fin (59996 # 1000))) (JNum (Fin 100)) "02:00:00";
   unitRow 1 2 "u2" (JNum (Fin 90)) (JNum (Fin 100)) "00:10:00"].


(** Scenario E: a concept observed once, with accuracy 40, in an activity
    of 5 attempts. *)
Definition scenarioE : list Row :=
  [conceptRow 1 1 "u1" (JNum (Fin 40)) (JNum (Fin 100)) "00:10:00"
              7 (Fin 5) 9 (JNum (Fin 40))].

(** Two rows of the same user in the same unit of the same chapter. *)
Definition sameUserInUnit (r r' : Row) : bool :=
  scalar_eqb (ChapterId r) (ChapterId r')
  && scalar_eqb (UnitId r) (UnitId r')
  && scalar_eqb (UserId r) (UserId r').

(** The first row of each user-in-unit, [seen] being the rows met so far. *)
Fixpoint onePerUser (seen rows : list Row) {struct rows} : list Row :=
  match rows with
  | [] => []
  | r :: rows' =>
      if existsb (sameUserInUnit r) seen then onePerUser seen rows'
      else r :: onePerUser (r :: seen) rows'
  end.

(** The course-wide average as the specification words it: over the users
    that have a user id and a time-spent value, one value per
    user-in-unit. *)
Definition courseAverageOverUsers (rows : list Row) : num :=
  calculateAverage
    (map (fun r => parseTimeObjectToSeconds (UnitTimeSpent r))
       (filter (fun r => truthy_scalar (UserId r) && truthy_time (UnitTimeSpent r))
          (onePerUser [] rows))).

(** The observations of the concept [id]. *)
Definition conceptObservations (id : string) (data : Course.t)
  : list (User.t * Element.t) :=
  filter (fun o => String.eqb (Element.elementId (snd o)) id) (observations data).

(** The attempts an observation contributes: those of the first activity
    of the observing user that mentions the concept. *)
Definition attemptsOf (o : User.t * Element.t) : list num :=
  match find (mentions (Element.elementId (snd o))) (User.activities (fst o)) with
  | Some a => [Activity.totalAttempts a]
  | None => []
  end.

Definition initConcept (o : User.t * Element.t) : ConceptStat.t :=
  {| ConceptStat.name := Element.elementName (snd o);
     ConceptStat.accuracies := [];
     ConceptStat.attempts := [] |}.

Definition updConcept (c : ConceptStat.t) (o : User.t * Element.t)
  : ConceptStat.t :=
  {| ConceptStat.name := ConceptStat.name c;
     ConceptStat.accuracies :=
       if gtb (Element.accuracy (snd o)) (Fin 0)
       then (ConceptStat.accuracies c ++ [Element.accuracy (snd o)])%list
       else ConceptStat.accuracies c;
     ConceptStat.attempts := (ConceptStat.attempts c ++ attemptsOf o)%list |}.

(** The ranked concept [c] is made of the observations [o0 :: rest]: it
    carries the name of the first, the positive accuracies of all and the
    attempts each of them contributes. *)
Definition rankedFrom (o0 : User.t * Element.t) (rest : list (User.t * Element.t))
           (c : RankedConcept.t) : Prop :=
  RankedConcept.name c = Element.elementName (snd o0)
  /\ RankedConcept.accuracies c
     = filter positive (map (fun o => Element.accuracy (snd o)) (o0 :: rest))
  /\ RankedConcept.attempts c = flat_map attemptsOf (o0 :: rest).


(** Three chapters, read in the order 2, 3, 1; the row of chapter 3
    carries no chapter number. *)
Definition unnumbered : list Row :=
  [unitRow 2 1 "u1" (JNum (Fin 80)) (JNum (Fin 100)) "00:10:00";
   withoutChapterNo (unitRow 3 1 "u1" (JNum (Fin 80)) (JNum (Fin 100)) "00:10:00");
   unitRow 1 1 "u1" (JNum (Fin 80)) (JNum (Fin 100)) "00:10:00"].

(** Two users of one unit, the second one read first, over three
    activities. *)
Definition twoLearners : list Row :=
  [conceptRow 1 1 "u2" (JNum (Fin 70)) (JNum (Fin 100)) "00:10:00"
              8 (Fin 3) 9 (JNum (Fin 70));
   conceptRow 1 1 "u1" (JNum (Fin 80)) (JNum (Fin 100)) "00:20:00"
              7 (Fin 2) 9 (JNum (Fin 80));
   conceptRow 1 1 "u2" (JNum (Fin 10)) (JNum (Fin 10)) "00:30:00"
              7 (Fin 4) 5 (JNum (Fin 60))].

(** Three units of one chapter, one learner each. *)
Definition threeUnits : list Row :=
  [unitRow 1 1 "u1" (JNum (Fin 80)) (JNum (Fin 100)) "00:10:00";
   unitRow 1 2 "u1" (JNum (Fin 80)) (JNum (Fin 100)) "00:10:00";
   unitRow 1 3 "u1" (JNum (Fin 81)) (JNum (Fin 99)) "00:10:00"].

(** Scenario C: one student with twenty activities of sixteen attempts
    each and a unit accuracy of 65. *)
Definition scenarioC : list Row :=
  map (fun i =>
         conceptRow 1 1 "s1" (JNum (Fin 65)) (JNum (Fin 100)) "00:10:00"
                    i (Fin 16) 9 (JNum (Fin 65)))
      [1; 2; 3; 4; 5; 6; 7; 8; 9; 10; 11; 12; 13; 14; 15; 16; 17; 18; 19; 20]%Z.

(** The number is neither [NaN] nor an infinity. *)
Definition isFinite (x : num) : bool :=
  match x with Fin _ => true | _ => false end.

(** The keys of the maps of the grouping are pairwise distinct, and the
    unit and user keys are truthy. *)
Definition userDistinct (ua : Acc.user) : Prop :=
  NoDup (JsMap.keys (Acc._activityPerformanceMap ua)).

Definition unitDistinct (u : Acc.unit) : Prop :=
  NoDup (JsMap.keys (Acc._usersMap u))
  /\ forallb truthy_scalar (JsMap.keys (Acc._usersMap u)) = true
  /\ NoDup (JsMap.keys (Acc._activitiesMap u))
  /\ Forall userDistinct (JsMap.values (Acc._usersMap u)).

Definition chapterDistinct (c : Acc.chapter) : Prop :=
  NoDup (JsMap.keys (Acc._unitsMap c))
  /\ forallb truthy_scalar (JsMap.keys (Acc._unitsMap c)) = true
  /\ Forall unitDistinct (JsMap.values (Acc._unitsMap c)).

Definition groupingDistinct (m : ChaptersMap) : Prop :=
  NoDup (JsMap.keys m) /\ Forall chapterDistinct (JsMap.values m).

(** The distinct elements of a list, in the order of their first
    occurrence. *)
Section FirstSeen.
  Context {K : Type} (eqb : K -> K -> bool).

Fixpoint firstSeen (l : list K) : list K :=
  match l with
  | [] => []
  | x :: l' => x :: filter (fun y => negb (eqb x y)) (firstSeen l')
  end.
End FirstSeen.

(** The shape shared by the loops that collect records into a map: make
    sure the key has an entry, then update the entry with the record. *)
Section Collect.
  Context {A K V : Type} (eqb : K -> K -> bool).
  Context (key : A -> K) (init : A -> V) (upd : V -> A -> V).

Definition collect (m : list (K * V)) (a : A) : list (K * V) :=
  let m1 := if negb (JsMap.has eqb m (key a))
            then JsMap.set eqb m (key a) (init a) else m in
  match JsMap.get eqb m1 (key a) with
  | Some v => JsMap.set eqb m1 (key a) (upd v a)
  | None => m1
  end.
End Collect.

(** The same loop on an array of records that carry their key:
    [if (!arr.find(p)) arr.push(init)], then the update of the record
    found. *)
Section CollectList.
  Context {A K V : Type} (eqb : K -> K -> bool).
  Context (keyOf : V -> K) (key : A -> K) (init : A -> V) (upd : V -> A -> V).

Definition collectList (l : list V) (a : A) : list V :=
  update_first (fun v => eqb (keyOf v) (key a)) (fun v => upd v a)
    (push_unless (fun v => eqb (keyOf v) (key a)) (init a) l).

(** The array as the map from the keys of its records. *)
Definition keyed (l : list V) : list (K * V) := map (fun v => (keyOf v, v)) l.
End CollectList.

(** *** First-seen order, stated on the rows *)

(** The rows of a chapter and of a unit of the chapter, in their order. *)
Definition rowsOfChapter (c : scalar) (rows : list Row) : list Row :=
  filter (fun r => scalar_eqb (ChapterId r) c) rows.

Definition rowsOfUnit (c u : scalar) (rows : list Row) : list Row :=
  filter (fun r => scalar_eqb (UnitId r) u)
         (filter (fun r => truthy_scalar (UnitId r)) (rowsOfChapter c rows)).

(** The row [r'] registers the activity the row [r] refers to: it has an
    activity type and the [SequenceBuilderID] of [r]. *)
Definition registers (r r' : Row) : bool :=
  truthy_scalar (ActivityTypeId r')
  && scalar_eqb (SequenceBuilderID r') (SequenceBuilderID r).

(** Each row of a unit with the row that registered its activity: the
    first one that registers it among the rows of the unit up to the row
    itself, [before] being the rows already read. *)
Fixpoint withActivity (before rows : list Row) {struct rows}
  : list (Row * option Row) :=
  match rows with
  | [] => []
  | r :: rows' =>
      (r, find (registers r) (before ++ [r])%list)
        :: withActivity (before ++ [r])%list rows'
  end.

(** The rows of a unit that carry a user id, and those of the user [x]. *)
Definition withUser (obs : list (Row * option Row)) : list (Row * option Row) :=
  filter (fun o => truthy_scalar (UserId (fst o))) obs.

Definition ofUser (x : scalar) (obs : list (Row * option Row))
  : list (Row * option Row) :=
  filter (fun o => scalar_eqb (UserId (fst o)) x) (withUser obs).

(** The rows that have an activity, each with the row that registered
    it. *)
Definition records (obs : list (Row * option Row)) : list (Row * Row) :=
  flat_map (fun o => match snd o with
                     | Some r0 => [(fst o, r0)]
                     | None => []
                     end) obs.

(** The key of the activity in the performance map of the user. *)
Definition activityKey (rec : Row * Row) : string :=
  Acc.activityId (newActivity (snd rec)).

(** The rows of the activity [k] that carry a concept. *)
Definition conceptRows (k : string) (recs : list (Row * Row)) : list Row :=
  map fst
      (filter (fun rec => truthy_scalar (ConceptId (fst rec)))
              (filter (fun rec => String.eqb (activityKey rec) k) recs)).

Definition ofCategory (cat : scalar) (rs : list Row) : list Row :=
  filter (fun r => scalar_eqb (ConceptCategory r) cat) rs.

Definition ofComponent (comp : string) (rs : list Row) : list Row :=
  filter (fun r => String.eqb (String_ (ConceptParentId r)) comp) rs.

(** The elements of a component are the concepts of its rows, each at
    its first row. *)
Definition elementsFirstSeen (rs : list Row) (comp : Component.t) : Prop :=
  map Element.elementId (Component.elements comp)
  = firstSeen String.eqb
      (map (fun r => String_ (ConceptId r))
           (ofComponent (Component.componentId comp) rs)).

Definition componentsFirstSeen (rs : list Row) (cat : Category.t) : Prop :=
  map Component.componentId (Category.components cat)
  = firstSeen String.eqb
      (map (fun r => String_ (ConceptParentId r))
           (ofCategory (Category.category cat) rs))
  /\ Forall (elementsFirstSeen (ofCategory (Category.category cat) rs))
            (Category.components cat).

Definition categoriesFirstSeen (recs : list (Row * Row)) (k : string)
           (act : Activity.t) : Prop :=
  map Category.category (Activity.performanceByCategory act)
  = firstSeen scalar_eqb (map ConceptCategory (conceptRows k recs))
  /\ Forall (componentsFirstSeen (conceptRows k recs))
            (Activity.performanceByCategory act).

(** The activities of the user [x] are the activities of the rows of
    [x], each at its first row. *)
Definition activitiesFirstSeen (obs : list (Row * option Row)) (x : scalar)
           (activities : list Activity.t) : Prop :=
  Forall2 (categoriesFirstSeen (records (ofUser x obs)))
          (firstSeen String.eqb (map activityKey (records (ofUser x obs))))
          activities.

(** The users of a unit are the users of its rows, each at its first
    row, with the figures of that row. *)
Definition usersFirstSeen (obs : list (Row * option Row)) (users : list User.t)
  : Prop :=
  Forall2 (fun x usr =>
             User.userId usr = String_ x
             /\ (exists o0 rest,
                   ofUser x obs = o0 :: rest
                   /\ User.userName usr = UserFullName (fst o0)
                   /\ User.accuracy usr
                      = or0 (parseFloat (UnitAccuracyPercentage (fst o0)))
                   /\ User.completion usr
                      = or0 (parseFloat (UnitCompletionPercentage (fst o0)))
                   /\ User.totalTimeSpent usr
                      = formatSecondsToDuration
                          (parseTimeObjectToSeconds (UnitTimeSpent (fst o0))))
             /\ activitiesFirstSeen obs x (User.activities usr))
          (firstSeen scalar_eqb (map (fun o => UserId (fst o)) (withUser obs)))
          users.

(** The units of a chapter of the hierarchy are those its rows name, and
    the users of each are in first-seen order. *)
Definition chapterFirstSeen (rows : list Row) (ch : Chapter.t) : Prop :=
  exists c,
    In c (map ChapterId rows)
    /\ Chapter.chapterId ch = String_ c
    /\ Permutation
         (map Unit.unitId (Chapter.units ch))
         (map String_
              (firstSeen scalar_eqb
                 (map UnitId
                      (filter (fun r => truthy_scalar (UnitId r))
                              (rowsOfChapter c rows)))))
    /\ (forall u, In u (Chapter.units ch) ->
          exists uk,
            Unit.unitId u = String_ uk
            /\ usersFirstSeen (withActivity [] (rowsOfUnit c uk rows))
                              (Unit.users u)).

(** *** The grouping pass, loop by loop *)

Definition elementStep : list Element.t -> Row -> list Element.t :=
  collectList String.eqb Element.elementId (fun r => String_ (ConceptId r))
              newElement (fun e _ => e).

Definition componentStep : list Component.t -> Row -> list Component.t :=
  collectList String.eqb Component.componentId
              (fun r => String_ (ConceptParentId r)) newComponent
              (fun c r => addElement r c).

Definition categoryStep : list Category.t -> Row -> list Category.t :=
  collectList scalar_eqb Category.category ConceptCategory newCategory
              (fun c r => addComponent r c).

Definition initPerformance (rec : Row * Row) : Activity.t :=
  newPerformance (newActivity (snd rec)) (fst rec).

Definition updPerformance (ap : Activity.t) (rec : Row * Row) : Activity.t :=
  if truthy_scalar (ConceptId (fst rec)) then addCategory (fst rec) ap else ap.

Definition performanceStep
  : list (string * Activity.t) -> Row * Row -> list (string * Activity.t) :=
  collect String.eqb activityKey initPerformance updPerformance.

Definition updUser (ua : Acc.user) (o : Row * option Row) : Acc.user :=
  stepUser (option_map newActivity (snd o)) (fst o) ua.

Definition userStep
  : list (scalar * Acc.user) -> Row * option Row -> list (scalar * Acc.user) :=
  collect scalar_eqb (fun o => UserId (fst o)) (fun o => newUser (fst o)) updUser.

(** The activities map after [if (row.ActivityTypeId && !has(sb)) set(sb, ...)]. *)
Definition registered (acts : list (scalar * Acc.activity)) (row : Row)
  : list (scalar * Acc.activity) :=
  if truthy_scalar (ActivityTypeId row)
     && negb (JsMap.has scalar_eqb acts (SequenceBuilderID row))
  then JsMap.set scalar_eqb acts (SequenceBuilderID row) (newActivity row)
  else acts.

(** What a user's record takes from the activity: its id and its name. *)
Definition headOf (a : Acc.activity) : string * scalar :=
  (Acc.activityId a, Acc.activityName a).

(** The activities of the unit are those its rows [before] registered. *)
Definition actsAgree (before : list Row) (acts : list (scalar * Acc.activity))
  : Prop :=
  forall r : Row,
    option_map headOf (JsMap.get scalar_eqb acts (SequenceBuilderID r))
    = option_map (fun r0 => headOf (newActivity r0)) (find (registers r) before).

Definition unitStep : list (scalar * Acc.unit) -> Row -> list (scalar * Acc.unit) :=
  collect scalar_eqb UnitId newUnit (fun u r => stepUnit r u).

Definition chapterStep : ChaptersMap -> Row -> ChaptersMap :=
  collect scalar_eqb ChapterId newChapter (fun c r => stepChapter r c).

Definition initStudent (user : User.t) : Student.t :=
  {| Student.userName := User.userName user;
     Student.accuracies := [];
     Student.times := [];
     Student.isStruggling := false |}.

Definition updStudent (student : Student.t) (user : User.t) : Student.t :=
  {| Student.userName := Student.userName student;
     Student.accuracies :=
       if gtb (User.accuracy user) (Fin 0)
       then (Student.accuracies student ++ [User.accuracy user])%list
       else Student.accuracies student;
     Student.times :=
       (Student.times student
        ++ [parseDurationToSeconds (JStr (User.totalTimeSpent user))])%list;
     Student.isStruggling :=
       if User.isStruggling user then true else Student.isStruggling student |}.

Definition initActivity (act : Activity.t) : ActivityStat.t :=
  {| ActivityStat.accuracies := []; ActivityStat.attempts := [] |}.

Definition updActivity (s : ActivityStat.t) (act : Activity.t) : ActivityStat.t :=
  {| ActivityStat.accuracies :=
       (ActivityStat.accuracies s ++ [Activity.accuracy act])%list;
     ActivityStat.attempts :=
       (ActivityStat.attempts s ++ [Activity.totalAttempts act])%list |}.

(** The records of the activity called [name]. *)
Definition isActivity (name : scalar) (act : Activity.t) : bool :=
  scalar_eqb (Activity.activityName act) name.

(** The multiple of [10^-d] nearest to [q], the one of larger magnitude
    on a tie. *)
Definition nearestDecimal (q : Q) (d : nat) : Q :=
  let n := Qfloor (Qabs q * inject_Z (10 ^ Z.of_nat d) + (1 # 2))%Q in
  let r := (inject_Z n / inject_Z (10 ^ Z.of_nat d))%Q in
  if is_neg q then (- r)%Q else r.

(** The root of the hierarchy built from [rows]. *)
Definition rootOf (rows : list Row) : Course.t := buildCourse rows (group rows).

(* ------------------------------------------------------------------ *)
(** ** Arithmetic on integer-valued numbers *)

Lemma Qred_inject (k : Z) : Qred (inject_Z k) = inject_Z k.
Proof.
  unfold Qred, inject_Z.
  pose proof (Z.ggcd_gcd k 1) as Hg.
  pose proof (Z.ggcd_correct_divisors k 1) as Hd.
  destruct (Z.ggcd k 1) as [g [aa bb]]. simpl in Hg.
  rewrite Z.gcd_1_r in Hg. subst g. destruct Hd as [Ha Hb].
  rewrite !Z.mul_1_l in *. now subst.
Qed.

Lemma fin_inject (q : Q) (k : Z) : (q == inject_Z k)%Q -> fin q = ofZ k.
Proof.
  intros H. unfold fin, ofZ. rewrite (Qred_complete _ _ H).
  now rewrite Qred_inject.
Qed.

Lemma add_ofZ a b : add (ofZ a) (ofZ b) = ofZ (a + b).
Proof. apply fin_inject. unfold Qeq; simpl. lia. Qed.

Lemma mul_ofZ a b : mul (ofZ a) (ofZ b) = ofZ (a * b).
Proof. apply fin_inject. unfold Qeq; simpl. lia. Qed.

Lemma floor_div_ofZ a b : 0 < b -> floor (div (ofZ a) (ofZ b)) = IInt (a / b).
Proof.
  intros Hb. unfold div, ofZ, is_zero. simpl Qnum.
  destruct (Z.eqb_spec b 0); [lia|].
  unfold floor, fin. f_equal. rewrite (Qfloor_comp _ _ (Qred_correct _)).
  destruct b; try lia. unfold Qdiv, Qinv, Qmult, Qfloor. simpl.
  now rewrite Z.mul_1_r.
Qed.

Lemma rem_ofZ a b : 0 <= a -> 0 < b -> rem (ofZ a) (ofZ b) = ofZ (a mod b).
Proof.
  intros Ha Hb. unfold rem, ofZ, is_zero. simpl Qnum.
  destruct (Z.eqb_spec b 0); [lia|].
  apply fin_inject.
  assert (Ht : Qtrunc ((a # 1) / (b # 1)) = a / b).
  { destruct b; try lia. unfold Qtrunc, is_neg, Qdiv, Qinv, Qmult. simpl.
    rewrite Z.mul_1_r. destruct (Z.ltb_spec a 0); [lia|]. reflexivity. }
  rewrite Ht. unfold Qeq. simpl. pose proof (Z.div_mod a b). lia.
Qed.

(* ------------------------------------------------------------------ *)
(** ** Strings of decimal digits *)

Lemma is_digit_cases c :
  is_digit c = true ->
  In c ["0"; "1"; "2"; "3"; "4"; "5"; "6"; "7"; "8"; "9"]%char.
Proof.
  destruct c as [[] [] [] [] [] [] [] []]; vm_compute; intros H;
    try discriminate H; tauto.
Qed.

Ltac digit_cases c H :=
  apply is_digit_cases in H; simpl in H;
  repeat (destruct H as [H | H]; [subst c | ]); [ .. | contradiction H].

Lemma digit_val_digit c :
  is_digit c = true -> digit_val 10 c = Some (Z.of_nat (nat_of_ascii c) - 48).
Proof. intros H. digit_cases c H; reflexivity. Qed.

Lemma digit_not_space c : is_digit c = true -> is_space c = false.
Proof. intros H. digit_cases c H; reflexivity. Qed.

Lemma digit_not_colon c : is_digit c = true -> Ascii.eqb c ":" = false.
Proof. intros H. digit_cases c H; reflexivity. Qed.

Lemma small_cases d : 0 <= d < 10 -> In d [0;1;2;3;4;5;6;7;8;9].
Proof. intros H. simpl. lia. Qed.

Lemma is_digit_digit_char d : 0 <= d < 10 -> is_digit (digit_char d) = true.
Proof.
  intros H. apply small_cases in H. simpl in H.
  repeat (destruct H as [H | H]; [subst d; reflexivity | ]).
  contradiction.
Qed.

Lemma digit_char_code d :
  0 <= d < 10 -> Z.of_nat (nat_of_ascii (digit_char d)) - 48 = d.
Proof.
  intros H. apply small_cases in H. simpl in H.
  repeat (destruct H as [H | H]; [subst d; reflexivity | ]).
  contradiction.
Qed.

Lemma read_digits_digits s : forall acc cnt,
  is_digits s = true ->
  read_digits 10 s acc cnt = (dvalue s acc, (cnt + String.length s)%nat, "").
Proof.
  induction s as [|c r IH]; intros acc cnt H; cbn [read_digits dvalue String.length].
  - now rewrite Nat.add_0_r.
  - cbn [is_digits] in H. apply andb_prop in H as [Hc Hr].
    rewrite (digit_val_digit _ Hc).
    rewrite IH by assumption. f_equal. f_equal. lia.
Qed.

Lemma decimal_fuel_spec fuel : forall n acc,
  0 <= n < 2 ^ Z.of_nat fuel -> is_digits acc = true ->
  is_digits (decimal_fuel fuel n acc) = true
  /\ dvalue (decimal_fuel fuel n acc) 0 = dvalue acc n.
Proof.
  induction fuel as [|f IH]; intros n acc Hn Hacc.
  - cbn [decimal_fuel]. split; [assumption|]. f_equal.
    change (2 ^ Z.of_nat 0) with 1 in Hn. lia.
  - cbn [decimal_fuel].
    assert (Hm : 0 <= n mod 10 < 10) by (apply Z.mod_pos_bound; lia).
    assert (Hacc' : is_digits (String (digit_char (n mod 10)) acc) = true).
    { cbn [is_digits]. now rewrite is_digit_digit_char, Hacc. }
    destruct (Z.ltb_spec n 10) as [Hlt | Hge].
    + split; [assumption|]. cbn [dvalue].
      rewrite digit_char_code by assumption.
      rewrite Z.mod_small by lia. f_equal.
    + assert (Hq : 0 <= n / 10 < 2 ^ Z.of_nat f).
      { rewrite Nat2Z.inj_succ, Z.pow_succ_r in Hn by lia.
        split; [apply Z.div_pos; lia|].
        apply Z.div_lt_upper_bound; lia. }
      destruct (IH (n / 10) _ Hq Hacc') as [H1 H2]. split; [assumption|].
      rewrite H2. cbn [dvalue]. rewrite digit_char_code by assumption.
      f_equal. pose proof (Z.div_mod n 10). lia.
Qed.

Lemma decimal_spec (n : Z) :
  (0 <= n)%Z -> is_digits (decimal n) = true /\ dvalue (decimal n) 0 = n.
Proof.
  intros Hn. unfold decimal.
  apply (decimal_fuel_spec _ n EmptyString); [|reflexivity].
  split; [assumption|].
  destruct (Z.eq_dec n 0) as [->|Hz]; [reflexivity|].
  rewrite Nat2Z.inj_succ, Z2Nat.id by apply Z.log2_nonneg.
  apply Z.log2_spec. lia.
Qed.

Lemma decimal_fuel_nonempty fuel : forall (n : Z) (c : ascii) (acc : string),
  decimal_fuel fuel n (String c acc) <> EmptyString.
Proof.
  induction fuel as [|f IH]; intros n c acc; cbn [decimal_fuel]; [discriminate|].
  destruct (n <? 10)%Z; [discriminate|]. apply IH.
Qed.

Lemma decimal_nonempty (n : Z) : decimal n <> EmptyString.
Proof.
  unfold decimal. cbn [decimal_fuel].
  destruct (n <? 10)%Z; [discriminate|]. apply decimal_fuel_nonempty.
Qed.

Lemma is_digits_app a b :
  is_digits (a ++ b) = is_digits a && is_digits b.
Proof.
  induction a as [|c a IH]; cbn [is_digits String.append]; [reflexivity|].
  now rewrite IH, andb_assoc.
Qed.

Lemma dvalue_app a b acc : dvalue (a ++ b) acc = dvalue b (dvalue a acc).
Proof.
  revert acc. induction a as [|c a IH]; intros acc;
    cbn [dvalue String.append]; [reflexivity|]. apply IH.
Qed.

Lemma zeros_digits k : is_digits (zeros k) = true /\ dvalue (zeros k) 0 = 0.
Proof. induction k as [|k [IH1 IH2]]; cbn; auto. Qed.

Lemma padStart0_spec len s :
  is_digits s = true ->
  is_digits (padStart0 len s) = true /\ dvalue (padStart0 len s) 0 = dvalue s 0.
Proof.
  intros H. unfold padStart0.
  destruct (zeros_digits (len - String.length s)) as [H1 H2].
  rewrite is_digits_app, dvalue_app, H1, H2, H. auto.
Qed.

Lemma padStart0_nonempty len s : s <> EmptyString -> padStart0 len s <> EmptyString.
Proof.
  unfold padStart0. destruct (zeros _); cbn [String.append]; [auto|discriminate].
Qed.

(** A non-empty string of decimal digits reads as the number it denotes. *)
Lemma Number_string_digits s :
  is_digits s = true -> s <> EmptyString -> Number_string s = ofZ (dvalue s 0).
Proof.
  destruct s as [|c r]; [congruence|]. intros H _.
  pose proof H as Hall. cbn [is_digits] in H. apply andb_prop in H as [Hc Hr].
  unfold Number_string.
  assert (Ht : trimStart (String c r) = String c r)
    by (cbn [trimStart]; now rewrite (digit_not_space _ Hc)).
  rewrite Ht.
  assert (Hsp : all_space (String c r) = false)
    by (cbn [all_space]; now rewrite (digit_not_space _ Hc)).
  rewrite Hsp.
  assert (Hrad : nonDecimalRadix (String c r) = None).
  { destruct r as [|c2 r2].
    - digit_cases c Hc; reflexivity.
    - cbn [is_digits] in Hr. apply andb_prop in Hr as [Hc2 _].
      digit_cases c Hc; try reflexivity.
      digit_cases c2 Hc2; reflexivity. }
  rewrite Hrad.
  assert (Hlit : strDecimalLiteral (String c r)
                 = Some (ofZ (dvalue (String c r) 0), EmptyString)).
  { unfold strDecimalLiteral.
    assert (Hsign : match String c r with
                    | String "+" r0 => (false, r0)
                    | String "-" r0 => (true, r0)
                    | _ => (false, String c r)
                    end = (false, String c r))
      by (digit_cases c Hc; reflexivity).
    rewrite Hsign.
    assert (Hinf : strip_prefix "Infinity" (String c r) = None)
      by (digit_cases c Hc; reflexivity).
    rewrite Hinf, (read_digits_digits _ 0 0%nat Hall).
    cbn [exponentPart Nat.add String.length Nat.eqb].
    f_equal. f_equal. apply fin_inject.
    cbn [Z.of_nat Z.pow Qpower]. unfold Qeq, Qdiv, Qinv, Qmult, Qplus, inject_Z.
    cbn. lia. }
  rewrite Hlit. reflexivity.
Qed.

Lemma digits_colon_free s : is_digits s = true -> colon_free s = true.
Proof.
  induction s as [|c r IH]; cbn [is_digits colon_free]; [reflexivity|].
  intros H. apply andb_prop in H as [Hc Hr].
  now rewrite (digit_not_colon _ Hc), IH.
Qed.

Lemma split_colon_free a : colon_free a = true -> split ":" a = [a].
Proof.
  induction a as [|c r IH]; cbn [colon_free split]; [reflexivity|].
  intros H. apply andb_prop in H as [Hc Hr].
  apply negb_true_iff in Hc. rewrite Hc, (IH Hr). reflexivity.
Qed.

Lemma split_app a r :
  colon_free a = true -> split ":" (a ++ String ":" r) = a :: split ":" r.
Proof.
  induction a as [|c a IH]; cbn [colon_free split String.append].
  - reflexivity.
  - intros H. apply andb_prop in H as [Hc Hr].
    apply negb_true_iff in Hc. rewrite Hc, (IH Hr). reflexivity.
Qed.

(** Below [10^21] a non-negative integer prints as its digits. *)
Lemma toString_digits (k : Z) :
  0 <= k < 10 ^ 21 -> toString (IInt k) = decimal k.
Proof.
  intros Hk. cbn [toString]. unfold Z_toString, magnitude.
  destruct (Z.ltb_spec k 0) as [?|_]; [lia|].
  destruct (Z.ltb_spec k (10 ^ 21)) as [_|?]; [reflexivity|lia].
Qed.

(** The two-digit field the formatter prints for a non-negative integer
    below [10^21]. *)
Lemma field_spec (k : Z) :
  0 <= k < 10 ^ 21 ->
  let f := padStart0 2 (toString (IInt k)) in
  is_digits f = true /\ f <> EmptyString /\ Number_string f = ofZ k.
Proof.
  intros Hk f. subst f. rewrite toString_digits by assumption.
  destruct Hk as [Hk Hk'].
  destruct (decimal_spec k Hk) as [Hd Hv].
  destruct (padStart0_spec 2 _ Hd) as [Hp Hpv].
  pose proof (padStart0_nonempty 2 _ (decimal_nonempty k)) as Hne.
  repeat split; try assumption.
  rewrite (Number_string_digits _ Hp Hne). now rewrite Hpv, Hv.
Qed.

Lemma floor_ofZ (k : Z) : floor (ofZ k) = IInt k.
Proof. unfold floor, ofZ, Qfloor. f_equal. apply Z.div_1_r. Qed.

Lemma formatSecondsToDuration_ofZ (z : Z) :
  0 <= z ->
  formatSecondsToDuration (ofZ z)
  = padStart0 2 (toString (IInt (z / 3600))) ++ ":"
    ++ padStart0 2 (toString (IInt ((z mod 3600) / 60))) ++ ":"
    ++ padStart0 2 (toString (IInt (z mod 60))).
Proof.
  intros Hz. unfold formatSecondsToDuration.
  assert (Hlt : ltb (ofZ z) (Fin 0) = false).
  { unfold ltb, ofZ. apply negb_false_iff. apply Qle_bool_iff.
    unfold Qle. simpl. lia. }
  rewrite Hlt. cbn [isNaN ofZ orb].
  change (Fin (z # 1)) with (ofZ z).
  change (Fin 3600) with (ofZ 3600). change (Fin 60) with (ofZ 60).
  rewrite (rem_ofZ z 3600), (rem_ofZ z 60) by lia.
  rewrite !floor_div_ofZ by lia.
  rewrite floor_ofZ. reflexivity.
Qed.

Lemma parse_three_fields (a b c : string) :
  is_digits a = true -> is_digits b = true -> is_digits c = true ->
  a <> EmptyString ->
  parseDurationToSeconds (JStr (a ++ ":" ++ b ++ ":" ++ c))
  = add (add (mul (Number_string a) (Fin 3600)) (mul (Number_string b) (Fin 60)))
        (Number_string c).
Proof.
  intros Ha Hb Hc Hne. unfold parseDurationToSeconds.
  assert (Ht : truthy (JStr (a ++ ":" ++ b ++ ":" ++ c)) = true).
  { cbn [truthy]. destruct a as [|x a']; [congruence|]. reflexivity. }
  rewrite Ht. cbn [negb].
  change (":" ++ b ++ ":" ++ c) with (String ":" (b ++ String ":" c)).
  rewrite (split_app a) by now apply digits_colon_free.
  rewrite (split_app b) by now apply digits_colon_free.
  rewrite (split_colon_free c) by now apply digits_colon_free.
  reflexivity.
Qed.

Lemma parse_format_ofZ (z : Z) :
  0 <= z < 10 ^ 21 ->
  parseDurationToSeconds (JStr (formatSecondsToDuration (ofZ z))) = ofZ z.
Proof.
  intros [Hz Hz']. rewrite formatSecondsToDuration_ofZ by assumption.
  assert (Hm : 0 <= z mod 3600 < 3600) by (apply Z.mod_pos_bound; lia).
  assert (H1 : 0 <= z / 3600 < 10 ^ 21).
  { split; [apply Z.div_pos; lia|]. apply Z.div_lt_upper_bound; lia. }
  assert (H2 : 0 <= (z mod 3600) / 60 < 10 ^ 21).
  { split; [apply Z.div_pos; lia|]. apply Z.div_lt_upper_bound; lia. }
  assert (H3 : 0 <= z mod 60 < 10 ^ 21).
  { pose proof (Z.mod_pos_bound z 60). lia. }
  destruct (field_spec _ H1) as (Ha & Hane & Hav).
  destruct (field_spec _ H2) as (Hb & _ & Hbv).
  destruct (field_spec _ H3) as (Hc & _ & Hcv).
  rewrite parse_three_fields by assumption.
  rewrite Hav, Hbv, Hcv.
  change (Fin 3600) with (ofZ 3600). change (Fin 60) with (ofZ 60).
  rewrite !mul_ofZ, !add_ofZ. f_equal.
  pose proof (Z.div_mod z 3600). pose proof (Z.div_mod (z mod 3600) 60).
  assert (Hmm : (z mod 3600) mod 60 = z mod 60).
  { apply Z.mod_mod_divide. exists 60. reflexivity. }
  lia.
Qed.

(* ------------------------------------------------------------------ *)
(** ** The duration helpers on doubles *)

Lemma nearestEven_bounds (n d lo hi : Z) :
  0 < d -> lo * d <= n -> 2 * n + d < 2 * (hi + 1) * d ->
  lo <= Double.nearestEven n d <= hi.
Proof.
  intros Hd Hlo Hhi. unfold Double.nearestEven.
  pose proof (Z.div_mod n d ltac:(lia)) as E.
  pose proof (Z.mod_pos_bound n d Hd) as Hr.
  set (q := n / d) in *. set (r := n mod d) in *.
  assert (Hq : lo <= q) by (subst q; apply Z.div_le_lower_bound; lia).
  assert (Hq' : q <= hi) by nia.
  destruct (Z.ltb_spec (2 * r) d); [lia|].
  assert (Hup : q + 1 <= hi) by nia.
  destruct (Z.ltb_spec d (2 * r)); [lia|].
  destruct (Z.even q); lia.
Qed.

Lemma exponentOf_lt (a : Q) (m : Z) :
  0 < Qnum a -> 0 <= m -> Qnum a < 2 ^ m * Zpos (Qden a) ->
  Double.exponentOf a < m.
Proof.
  intros Hp Hm Hlt. unfold Double.exponentOf.
  set (p := Qnum a) in *. set (d := Zpos (Qden a)) in *.
  assert (Hd : 0 < d) by (subst d; lia).
  assert (Hk : Z.log2 p - Z.log2 d <= m).
  { assert (H : Z.log2 p <= Z.log2 (d * 2 ^ m)) by (apply Z.log2_le_mono; lia).
    rewrite Z.log2_mul_pow2 in H by lia. lia. }
  set (k := Z.log2 p - Z.log2 d) in *.
  destruct (Z.leb_spec (d * 2 ^ Z.max k 0) (p * 2 ^ Z.max (- k) 0)) as [Ht|Ht];
    [|lia].
  destruct (Z.le_gt_cases k 0) as [Hk0|Hk0].
  - destruct (Z.eq_dec k 0) as [E|E]; [|lia].
    rewrite E in Ht. change (Z.max 0 0) with 0 in Ht.
    change (Z.max (- 0) 0) with 0 in Ht. change (2 ^ 0) with 1 in Ht.
    destruct (Z.eq_dec m 0) as [Em|Em]; [|lia].
    rewrite Em in Hlt. change (2 ^ 0) with 1 in Hlt. lia.
  - rewrite Z.max_l, Z.max_r in Ht by lia.
    change (2 ^ 0) with 1 in Ht. rewrite Z.mul_1_r in Ht.
    destruct (Z.lt_ge_cases k m) as [|Hge]; [assumption|].
    assert (H2 : 2 ^ m <= 2 ^ k) by (apply Z.pow_le_mono_r; lia).
    assert (H3 : 2 ^ m * d <= 2 ^ k * d) by (apply Z.mul_le_mono_nonneg_r; lia).
    lia.
Qed.

Lemma round_int (z : Z) : 0 <= z < 2 ^ 53 -> Double.round (z # 1) = ofZ z.
Proof.
  intros [Hz Hz']. unfold Double.round, is_zero. cbn [Qnum].
  destruct (Z.eqb_spec z 0) as [->|Hne]; [reflexivity|].
  assert (Hpos : 0 < z) by lia.
  unfold Double.roundPositive, is_neg, Qabs. cbn [Qnum Qden].
  rewrite (Z.abs_eq z) by lia.
  destruct (Z.ltb_spec z 0) as [|_]; [lia|].
  assert (He : Double.exponentOf (z # 1) = Z.log2 z).
  { unfold Double.exponentOf. cbn [Qnum Qden]. change (Z.log2 1) with 0.
    rewrite Z.sub_0_r.
    pose proof (Z.log2_nonneg z) as Hl. pose proof (Z.log2_spec z Hpos) as Hs.
    rewrite Z.max_l, Z.max_r by lia.
    change (2 ^ 0) with 1. rewrite Z.mul_1_l, Z.mul_1_r.
    destruct (Z.leb_spec (2 ^ Z.log2 z) z); [reflexivity|lia]. }
  rewrite He.
  assert (Hl : 0 <= Z.log2 z < 53).
  { split; [apply Z.log2_nonneg|]. apply Z.log2_lt_pow2; lia. }
  rewrite (Z.max_l (Z.log2 z)) by lia.
  set (s := 52 - Z.log2 z). assert (Hs : 0 <= s) by (subst s; lia).
  rewrite (Z.max_l s 0), (Z.max_r (- s) 0) by lia.
  change (2 ^ 0) with 1. rewrite !Z.mul_1_r.
  assert (Hn : Double.nearestEven (z * 2 ^ s) 1 = z * 2 ^ s).
  { unfold Double.nearestEven. rewrite Z.mod_1_r, Z.div_1_r. reflexivity. }
  rewrite Hn.
  assert (Hp : 0 < 2 ^ s) by (apply Z.pow_pos_nonneg; lia).
  assert (Hv : (z * 2 ^ s # Z.to_pos (2 ^ s) == inject_Z z)%Q).
  { unfold Qeq. cbn [Qnum Qden inject_Z]. rewrite Z2Pos.id by lia. lia. }
  assert (Ho : Qle_bool (inject_Z (2 ^ 1024)) (z * 2 ^ s # Z.to_pos (2 ^ s)) = false).
  { destruct (Qle_bool _ _) eqn:E; [|reflexivity].
    apply Qle_bool_iff in E. rewrite Hv in E. rewrite <- Zle_Qle in E.
    assert (2 ^ 53 < 2 ^ 1024) by (apply Z.pow_lt_mono_r; lia). lia. }
  rewrite Ho. now apply fin_inject.
Qed.

Lemma floor_round (q : Q) (k : Z) :
  0 <= k < 2 ^ 42 ->
  (inject_Z k <= q)%Q -> (q <= inject_Z k + (3599 # 3600))%Q ->
  floor (Double.round q) = IInt k.
Proof.
  intros [Hk Hk'] Hlo Hhi. destruct q as [p dd].
  unfold Qle in Hlo, Hhi. cbn in Hlo, Hhi.
  set (d := Zpos dd) in *. assert (Hd : 0 < d) by (subst d; lia).
  unfold Double.round, is_zero. cbn [Qnum].
  destruct (Z.eqb_spec p 0) as [->|Hne].
  { cbn [floor]. f_equal. change (Qfloor 0) with 0. nia. }
  assert (Hp : 0 < p) by nia.
  unfold Double.roundPositive, is_neg, Qabs. cbn [Qnum Qden].
  rewrite (Z.abs_eq p) by lia.
  destruct (Z.ltb_spec p 0) as [|_]; [lia|].
  assert (He : Double.exponentOf (p # dd) < 42).
  { apply exponentOf_lt; cbn [Qnum Qden]; [assumption|lia|]. fold d. nia. }
  set (e := Z.max (Double.exponentOf (p # dd)) (-1022)).
  assert (He' : e <= 41) by (subst e; lia).
  set (s := 52 - e). assert (Hs : 11 <= s) by (subst s; lia).
  rewrite (Z.max_l s 0), (Z.max_r (- s) 0) by lia.
  change (2 ^ 0) with 1. rewrite !Z.mul_1_r. fold d.
  set (P := 2 ^ s).
  assert (HP : 2048 <= P).
  { subst P. change 2048 with (2 ^ 11). apply Z.pow_le_mono_r; lia. }
  destruct (nearestEven_bounds (p * P) d (k * P) ((k + 1) * P - 1) Hd)
    as [Hn Hn']; [nia|nia|].
  set (n := Double.nearestEven (p * P) d) in *.
  assert (Hv : Qfloor (n # Z.to_pos P) = k).
  { unfold Qfloor. rewrite Z2Pos.id by lia. symmetry.
    apply (Z.div_unique n P k (n - k * P)); lia. }
  assert (Ho : Qle_bool (inject_Z (2 ^ 1024)) (n # Z.to_pos P) = false).
  { destruct (Qle_bool _ _) eqn:E; [|reflexivity].
    apply Qle_bool_iff in E. exfalso. revert E. apply Qlt_not_le.
    assert (H1024 : 2 ^ 42 < 2 ^ 1024) by (apply Z.pow_lt_mono_r; lia).
    set (M := 2 ^ 1024) in *.
    unfold Qlt. cbn [Qnum Qden inject_Z]. rewrite Z2Pos.id by lia.
    rewrite Z.mul_1_r.
    assert (H1 : n < 2 ^ 42 * P) by nia.
    assert (H2 : 2 ^ 42 * P <= M * P) by (apply Z.mul_le_mono_nonneg_r; lia).
    lia. }
  rewrite Ho. unfold fin, floor. f_equal.
  now rewrite (Qfloor_comp _ _ (Qred_correct _)).
Qed.

Lemma double_add_ofZ (a b : Z) :
  0 <= a + b < 2 ^ 53 -> Double.add (ofZ a) (ofZ b) = ofZ (a + b).
Proof.
  intros H. unfold Double.add. rewrite add_ofZ. now apply round_int.
Qed.

Lemma double_mul_ofZ (a b : Z) :
  0 <= a * b < 2 ^ 53 -> Double.mul (ofZ a) (ofZ b) = ofZ (a * b).
Proof.
  intros H. unfold Double.mul. rewrite mul_ofZ. now apply round_int.
Qed.

Lemma double_rem_ofZ (a b : Z) :
  0 <= a < 2 ^ 53 -> 0 < b -> Double.rem (ofZ a) (ofZ b) = ofZ (a mod b).
Proof.
  intros Ha Hb. unfold Double.rem. rewrite rem_ofZ by lia.
  apply round_int. pose proof (Z.mod_pos_bound a b Hb).
  assert (a mod b <= a) by (apply Z.mod_le; lia). lia.
Qed.

Lemma double_floor_div_ofZ (a b : Z) :
  0 <= a -> 0 < b <= 3600 -> a / b < 2 ^ 42 ->
  floor (Double.div (ofZ a) (ofZ b)) = IInt (a / b).
Proof.
  intros Ha Hb Hk. unfold Double.div, div, ofZ, is_zero. cbn [Qnum].
  destruct (Z.eqb_spec b 0); [lia|]. unfold fin. cbn [Double.rounded].
  pose proof (Z.div_mod a b ltac:(lia)) as E.
  pose proof (Z.mod_pos_bound a b ltac:(lia)) as Hr.
  assert (Hq : ((a # 1) / (b # 1) == a # Z.to_pos b)%Q).
  { destruct b as [|b'|b']; try lia. unfold Qdiv, Qinv, Qmult, Qeq. cbn. lia. }
  apply floor_round.
  - split; [apply Z.div_pos; lia|assumption].
  - rewrite Qred_correct, Hq. unfold Qle. cbn [Qnum Qden inject_Z].
    rewrite Z2Pos.id by lia. nia.
  - rewrite Qred_correct, Hq. unfold Qle, Qplus. cbn [Qnum Qden inject_Z].
    rewrite Z2Pos.id by lia.
    change (Z.pos (1 * 3600)) with 3600. nia.
Qed.

Lemma double_Number_string (f : string) (k : Z) :
  0 <= k < 2 ^ 53 -> Number_string f = ofZ k -> Double.Number_string f = ofZ k.
Proof.
  intros Hk E. unfold Double.Number_string. rewrite E. now apply round_int.
Qed.

(** Below [2^53] a number of seconds is shown on doubles as it is on
    exact numbers. *)
Lemma double_format_ofZ (z : Z) :
  0 <= z < 2 ^ 53 ->
  Double.formatSecondsToDuration (ofZ z) = formatSecondsToDuration (ofZ z).
Proof.
  intros [Hz Hz']. rewrite formatSecondsToDuration_ofZ by assumption.
  unfold Double.formatSecondsToDuration.
  assert (Hlt : ltb (ofZ z) (Fin 0) = false).
  { unfold ltb, ofZ. apply negb_false_iff. apply Qle_bool_iff.
    unfold Qle. simpl. lia. }
  rewrite Hlt. cbn [isNaN ofZ orb].
  change (Fin (z # 1)) with (ofZ z).
  change (Fin 3600) with (ofZ 3600). change (Fin 60) with (ofZ 60).
  pose proof (Z.mod_pos_bound z 3600 ltac:(lia)) as Hm.
  pose proof (Z.mod_pos_bound z 60 ltac:(lia)) as Hs.
  rewrite (double_rem_ofZ z 3600), (double_rem_ofZ z 60) by lia.
  rewrite (double_floor_div_ofZ z 3600); [|lia|lia|].
  2:{ apply Z.div_lt_upper_bound; [lia|].
      change (2 ^ 53) with (2 ^ 11 * 2 ^ 42) in Hz'. lia. }
  rewrite (double_floor_div_ofZ (z mod 3600) 60); [|lia|lia|].
  2:{ apply Z.div_lt_upper_bound; [lia|].
      assert (2 ^ 12 <= 2 ^ 42) by (apply Z.pow_le_mono_r; lia). lia. }
  rewrite floor_ofZ. reflexivity.
Qed.

Lemma double_parse_three_fields (a b c : string) :
  is_digits a = true -> is_digits b = true -> is_digits c = true ->
  a <> EmptyString ->
  Double.parseDurationToSeconds (JStr (a ++ ":" ++ b ++ ":" ++ c))
  = Double.add
      (Double.add (Double.mul (Double.Number_string a) (Fin 3600))
                  (Double.mul (Double.Number_string b) (Fin 60)))
      (Double.Number_string c).
Proof.
  intros Ha Hb Hc Hne. unfold Double.parseDurationToSeconds.
  assert (Ht : truthy (JStr (a ++ ":" ++ b ++ ":" ++ c)) = true).
  { cbn [truthy]. destruct a as [|x a']; [congruence|]. reflexivity. }
  rewrite Ht. cbn [negb].
  change (":" ++ b ++ ":" ++ c) with (String ":" (b ++ String ":" c)).
  rewrite (split_app a) by now apply digits_colon_free.
  rewrite (split_app b) by now apply digits_colon_free.
  rewrite (split_colon_free c) by now apply digits_colon_free.
  reflexivity.
Qed.

(** The round trip on doubles, below [2^53]. *)
Lemma double_parse_format (z : Z) :
  0 <= z < 2 ^ 53 ->
  Double.parseDurationToSeconds (JStr (Double.formatSecondsToDuration (ofZ z)))
  = ofZ z.
Proof.
  intros Hz. rewrite double_format_ofZ by assumption. destruct Hz as [Hz Hz'].
  rewrite formatSecondsToDuration_ofZ by assumption.
  pose proof (Z.mod_pos_bound z 3600 ltac:(lia)) as Hm.
  pose proof (Z.mod_pos_bound z 60 ltac:(lia)) as Hs.
  pose proof (Z.div_mod z 3600 ltac:(lia)) as E1.
  pose proof (Z.div_mod (z mod 3600) 60 ltac:(lia)) as E2.
  assert (Hmm : (z mod 3600) mod 60 = z mod 60).
  { apply Z.mod_mod_divide. exists 60. reflexivity. }
  assert (H0 : 0 <= z / 3600) by (apply Z.div_pos; lia).
  assert (H0' : 0 <= (z mod 3600) / 60) by (apply Z.div_pos; lia).
  assert (Hbig : 2 ^ 53 < 10 ^ 21) by reflexivity.
  assert (H1 : 0 <= z / 3600 < 10 ^ 21) by nia.
  assert (H2 : 0 <= (z mod 3600) / 60 < 10 ^ 21) by nia.
  assert (H3 : 0 <= z mod 60 < 10 ^ 21) by lia.
  destruct (field_spec _ H1) as (Ha & Hane & Hav).
  destruct (field_spec _ H2) as (Hb & _ & Hbv).
  destruct (field_spec _ H3) as (Hc & _ & Hcv).
  rewrite double_parse_three_fields by assumption.
  rewrite (double_Number_string _ (z / 3600)) by (try assumption; nia).
  rewrite (double_Number_string _ ((z mod 3600) / 60)) by (try assumption; nia).
  rewrite (double_Number_string _ (z mod 60)) by (try assumption; lia).
  change (Fin 3600) with (ofZ 3600). change (Fin 60) with (ofZ 60).
  rewrite !double_mul_ofZ by nia. rewrite !double_add_ofZ by nia.
  f_equal. lia.
Qed.

Lemma double_format_guard (s : num) :
  isNaN s = true \/ ltb s (Fin 0) = true ->
  Double.formatSecondsToDuration s = "00:00:00".
Proof.
  intros H. unfold Double.formatSecondsToDuration.
  destruct H as [H | H]; rewrite H; [reflexivity|].
  now rewrite orb_true_r.
Qed.

(* ------------------------------------------------------------------ *)
(** ** Durations: formatting and parsing *)

Lemma formatSecondsToDuration_guard (s : num) :
  isNaN s = true \/ ltb s (Fin 0) = true ->
  formatSecondsToDuration s = "00:00:00".
Proof.
  intros H. unfold formatSecondsToDuration.
  destruct H as [H | H]; rewrite H; [reflexivity|].
  now rewrite orb_true_r.
Qed.

(** C10: for every whole number of seconds [z] from 0 to below [2^53],
    parsing the formatted duration gives [z] back, on doubles as on exact
    numbers, and both show the same text; a negative or [NaN] number of
    seconds is formatted as [00:00:00], which parses back to [0]. *)
Theorem duration_round_trip :
  (forall z : Z, 0 <= z < 2 ^ 53 ->
     Double.parseDurationToSeconds
       (JStr (Double.formatSecondsToDuration (ofZ z))) = ofZ z)
  /\ (forall z : Z, 0 <= z < 2 ^ 53 ->
        Double.formatSecondsToDuration (ofZ z) = formatSecondsToDuration (ofZ z)
        /\ parseDurationToSeconds (JStr (formatSecondsToDuration (ofZ z))) = ofZ z)
  /\ (forall s : num, isNaN s = true \/ ltb s (Fin 0) = true ->
        Double.formatSecondsToDuration s = "00:00:00"
        /\ formatSecondsToDuration s = "00:00:00")
  /\ Double.parseDurationToSeconds (JStr "00:00:00") = Fin 0
  /\ parseDurationToSeconds (JStr "00:00:00") = Fin 0.
Proof.
  split; [exact double_parse_format|].
  split.
  { intros z Hz. split; [now apply double_format_ofZ|].
    apply parse_format_ofZ. assert (2 ^ 53 < 10 ^ 21) by reflexivity. lia. }
  split.
  { intros s Hs. split; [now apply double_format_guard|].
    now apply formatSecondsToDuration_guard. }
  split; vm_compute; reflexivity.
Qed.

Lemma duration_round_trip_witness :
  (0 <= 3725 < 2 ^ 53
   /\ Double.parseDurationToSeconds
        (JStr (Double.formatSecondsToDuration (ofZ 3725))) = ofZ 3725)
  /\ (ltb (ofZ (-5)) (Fin 0) = true
      /\ Double.formatSecondsToDuration (ofZ (-5)) = "00:00:00").
Proof.
  split.
  - split; [lia|]. apply (proj1 duration_round_trip 3725). lia.
  - split; [reflexivity|].
    apply (proj1 (proj2 (proj2 duration_round_trip)) (ofZ (-5))).
    right. reflexivity.
Defined.

(** Above [2^53] the round trip is lost: 62357433351996920 is a double,
    it is shown as 17321509264443 hours, 35 minutes and 20 seconds, and
    the sum of these loses its last bits twice. *)
Lemma duration_round_trip_is_bounded :
  Double.round (62357433351996920 # 1) = ofZ 62357433351996920
  /\ Double.formatSecondsToDuration (ofZ 62357433351996920)
     = "17321509264443:35:20"
  /\ Double.parseDurationToSeconds (JStr "17321509264443:35:20")
     = ofZ 62357433351996912
  /\ Double.parseDurationToSeconds
       (JStr (Double.formatSecondsToDuration (ofZ 62357433351996920)))
     <> ofZ 62357433351996920.
Proof.
  split; [vm_compute; reflexivity|]. split; [vm_compute; reflexivity|].
  split; [vm_compute; reflexivity|]. vm_compute. discriminate.
Qed.

(* ------------------------------------------------------------------ *)
(** ** [truncateToDecimals] *)

(** C1: [truncateToDecimals(59.996, 1)] is [60], not [59.9]: the digits are
    produced by [toFixed], which rounds to the nearest decimal.  A negative
    number is not clamped: [truncateToDecimals(-1, 1)] is [-1]. *)
Theorem truncateToDecimals_rounds :
  truncateToDecimals (JNum (fin (59996 # 1000))) 1 = Fin 60
  /\ truncateToDecimals (JNum (fin (59996 # 1000))) 1 <> fin (599 # 10)
  /\ toFixed (fin (59996 # 1000)) 1 = "60.0"
  /\ truncateToDecimals (JNum (ofZ (-1))) 1 = ofZ (-1).
Proof.
  repeat split; try (vm_compute; reflexivity).
  vm_compute. discriminate.
Qed.

(* ------------------------------------------------------------------ *)
(** ** The sentinel *)

(** C5: on an absent or empty input the builder returns the sentinel that
    carries a message; on every non-empty input it returns a course. *)
Theorem no_data_sentinel :
  (exists message, getLearningSystemHierarchy None = NoData message)
  /\ (exists message, getLearningSystemHierarchy (Some []) = NoData message)
  /\ (forall rows : list Row, rows <> [] ->
        getLearningSystemHierarchy (Some rows) = Built (rootOf rows)).
Proof.
  split; [eexists; reflexivity|]. split; [eexists; reflexivity|].
  intros [|r rows] H; [congruence|]. reflexivity.
Qed.

Lemma no_data_sentinel_witness :
  [blankRow] <> []
  /\ getLearningSystemHierarchy (Some [blankRow]) = Built (rootOf [blankRow]).
Proof.
  split; [discriminate|].
  apply (proj2 (proj2 no_data_sentinel) [blankRow]). discriminate.
Defined.

(* ------------------------------------------------------------------ *)
(** ** Insertion-ordered maps *)

Lemma scalar_eqb_eq (a b : scalar) : scalar_eqb a b = true <-> a = b.
Proof.
  destruct a, b; cbn [scalar_eqb]; split; intros H;
    try discriminate H; try reflexivity.
  - apply Z.eqb_eq in H. now subst.
  - injection H as ->. apply Z.eqb_refl.
  - apply String.eqb_eq in H. now subst.
  - injection H as ->. apply String.eqb_refl.
Qed.

Lemma scalar_eqb_refl (a : scalar) : scalar_eqb a a = true.
Proof. now apply scalar_eqb_eq. Qed.

Section MapFacts.
  Context {K V : Type} (eqb : K -> K -> bool).
  Hypothesis eqb_eq : forall a b, eqb a b = true <-> a = b.

Lemma eqb_refl_ (k : K) : eqb k k = true.
Proof. now apply eqb_eq. Qed.

Lemma get_set_same (m : list (K * V)) k v :
  JsMap.get eqb (JsMap.set eqb m k v) k = Some v.
Proof.
  induction m as [|[k' v'] m IH]; cbn [JsMap.set JsMap.get].
  - now rewrite eqb_refl_.
  - destruct (eqb k' k) eqn:E; cbn [JsMap.get]; rewrite E; auto.
Qed.

Lemma get_In (m : list (K * V)) k v :
  JsMap.get eqb m k = Some v -> In (k, v) m.
Proof.
  induction m as [|[k' v'] m IH]; cbn [JsMap.get]; [discriminate|].
  destruct (eqb k' k) eqn:E.
  - intros [= ->]. apply eqb_eq in E. subst. now left.
  - intros H. right. auto.
Qed.

Lemma get_In_values (m : list (K * V)) k v :
  JsMap.get eqb m k = Some v -> In v (JsMap.values m).
Proof.
  intros H. apply get_In in H. unfold JsMap.values.
  change v with (snd (k, v)). now apply in_map.
Qed.

Lemma has_get (m : list (K * V)) k :
  JsMap.has eqb m k = false <-> JsMap.get eqb m k = None.
Proof. unfold JsMap.has. destruct (JsMap.get eqb m k); split; congruence. Qed.

Lemma get_None_keys (m : list (K * V)) k :
  JsMap.get eqb m k = None <-> ~ In k (JsMap.keys m).
Proof.
  induction m as [|[k' v'] m IH]; cbn [JsMap.get JsMap.keys map fst].
  - split; auto.
  - destruct (eqb k' k) eqn:E.
    + apply eqb_eq in E. subst. split; [discriminate|]. intros H.
      exfalso. apply H. now left.
    + rewrite IH. unfold JsMap.keys. split.
      * intros H [H1|H1]; [|auto]. subst.
        rewrite eqb_refl_ in E. discriminate.
      * intros H H1. apply H. now right.
Qed.

Lemma set_absent (m : list (K * V)) k v :
  JsMap.get eqb m k = None -> JsMap.set eqb m k v = (m ++ [(k, v)])%list.
Proof.
  induction m as [|[k' v'] m IH]; cbn [JsMap.get JsMap.set app]; [reflexivity|].
  destruct (eqb k' k); [discriminate|]. intros H. now rewrite IH.
Qed.

Lemma set_last (m : list (K * V)) k v v' :
  JsMap.get eqb m k = None ->
  JsMap.set eqb (m ++ [(k, v)])%list k v' = (m ++ [(k, v')])%list.
Proof.
  induction m as [|[k0 v0] m IH]; cbn [JsMap.get JsMap.set app].
  - now rewrite eqb_refl_.
  - destruct (eqb k0 k); [discriminate|]. intros H. now rewrite IH.
Qed.

Lemma keys_set_present (m : list (K * V)) k v v0 :
  JsMap.get eqb m k = Some v0 ->
  JsMap.keys (JsMap.set eqb m k v) = JsMap.keys m.
Proof.
  revert v0. induction m as [|[k' v'] m IH]; intros v0;
    cbn [JsMap.get JsMap.set JsMap.keys map fst]; [discriminate|].
  destruct (eqb k' k); [reflexivity|]. intros H.
  cbn [map fst]. f_equal. exact (IH _ H).
Qed.

Lemma In_values_set (m : list (K * V)) k v x :
  In x (JsMap.values (JsMap.set eqb m k v)) -> x = v \/ In x (JsMap.values m).
Proof.
  unfold JsMap.values.
  induction m as [|[k' v'] m IH]; cbn [JsMap.set map snd In].
  - intros [H|[]]. now left.
  - destruct (eqb k' k); cbn [map snd In].
    + intros [H|H]; auto.
    + intros [H|H]; auto. destruct (IH H); auto.
Qed.

Lemma Forall_values_set (P : V -> Prop) (m : list (K * V)) k v :
  Forall P (JsMap.values m) -> P v ->
  Forall P (JsMap.values (JsMap.set eqb m k v)).
Proof.
  intros Hm Hv. apply Forall_forall. intros x Hx.
  apply In_values_set in Hx as [->|Hx]; [assumption|].
  rewrite Forall_forall in Hm. auto.
Qed.

End MapFacts.

Section SortFacts.
  Context {A : Type} (cmp : A -> A -> num) (gt : A -> A -> bool).
  Hypothesis cmp_gt : forall x y, gtb (cmp x y) (Fin 0) = gt x y.
  Hypothesis gt_asym : forall x y, gt x y = true -> gt y x = false.

Lemma insert_perm x l : Permutation (insert cmp x l) (x :: l).
Proof.
  induction l as [|y l IH]; cbn [insert]; [reflexivity|].
  destruct (gtb (cmp x y) (Fin 0)); [|reflexivity].
  rewrite IH. apply perm_swap.
Qed.

Lemma sort_perm l : Permutation (sort cmp l) l.
Proof.
  induction l as [|x l IH]; cbn [sort]; [reflexivity|].
  rewrite insert_perm. now constructor.
Qed.

Lemma In_sort x l : In x (sort cmp l) <-> In x l.
Proof.
  split; apply Permutation_in; [apply sort_perm | symmetry; apply sort_perm].
Qed.

Lemma insert_sorted x l :
  Sorted (fun a b => gt a b = false) l ->
  Sorted (fun a b => gt a b = false) (insert cmp x l).
Proof.
  induction l as [|y l IH]; intros Hs; cbn [insert].
  - repeat constructor.
  - destruct (gtb (cmp x y) (Fin 0)) eqn:E.
    + rewrite cmp_gt in E. inversion Hs as [|? ? Hs' Hhd]; subst.
      constructor; [auto|].
      destruct l as [|z l]; cbn [insert].
      * constructor. now apply gt_asym.
      * destruct (gtb (cmp x z) (Fin 0)).
        -- constructor. inversion Hhd; subst. assumption.
        -- constructor. now apply gt_asym.
    + rewrite cmp_gt in E. constructor; [assumption|]. now constructor.
Qed.

Lemma sort_sorted l : Sorted (fun a b => gt a b = false) (sort cmp l).
Proof.
  induction l as [|x l IH]; cbn [sort]; [constructor|].
  now apply insert_sorted.
Qed.

End SortFacts.

(* ------------------------------------------------------------------ *)
(** ** The rollup: where each node of the course comes from *)

Lemma built_chapter rows ch :
  In ch (Course.chapters (rootOf rows)) ->
  exists cacc, In cacc (JsMap.values (group rows))
               /\ ch = buildChapter (courseAverageTimePerUnit rows) cacc.
Proof.
  unfold rootOf, buildCourse. cbn [Course.chapters]. intros H.
  apply in_map_iff in H as (cacc & <- & H). apply In_sort in H. eauto.
Qed.

Lemma built_unit rows ch u :
  In ch (Course.chapters (rootOf rows)) -> In u (Chapter.units ch) ->
  exists uacc, In uacc (unitAccs (group rows))
               /\ u = buildUnit (courseAverageTimePerUnit rows) uacc.
Proof.
  intros Hch Hu. apply built_chapter in Hch as (cacc & Hc & ->).
  cbn [buildChapter Chapter.units] in Hu.
  apply in_map_iff in Hu as (uacc & <- & Hu). apply In_sort in Hu.
  exists uacc. split; [|reflexivity].
  unfold unitAccs. apply in_flat_map. eauto.
Qed.

Lemma built_user rows ch u usr :
  In ch (Course.chapters (rootOf rows)) -> In u (Chapter.units ch) ->
  In usr (Unit.users u) ->
  exists uacc ua,
    In uacc (unitAccs (group rows))
    /\ In ua (JsMap.values (Acc._usersMap uacc))
    /\ u = buildUnit (courseAverageTimePerUnit rows) uacc
    /\ usr = buildUser (avgUnitTimePerUser uacc) ua.
Proof.
  intros Hch Hu Husr. destruct (built_unit _ _ _ Hch Hu) as (uacc & Hin & ->).
  cbn [buildUnit Unit.users] in Husr.
  apply in_map_iff in Husr as (ua & <- & Hua). eauto 6.
Qed.

Lemma fold_add_map {A} (f : A -> num) (l : list A) (z : num) :
  fold_left (fun sum u => add sum (f u)) l z = fold_left add (map f l) z.
Proof. revert z. induction l as [|x l IH]; intros z; cbn; auto. Qed.

(** The average time per user of a unit is the mean of its users' seconds. *)
Lemma avgUnitTimePerUser_mean (uacc : Acc.unit) :
  avgUnitTimePerUser uacc
  = calculateAverage
      (map Acc.totalTimeSpentSeconds (JsMap.values (Acc._usersMap uacc))).
Proof.
  unfold avgUnitTimePerUser, calculateAverage.
  destruct (JsMap.values (Acc._usersMap uacc)) as [|x l]; [reflexivity|].
  cbn [List.length Nat.ltb Nat.leb map]. rewrite fold_add_map.
  now rewrite length_map.
Qed.

(** C6: a unit of a built hierarchy is problematic exactly when the mean
    of the positive accuracies of its users, taken before it is cut to two
    decimals for the [avgAccuracy] field, is below 60 and its mean time
    per user exceeds the course-wide average: the mean of the parsed time
    of every row that has a user id and a time-spent value, one value per
    row. *)
Theorem isProblematic_iff (rows : list Row) (root : Course.t) :
  getLearningSystemHierarchy (Some rows) = Built root ->
  forall ch u, In ch (Course.chapters root) -> In u (Chapter.units ch) ->
  exists uacc,
    In uacc (unitAccs (group rows))
    /\ u = buildUnit (courseAverageTimePerUnit rows) uacc
    /\ Unit.users u
       = map (buildUser (avgUnitTimePerUser uacc))
             (JsMap.values (Acc._usersMap uacc))
    /\ avgUnitTimePerUser uacc
       = calculateAverage
           (map Acc.totalTimeSpentSeconds (JsMap.values (Acc._usersMap uacc)))
    /\ courseAverageTimePerUnit rows
       = calculateAverage
           (map (fun r => parseTimeObjectToSeconds (UnitTimeSpent r))
                (filter (fun r => truthy_scalar (UserId r)
                                  && truthy_time (UnitTimeSpent r)) rows))
    /\ Unit.avgAccuracy u
       = truncateToDecimals
           (JNum (calculateAverage
                    (filter positive (map User.accuracy (Unit.users u))))) 2
    /\ Unit.avgTimeSpent u = formatSecondsToDuration (avgUnitTimePerUser uacc)
    /\ (Unit.isProblematic u = true <->
        ltb (calculateAverage (filter positive (map User.accuracy (Unit.users u))))
            (Fin 60) = true
        /\ gtb (avgUnitTimePerUser uacc) (courseAverageTimePerUnit rows) = true).
Proof.
  intros Hb ch u Hch Hu.
  destruct rows as [|r rows]; [discriminate|]. injection Hb as <-.
  destruct (built_unit _ _ _ Hch Hu) as (uacc & Hin & ->).
  exists uacc. split; [assumption|]. split; [reflexivity|].
  split; [reflexivity|].
  split; [apply avgUnitTimePerUser_mean|]. split; [reflexivity|].
  split; [reflexivity|]. split; [reflexivity|].
  cbn [buildUnit Unit.isProblematic Unit.users]. unfold avgUnitAccuracy.
  apply andb_true_iff.
Qed.

Lemma isProblematic_iff_witness :
  exists uacc,
    In uacc (unitAccs (group nearSixty))
    /\ (true = true <->
        ltb (calculateAverage [Fin (14999 # 250)]) (Fin 60) = true
        /\ gtb (avgUnitTimePerUser uacc) (courseAverageTimePerUnit nearSixty) = true).
Proof.
  destruct (isProblematic_iff nearSixty (rootOf nearSixty) eq_refl
              (hd (buildChapter NaN (newChapter blankRow))
                  (Course.chapters (rootOf nearSixty)))
              (hd (buildUnit NaN (newUnit blankRow))
                  (Chapter.units
                     (hd (buildChapter NaN (newChapter blankRow))
                         (Course.chapters (rootOf nearSixty))))))
    as (uacc & Hin & _ & _ & _ & _ & _ & _ & Hiff).
  - vm_compute. left. reflexivity.
  - vm_compute. left. reflexivity.
  - exists uacc. split; [exact Hin|]. exact Hiff.
Defined.

(** Scenario B has one user with two rows.  The rows average 4500
    seconds, the users 7200: the unit, whose one user spent 7200 seconds,
    is flagged, which the average over users would not allow.  And a unit
    whose mean accuracy is 59.996 shows 60 as its average accuracy and is
    flagged all the same. *)
Lemma course_average_is_over_rows :
  courseAverageTimePerUnit scenarioB = Fin 4500
  /\ courseAverageOverUsers scenarioB = Fin 7200
  /\ map (fun u => (Unit.isProblematic u, Unit.avgAccuracy u, Unit.avgTimeSpent u))
         (allUnits (rootOf scenarioB))
     = [(true, Fin 30, "02:00:00")]
  /\ gtb (parseDurationToSeconds (JStr "02:00:00"))
         (courseAverageOverUsers scenarioB) = false
  /\ map (fun u => (Unit.isProblematic u, Unit.avgAccuracy u))
         (allUnits (rootOf nearSixty))
     = [(true, Fin 60); (false, Fin 90)]
  /\ ltb (Fin 60) (Fin 60) = false.
Proof. repeat split; vm_compute; reflexivity. Qed.

(* ------------------------------------------------------------------ *)
(** ** Struggling users *)

Lemma Qle_bool_refl_eq (p q : Q) : (p == q)%Q -> Qle_bool p q = true.
Proof. intros H. apply Qle_bool_iff. rewrite H. apply Qle_refl. Qed.

(** A number never exceeds the mean of the one-element list it forms. *)
Lemma gtb_single_mean (t : num) :
  gtb t (div (add (Fin 0) t) (ofZ 1)) = false.
Proof.
  destruct t as [|a|q]; cbn [add div gtb ltb ofZ].
  - reflexivity.
  - cbn. now destruct a.
  - unfold is_zero. cbn [Qnum Z.eqb]. unfold fin. cbn [ltb].
    apply negb_false_iff. apply Qle_bool_refl_eq.
    rewrite !Qred_correct. unfold Qeq, Qdiv, Qinv, Qmult, Qplus. cbn. lia.
Qed.

Lemma single_user_not_struggling (uacc : Acc.unit) k ua :
  Acc._usersMap uacc = [(k, ua)] ->
  User.isStruggling (buildUser (avgUnitTimePerUser uacc) ua) = false.
Proof.
  intros H. unfold avgUnitTimePerUser. rewrite H.
  cbn [JsMap.values map snd List.length Nat.ltb Nat.leb fold_left
       buildUser User.isStruggling Z.of_nat Pos.of_succ_nat].
  rewrite gtb_single_mean. apply andb_false_r.
Qed.

Lemma stepUser_fields act r u :
  Acc.userId (stepUser act r u) = Acc.userId u
  /\ Acc.userName (stepUser act r u) = Acc.userName u
  /\ Acc.completion (stepUser act r u) = Acc.completion u
  /\ Acc.accuracy (stepUser act r u) = Acc.accuracy u
  /\ Acc.totalTimeSpentSeconds (stepUser act r u) = Acc.totalTimeSpentSeconds u.
Proof. destruct act; cbn; auto. Qed.

(** What a row does to the users of the unit it names. *)
Lemma stepUnit_users (r : Row) (u : Acc.unit) :
  exists act,
    Acc._usersMap (stepUnit r u)
    = if truthy_scalar (UserId r) then
        match JsMap.get scalar_eqb (Acc._usersMap u) (UserId r) with
        | Some ua =>
            JsMap.set scalar_eqb (Acc._usersMap u) (UserId r) (stepUser act r ua)
        | None =>
            (Acc._usersMap u ++ [(UserId r, stepUser act r (newUser r))])%list
        end
      else Acc._usersMap u.
Proof.
  unfold stepUnit. cbn [Acc.with_maps Acc._usersMap].
  match goal with |- context [stepUser ?a r _] => exists a end.
  destruct (truthy_scalar (UserId r)); [|reflexivity].
  unfold JsMap.has.
  destruct (JsMap.get scalar_eqb (Acc._usersMap u) (UserId r)) as [ua|] eqn:E;
    cbn [negb].
  - rewrite E. reflexivity.
  - rewrite (get_set_same scalar_eqb scalar_eqb_eq).
    rewrite (set_absent scalar_eqb _ _ _ E).
    now rewrite (set_last scalar_eqb scalar_eqb_eq _ _ _ _ E).
Qed.

(** The grouping of two rows that name the same chapter, unit and user:
    one chapter, one unit, one user. *)
Lemma group_same_user (r1 r2 : Row) :
  ChapterId r2 = ChapterId r1 -> UnitId r2 = UnitId r1 ->
  UserId r2 = UserId r1 ->
  truthy_scalar (UnitId r1) = true -> truthy_scalar (UserId r1) = true ->
  exists cacc uacc ua,
    group [r1; r2] = [(ChapterId r1, cacc)]
    /\ Acc._unitsMap cacc = [(UnitId r1, uacc)]
    /\ Acc._usersMap uacc = [(UserId r1, ua)]
    /\ userFromRow r1 ua.
Proof.
  intros Hc Hu Hid Tu Tusr.
  unfold group. cbn [fold_left]. unfold step at 2.
  cbn [JsMap.has JsMap.get JsMap.set negb]. rewrite scalar_eqb_refl.
  unfold stepChapter at 1.
  cbn [newChapter Acc._unitsMap JsMap.has JsMap.get JsMap.set negb].
  rewrite Tu. cbn [andb JsMap.get]. rewrite scalar_eqb_refl.
  cbn [JsMap.set Acc.with_units]. rewrite scalar_eqb_refl.
  destruct (stepUnit_users r1 (newUnit r1)) as (a1 & H1).
  rewrite Tusr in H1. cbn [newUnit Acc._usersMap JsMap.get app] in H1.
  set (u1 := stepUnit r1 (newUnit r1)) in *.
  unfold step. rewrite Hc. unfold JsMap.has.
  cbn [JsMap.get JsMap.set]. rewrite scalar_eqb_refl. cbn [negb JsMap.get].
  rewrite scalar_eqb_refl. cbn [JsMap.set]. rewrite scalar_eqb_refl.
  unfold stepChapter. cbn [Acc._unitsMap Acc.with_units]. rewrite Hu.
  unfold JsMap.has. cbn [JsMap.get]. rewrite scalar_eqb_refl.
  rewrite andb_false_r. cbn [JsMap.get]. rewrite scalar_eqb_refl.
  cbn [JsMap.set]. rewrite scalar_eqb_refl.
  destruct (stepUnit_users r2 u1) as (a2 & H2).
  rewrite Hid, Tusr, H1 in H2. cbn [JsMap.get] in H2.
  rewrite scalar_eqb_refl in H2. cbn [JsMap.set] in H2.
  rewrite scalar_eqb_refl in H2.
  eexists _, (stepUnit r2 u1), _. split; [reflexivity|].
  split; [reflexivity|]. split; [exact H2|].
  unfold userFromRow.
  destruct (stepUser_fields a2 r2 (stepUser a1 r1 (newUser r1)))
    as (E1 & E2 & E3 & E4 & E5).
  destruct (stepUser_fields a1 r1 (newUser r1)) as (F1 & F2 & F3 & F4 & F5).
  rewrite E1, E2, E3, E4, E5, F1, F2, F3, F4, F5. cbn. auto.
Qed.

(* ------------------------------------------------------------------ *)
(** ** Course-level figures *)

Lemma flat_map_map {A B C} (f : B -> C) (g : A -> list B) (l : list A) :
  flat_map (fun a => map f (g a)) l = map f (flat_map g l).
Proof.
  induction l as [|a l IH]; cbn [flat_map map]; [reflexivity|].
  now rewrite map_app, IH.
Qed.

Lemma flat_map_flat_map {A B C} (f : B -> list C) (g : A -> list B) (l : list A) :
  flat_map (fun a => flat_map f (g a)) l = flat_map f (flat_map g l).
Proof.
  induction l as [|a l IH]; cbn [flat_map]; [reflexivity|].
  now rewrite flat_map_app, IH.
Qed.

(** C7: the course-level average accuracy is the mean of the unit-level
    average accuracies that are positive, and the course-level completion
    is the mean of the completion of every user-in-unit, each passed
    through [truncateToDecimals] with two decimals. *)
Theorem course_averages (rows : list Row) (root : Course.t) :
  getLearningSystemHierarchy (Some rows) = Built root ->
  Course.avgAccuracy root
  = truncateToDecimals
      (JNum (calculateAverage
               (filter positive (map Unit.avgAccuracy (allUnits root))))) 2
  /\ Course.completion root
     = truncateToDecimals
         (JNum (calculateAverage (map User.completion (allUsers root)))) 2.
Proof.
  intros Hb. destruct rows as [|r rows]; [discriminate|]. injection Hb as <-.
  unfold allUsers, allUnits, rootOf, buildCourse.
  cbn [Course.avgAccuracy Course.completion Course.chapters].
  rewrite <- flat_map_map. split; [reflexivity|].
  rewrite <- flat_map_map, <- flat_map_flat_map. reflexivity.
Qed.

Lemma course_averages_witness :
  Course.avgAccuracy (rootOf threeUnits)
  = truncateToDecimals
      (JNum (calculateAverage
               (filter positive
                       (map Unit.avgAccuracy (allUnits (rootOf threeUnits)))))) 2
  /\ Course.completion (rootOf threeUnits)
     = truncateToDecimals
         (JNum (calculateAverage
                  (map User.completion (allUsers (rootOf threeUnits))))) 2.
Proof. exact (course_averages threeUnits (rootOf threeUnits) eq_refl). Defined.

(** Units averaging 80, 80 and 81: the course shows 80.33, the mean is
    241/3; completions 100, 100 and 99 show 99.67, the mean is 299/3. *)
Lemma course_average_is_cut :
  Course.avgAccuracy (rootOf threeUnits) = fin (8033 # 100)
  /\ calculateAverage
       (filter positive (map Unit.avgAccuracy (allUnits (rootOf threeUnits))))
     = fin (241 # 3)
  /\ Course.avgAccuracy (rootOf threeUnits)
     <> calculateAverage
          (filter positive (map Unit.avgAccuracy (allUnits (rootOf threeUnits))))
  /\ Course.completion (rootOf threeUnits)
     <> calculateAverage (map User.completion (allUsers (rootOf threeUnits))).
Proof.
  repeat split; try (vm_compute; reflexivity); vm_compute; discriminate.
Qed.

(* ------------------------------------------------------------------ *)
(** ** Invariants of the grouping pass *)

(** A property of the users of a unit that new users have and [stepUser]
    keeps is kept by a row. *)
Lemma stepUnit_users_Forall (P : Acc.user -> Prop) (r : Row) (u : Acc.unit) :
  (forall act, P (stepUser act r (newUser r))) ->
  (forall act ua, P ua -> P (stepUser act r ua)) ->
  Forall P (JsMap.values (Acc._usersMap u)) ->
  Forall P (JsMap.values (Acc._usersMap (stepUnit r u))).
Proof.
  intros Hnew Hstep Hu. destruct (stepUnit_users r u) as (act & ->).
  destruct (truthy_scalar (UserId r)); [|assumption].
  destruct (JsMap.get scalar_eqb (Acc._usersMap u) (UserId r)) as [ua|] eqn:E.
  - apply Forall_values_set; [assumption|]. apply Hstep.
    rewrite Forall_forall in Hu. apply Hu.
    now apply (get_In_values scalar_eqb scalar_eqb_eq _ (UserId r)).
  - unfold JsMap.values. rewrite map_app. apply Forall_app. split; [assumption|].
    constructor; [apply Hnew | constructor].
Qed.

Lemma stepChapter_units_Forall (Q : Acc.unit -> Prop) (r : Row) (c : Acc.chapter) :
  (truthy_scalar (UnitId r) = true -> Q (newUnit r)) ->
  (forall u, Q u -> Q (stepUnit r u)) ->
  Forall Q (JsMap.values (Acc._unitsMap c)) ->
  Forall Q (JsMap.values (Acc._unitsMap (stepChapter r c))).
Proof.
  intros Hnew Hstep Hc. unfold stepChapter.
  match goal with |- context [JsMap.get scalar_eqb ?x _] => set (units1 := x) end.
  assert (H1 : Forall Q (JsMap.values units1)).
  { subst units1.
    destruct (truthy_scalar (UnitId r)) eqn:Et; [|assumption].
    destruct (negb _); [|assumption].
    apply Forall_values_set; auto. }
  destruct (JsMap.get scalar_eqb units1 (UnitId r)) as [u|] eqn:E;
    cbn [Acc.with_units Acc._unitsMap]; [|assumption].
  apply Forall_values_set; [assumption|]. apply Hstep.
  rewrite Forall_forall in H1. apply H1.
  now apply (get_In_values scalar_eqb scalar_eqb_eq _ (UnitId r)).
Qed.

Lemma step_chapters_Forall (Q : Acc.chapter -> Prop) (m : ChaptersMap) (r : Row) :
  Q (newChapter r) -> (forall c, Q c -> Q (stepChapter r c)) ->
  Forall Q (JsMap.values m) -> Forall Q (JsMap.values (step m r)).
Proof.
  intros Hnew Hstep Hm. unfold step.
  match goal with |- context [JsMap.get scalar_eqb ?x _] => set (m1 := x) end.
  assert (H1 : Forall Q (JsMap.values m1)).
  { subst m1. destruct (negb _); [|assumption]. now apply Forall_values_set. }
  destruct (JsMap.get scalar_eqb m1 (ChapterId r)) as [c|] eqn:E; [|assumption].
  apply Forall_values_set; [assumption|]. apply Hstep.
  rewrite Forall_forall in H1. apply H1.
  now apply (get_In_values scalar_eqb scalar_eqb_eq _ (ChapterId r)).
Qed.

(** A property of user accumulators holds of every user of the grouping
    when the users created from the rows have it and [stepUser] keeps it. *)
Lemma group_users_ind (P : Acc.user -> Prop) (rows : list Row) :
  (forall r act, In r rows -> P (stepUser act r (newUser r))) ->
  (forall r act ua, In r rows -> P ua -> P (stepUser act r ua)) ->
  forall ua, In ua (userAccs (group rows)) -> P ua.
Proof.
  intros Hnew Hstep.
  assert (H : forall prefix, incl prefix rows ->
              Forall (fun c => Forall (fun u => Forall P
                        (JsMap.values (Acc._usersMap u)))
                        (JsMap.values (Acc._unitsMap c)))
                     (JsMap.values (fold_left step prefix []))).
  { induction prefix as [|r prefix IH] using rev_ind; intros Hincl.
    - constructor.
    - rewrite fold_left_app. cbn [fold_left].
      assert (Hr : In r rows) by (apply Hincl, in_or_app; right; now left).
      assert (Hp : incl prefix rows)
        by (intros x Hx; apply Hincl, in_or_app; now left).
      apply step_chapters_Forall; [constructor | | now apply IH].
      intros c Hc. apply stepChapter_units_Forall; [constructor | | assumption].
      intros u Hu. apply stepUnit_users_Forall; [ | | assumption].
      + intros act. now apply Hnew.
      + intros act ua. now apply Hstep. }
  specialize (H rows (incl_refl rows)). fold (group rows) in H.
  intros ua Hin. unfold userAccs, unitAccs in Hin.
  apply in_flat_map in Hin as (u & Hu & Hin).
  apply in_flat_map in Hu as (c & Hc & Hu).
  rewrite Forall_forall in H. specialize (H c Hc).
  rewrite Forall_forall in H. specialize (H u Hu).
  rewrite Forall_forall in H. auto.
Qed.

(** Every user of the grouping carries the figures of one of the rows. *)
Lemma user_from_some_row (rows : list Row) (ua : Acc.user) :
  In ua (userAccs (group rows)) -> exists r, In r rows /\ userFromRow r ua.
Proof.
  apply (group_users_ind (fun ua => exists r, In r rows /\ userFromRow r ua)).
  - intros r act Hr. exists r. split; [assumption|].
    destruct (stepUser_fields act r (newUser r)) as (E1 & E2 & E3 & E4 & E5).
    unfold userFromRow. rewrite E1, E2, E3, E4, E5. cbn. auto.
  - intros r act u _ (r0 & Hr0 & H). exists r0. split; [assumption|].
    destruct (stepUser_fields act r u) as (E1 & E2 & E3 & E4 & E5).
    unfold userFromRow in *. now rewrite E1, E2, E3, E4, E5.
Qed.

Lemma built_user_acc rows ch u usr :
  In ch (Course.chapters (rootOf rows)) -> In u (Chapter.units ch) ->
  In usr (Unit.users u) ->
  exists uacc ua,
    In ua (userAccs (group rows))
    /\ usr = buildUser (avgUnitTimePerUser uacc) ua.
Proof.
  intros Hch Hu Husr.
  destruct (built_user _ _ _ _ Hch Hu Husr) as (uacc & ua & H1 & H2 & _ & ->).
  exists uacc, ua. split; [|reflexivity].
  unfold userAccs. apply in_flat_map. eauto.
Qed.

(* ------------------------------------------------------------------ *)
(** ** Malformed durations *)

Lemma parseDurationToSeconds_not_string (v : jsval) :
  (forall s, v <> JStr s) -> parseDurationToSeconds v = Fin 0.
Proof.
  intros H. unfold parseDurationToSeconds.
  destruct v; try (destruct (negb _); reflexivity).
  now elim (H s).
Qed.

Lemma parseDurationToSeconds_string (s : string) :
  s <> EmptyString ->
  parseDurationToSeconds (JStr s)
  = match map Number_string (split ":" s) with
    | [p0; p1; p2] => add (add (mul p0 (Fin 3600)) (mul p1 (Fin 60))) p2
    | _ => Fin 0
    end.
Proof.
  intros H. unfold parseDurationToSeconds.
  destruct s as [|c s]; [congruence|]. reflexivity.
Qed.

(** What [parseDurationToSeconds] returns, case by case: a value that is
    not a string, the empty string and a string without exactly three
    components parse to [0]; a string of three components parses to
    [p0 * 3600 + p1 * 60 + p2] on the numbers its components denote. *)
Lemma durations_parsed :
  (forall v : jsval, (forall s, v <> JStr s) -> parseDurationToSeconds v = Fin 0)
  /\ parseDurationToSeconds (JStr "") = Fin 0
  /\ (forall s : string,
        List.length (split ":" s) <> 3%nat -> parseDurationToSeconds (JStr s) = Fin 0)
  /\ (forall s p0 p1 p2,
        split ":" s = [p0; p1; p2] ->
        parseDurationToSeconds (JStr s)
        = add (add (mul (Number_string p0) (Fin 3600))
                   (mul (Number_string p1) (Fin 60)))
              (Number_string p2)).
Proof.
  split; [exact parseDurationToSeconds_not_string|].
  split; [reflexivity|].
  split.
  { intros s Hlen. destruct s as [|c s]; [reflexivity|].
    rewrite parseDurationToSeconds_string by discriminate.
    rewrite <- (length_map Number_string) in Hlen.
    destruct (map Number_string (split ":" (String c s))) as [|a [|b [|d [|e l]]]];
      try reflexivity.
    now elim Hlen. }
  intros s p0 p1 p2 Hs. rewrite parseDurationToSeconds_string.
  - now rewrite Hs.
  - intros ->. discriminate Hs.
Qed.

(** C4: a value that is not a string, the empty string and a string
    without exactly three components parse to [0].  A string of three
    components parses to [p0 * 3600 + p1 * 60 + p2] on [Number] of each
    component, unguarded: components that are not numeric give [NaN], not
    [0], where the object path of [parseTimeObjectToSeconds] reads each
    component with [|| 0].  The [NaN] is caught when the time is shown,
    but an infinite number of seconds is not: a component that reads as
    [Infinity] puts the text [NaN] into the time shown for the user. *)
Theorem malformed_duration_is_NaN :
  (forall v : jsval, (forall s, v <> JStr s) -> parseDurationToSeconds v = Fin 0)
  /\ parseDurationToSeconds (JStr "") = Fin 0
  /\ (forall s : string,
        List.length (split ":" s) <> 3%nat -> parseDurationToSeconds (JStr s) = Fin 0)
  /\ (forall s p0 p1 p2,
        split ":" s = [p0; p1; p2] ->
        parseDurationToSeconds (JStr s)
        = add (add (mul (Number_string p0) (Fin 3600))
                   (mul (Number_string p1) (Fin 60)))
              (Number_string p2))
  /\ parseDurationToSeconds (JStr "a:b:c") = NaN
  /\ parseDurationToSeconds (JStr "a:b:c") <> Fin 0
  /\ parseTimeObjectToSeconds (TObj (Some NaN) (Some NaN) (Some NaN)) = Fin 0
  /\ formatSecondsToDuration (parseDurationToSeconds (JStr "a:b:c")) = "00:00:00"
  /\ parseDurationToSeconds (JStr "Infinity:0:0") = Inf false
  /\ formatSecondsToDuration (Inf false) = "Infinity:NaN:NaN"
  /\ map User.totalTimeSpent
         (allUsers (rootOf [unitRow 1 1 "u1" (JNum (Fin 80)) (JNum (Fin 100))
                                    "Infinity:0:0"]))
     = ["Infinity:NaN:NaN"].
Proof.
  destruct durations_parsed as (H1 & H2 & H3 & H4).
  split; [exact H1|]. split; [exact H2|]. split; [exact H3|]. split; [exact H4|].
  split; [vm_compute; reflexivity|].
  split; [vm_compute; discriminate|].
  repeat split; vm_compute; reflexivity.
Qed.

Lemma malformed_duration_is_NaN_witness :
  parseDurationToSeconds (JNum (Fin 5)) = Fin 0
  /\ parseDurationToSeconds (JStr "1:2") = Fin 0
  /\ parseDurationToSeconds (JStr "1:2:3") = Fin 3723.
Proof.
  split; [apply (proj1 malformed_duration_is_NaN); discriminate|].
  split; [apply (proj1 (proj2 (proj2 malformed_duration_is_NaN))); discriminate|].
  exact (proj1 (proj2 (proj2 (proj2 malformed_duration_is_NaN)))
           "1:2:3" "1" "2" "3" eq_refl).
Defined.

(* ------------------------------------------------------------------ *)
(** ** Order of the sequences *)

(** The sign of a difference is the comparison of its operands. *)
Lemma gtb_sub (a b : num) : gtb (sub a b) (Fin 0) = gtb a b.
Proof.
  destruct a as [|x|p], b as [|y|q]; try reflexivity;
    try (destruct x; reflexivity); try (destruct y; reflexivity).
  - destruct x, y; reflexivity.
  - unfold sub, neg, add, fin, gtb, ltb. f_equal.
    destruct (Qle_bool p q) eqn:E.
    + apply Qle_bool_iff. rewrite !Qred_correct. apply Qle_bool_iff in E.
      apply Qle_minus_iff in E. setoid_replace (p + - q)%Q with (- (q + - p))%Q by ring.
      now apply (Qopp_le_compat 0).
    + destruct (Qle_bool (Qred (p + Qred (- q))) 0) eqn:E'; [|reflexivity].
      apply Qle_bool_iff in E'. rewrite !Qred_correct in E'.
      assert (Hle : (p <= q)%Q).
      { apply Qle_minus_iff. setoid_replace (q + - p)%Q with (- (p + - q))%Q by ring.
        now apply (Qopp_le_compat _ 0). }
      apply Qle_bool_iff in Hle. congruence.
Qed.

Lemma gtb_asym (a b : num) : gtb a b = true -> gtb b a = false.
Proof.
  destruct a as [|x|p], b as [|y|q]; cbn [gtb ltb]; try congruence;
    try (destruct x; cbn; congruence); try (destruct y; cbn; congruence).
  - destruct x, y; cbn; congruence.
  - intros H. apply negb_true_iff in H. apply negb_false_iff.
    apply Qle_bool_iff. destruct (Qlt_le_dec p q) as [Hlt|Hle].
    + apply Qlt_le_weak, Qle_bool_iff in Hlt. congruence.
    + assumption.
Qed.

Lemma leb_of_gtb (a b : num) :
  isNaN a = false -> isNaN b = false -> gtb a b = false -> leb a b = true.
Proof.
  unfold leb, gtb. intros Ha Hb H. rewrite H.
  destruct a, b; try discriminate; reflexivity.
Qed.

Lemma leb_trans (a b c : num) :
  leb a b = true -> leb b c = true -> leb a c = true.
Proof.
  destruct a as [|x|p], b as [|y|q], c as [|z|r]; cbn [leb ltb];
    try discriminate; try reflexivity;
    repeat match goal with x : bool |- _ => destruct x end;
    cbn; try congruence.
  rewrite !negb_involutive. intros H1 H2.
  apply Qle_bool_iff in H1, H2. apply Qle_bool_iff.
  now apply (Qle_trans _ q).
Qed.

Lemma Sorted_on {A} (P : A -> Prop) (R S : A -> A -> Prop) (l : list A) :
  (forall x y, P x -> P y -> R x y -> S x y) ->
  Forall P l -> Sorted R l -> Sorted S l.
Proof.
  intros H Hp Hs. induction Hs as [|x l Hs IH Hhd]; [constructor|].
  inversion Hp as [|? ? Hx Hl]; subst. constructor; [now apply IH|].
  destruct Hhd as [|y l' Hxy]; constructor.
  inversion Hl; subst. now apply H.
Qed.

Lemma Sorted_map {A B} (f : A -> B) (R : A -> A -> Prop) (S : B -> B -> Prop) l :
  (forall x y, R x y -> S (f x) (f y)) -> Sorted R l -> Sorted S (map f l).
Proof.
  intros H Hs. induction Hs as [|x l Hs IH Hhd]; cbn [map]; constructor; auto.
  destruct Hhd; cbn [map]; constructor; auto.
Qed.

(** Induction over the rows of the grouping pass. *)
Lemma group_ind (P : ChaptersMap -> Prop) (rows : list Row) :
  P [] -> (forall m r, In r rows -> P m -> P (step m r)) -> P (group rows).
Proof.
  intros H0 Hstep.
  assert (H : forall prefix, incl prefix rows -> P (fold_left step prefix [])).
  { induction prefix as [|r prefix IH] using rev_ind; intros Hincl; [exact H0|].
    rewrite fold_left_app. cbn [fold_left]. apply Hstep.
    - apply Hincl, in_or_app. right. now left.
    - apply IH. intros x Hx. apply Hincl, in_or_app. now left. }
  apply H, incl_refl.
Qed.

Lemma group_chapters_Forall (Q : Acc.chapter -> Prop) (rows : list Row) :
  (forall r, In r rows -> Q (newChapter r)) ->
  (forall r c, In r rows -> Q c -> Q (stepChapter r c)) ->
  Forall Q (JsMap.values (group rows)).
Proof.
  intros Hnew Hstep. apply group_ind; [constructor|].
  intros m r Hr Hm. apply step_chapters_Forall; auto.
Qed.

Lemma group_units_Forall (Q : Acc.unit -> Prop) (rows : list Row) :
  (forall r, In r rows -> truthy_scalar (UnitId r) = true -> Q (newUnit r)) ->
  (forall r u, In r rows -> Q u -> Q (stepUnit r u)) ->
  Forall Q (unitAccs (group rows)).
Proof.
  intros Hnew Hstep. unfold unitAccs. apply Forall_flat_map.
  apply group_chapters_Forall.
  - intros r _. constructor.
  - intros r c Hr Hc. apply stepChapter_units_Forall; auto.
Qed.

(** A chapter or a unit keeps the number of the row it was created from. *)
Lemma chapters_numbered (rows : list Row) :
  (forall r, In r rows -> numbered (ChapterNo r) = true) ->
  Forall (fun c => numbered (Acc.chapterNo c) = true) (JsMap.values (group rows)).
Proof.
  intros H. apply group_chapters_Forall.
  - intros r Hr. now apply H.
  - intros r c _ Hc. unfold stepChapter.
    now destruct (JsMap.get _ _ _).
Qed.

Lemma units_numbered (rows : list Row) :
  (forall r, In r rows -> truthy_scalar (UnitId r) = true ->
             numbered (UnitNo r) = true) ->
  Forall (fun u => numbered (Acc.unitNo u) = true) (unitAccs (group rows)).
Proof.
  intros H. apply group_units_Forall.
  - intros r Hr Ht. now apply H.
  - intros r u _ Hu. exact Hu.
Qed.

Section SortedByNumber.
  Context {A B : Type} (no : A -> jsval) (no' : B -> jsval) (build : A -> B).
  Hypothesis build_no : forall a, no' (build a) = no a.

Lemma sorted_by_number (l : list A) :
  Forall (fun a => numbered (no a) = true) l ->
  StronglySorted
    (fun x y => leb (ToNumber (no' x)) (ToNumber (no' y)) = true)
    (map build (sort (fun a b => sub (ToNumber (no a)) (ToNumber (no b))) l)).
Proof.
  intros Hl. apply Sorted_StronglySorted.
  - intros x y z. apply leb_trans.
  - apply (Sorted_map _ (fun a b => leb (ToNumber (no a)) (ToNumber (no b)) = true)).
    + intros x y H. now rewrite !build_no.
    + apply (Sorted_on (fun a => numbered (no a) = true)
               (fun a b => gtb (ToNumber (no a)) (ToNumber (no b)) = false)).
      * intros x y Hx Hy. unfold numbered in Hx, Hy.
        apply negb_true_iff in Hx, Hy. now apply leb_of_gtb.
      * rewrite Forall_forall in *. intros a Ha. apply Hl.
        now apply In_sort in Ha.
      * apply (sort_sorted _
                 (fun a b => gtb (ToNumber (no a)) (ToNumber (no b)))).
        -- intros x y. apply gtb_sub.
        -- intros x y. apply gtb_asym.
Qed.

End SortedByNumber.

Lemma chapters_sorted (rows : list Row) :
  (forall r, In r rows -> numbered (ChapterNo r) = true) ->
  StronglySorted leChapterNo (Course.chapters (rootOf rows)).
Proof.
  intros H. unfold rootOf, buildCourse. cbn [Course.chapters].
  apply (sorted_by_number Acc.chapterNo Chapter.chapterNo); [reflexivity|].
  now apply chapters_numbered.
Qed.

Lemma units_sorted (rows : list Row) (courseAvg : num) (cacc : Acc.chapter) :
  (forall r, In r rows -> truthy_scalar (UnitId r) = true ->
             numbered (UnitNo r) = true) ->
  In cacc (JsMap.values (group rows)) ->
  StronglySorted leUnitNo (Chapter.units (buildChapter courseAvg cacc)).
Proof.
  intros H Hc. cbn [buildChapter Chapter.units].
  apply (sorted_by_number Acc.unitNo Unit.unitNo); [reflexivity|].
  pose proof (units_numbered rows H) as Hu.
  rewrite Forall_forall in *. intros u Hin. apply Hu.
  unfold unitAccs. apply in_flat_map. eauto.
Qed.

(* ------------------------------------------------------------------ *)
(** ** The learning pattern of a student *)







(* ------------------------------------------------------------------ *)
(** ** The difficulty index of a concept *)


Lemma gtb_above (t : num) :
  gtb t (Fin (11 # 10)) = true -> gtb t (Fin 1) = true.
Proof.
  destruct t as [|x|q]; cbn [gtb ltb]; try congruence.
  intros H. apply negb_true_iff in H. apply negb_true_iff.
  destruct (Qle_bool q 1) eqn:E; [|reflexivity].
  apply Qle_bool_iff in E.
  assert (Hq : (q <= 11 # 10)%Q).
  { eapply Qle_trans; [exact E|]. unfold Qle. cbn. lia. }
  apply Qle_bool_iff in Hq. congruence.
Qed.

Lemma gtb_below (t : num) :
  gtb t (Fin 1) = false -> gtb t (Fin (11 # 10)) = false.
Proof.
  intros H. destruct (gtb t (Fin (11 # 10))) eqn:E; [|reflexivity].
  apply gtb_above in E. congruence.
Qed.


(* ------------------------------------------------------------------ *)
(** ** Further properties of the scalar helpers *)

Lemma fold_add_NaN (arr : list num) : fold_left add arr NaN = NaN.
Proof. induction arr as [|x arr IH]; cbn [fold_left]; auto. Qed.

Lemma fold_add_has_NaN (arr : list num) : forall acc,
  In NaN arr -> fold_left add arr acc = NaN.
Proof.
  induction arr as [|x arr IH]; intros acc; cbn [In fold_left]; [contradiction|].
  intros [->|H]; [|now apply IH].
  replace (add acc NaN) with NaN by (now destruct acc). apply fold_add_NaN.
Qed.

Lemma fold_add_finite (arr : list num) : forall acc,
  isFinite acc = true -> forallb isFinite arr = true ->
  isFinite (fold_left add arr acc) = true.
Proof.
  induction arr as [|x arr IH]; intros acc Ha H; cbn [fold_left]; [assumption|].
  cbn [forallb] in H. apply andb_prop in H as [Hx Hrest].
  apply IH; [|assumption].
  destruct acc, x; try discriminate. reflexivity.
Qed.

(** X1: The mean of no number is [0]; the mean of finite numbers is never
    [NaN]; a mean is [NaN] as soon as one of the numbers is. *)
Theorem calculateAverage_mean :
  calculateAverage [] = Fin 0
  /\ (forall arr, forallb isFinite arr = true ->
                  isNaN (calculateAverage arr) = false)
  /\ (forall arr, In NaN arr -> calculateAverage arr = NaN).
Proof.
  split; [reflexivity|]. split.
  - intros [|x arr] H; [reflexivity|].
    pose proof (fold_add_finite (x :: arr) (Fin 0) eq_refl H) as Hs.
    unfold calculateAverage.
    destruct (fold_left add (x :: arr) (Fin 0)) as [| |p]; try discriminate.
    unfold div, ofZ, is_zero. cbn [Qnum].
    destruct (Z.eqb_spec (Z.of_nat (List.length (x :: arr))) 0) as [E|_];
      [cbn [List.length] in E; lia|reflexivity].
  - intros [|x arr] H; [contradiction|].
    unfold calculateAverage. now rewrite (fold_add_has_NaN _ _ H).
Qed.

Lemma calculateAverage_mean_witness :
  (forallb isFinite [Fin 80; Fin 81] = true
   /\ isNaN (calculateAverage [Fin 80; Fin 81]) = false)
  /\ (In NaN [Fin 80; NaN] /\ calculateAverage [Fin 80; NaN] = NaN).
Proof.
  split.
  - split; [reflexivity|].
    apply (proj1 (proj2 calculateAverage_mean) [Fin 80; Fin 81]). reflexivity.
  - assert (H : In NaN [Fin 80; NaN]) by (right; left; reflexivity).
    split; [exact H|].
    exact (proj2 (proj2 calculateAverage_mean) [Fin 80; NaN] H).
Defined.

Lemma length_app_ (a b : string) :
  String.length (a ++ b) = (String.length a + String.length b)%nat.
Proof. induction a as [|c a IH]; cbn; auto. Qed.

Lemma padStart0_length len s : (len <= String.length (padStart0 len s))%nat.
Proof.
  unfold padStart0. rewrite length_app_.
  assert (H : forall k, String.length (zeros k) = k)
    by (induction k as [|k IH]; cbn; auto).
  rewrite H. lia.
Qed.

(** X2: A non-negative integer number of seconds below [2^53] is shown as
    hours, minutes and seconds, each of at least two decimal digits and
    separated by colons; the minutes and the seconds shown are below 60
    and the three fields add up to the number. *)
Theorem formatSecondsToDuration_shape (z : Z) :
  0 <= z < 2 ^ 53 ->
  exists h m s : string,
    formatSecondsToDuration (ofZ z) = h ++ ":" ++ m ++ ":" ++ s
    /\ split ":" (formatSecondsToDuration (ofZ z)) = [h; m; s]
    /\ is_digits h = true /\ is_digits m = true /\ is_digits s = true
    /\ (2 <= String.length h)%nat /\ (2 <= String.length m)%nat
    /\ (2 <= String.length s)%nat
    /\ 0 <= dvalue m 0 < 60 /\ 0 <= dvalue s 0 < 60
    /\ dvalue h 0 * 3600 + dvalue m 0 * 60 + dvalue s 0 = z
    /\ Double.formatSecondsToDuration (ofZ z) = h ++ ":" ++ m ++ ":" ++ s.
Proof.
  intros Hz. rewrite (double_format_ofZ z Hz). destruct Hz as [Hz Hz'].
  rewrite formatSecondsToDuration_ofZ by assumption.
  assert (Hm : 0 <= z mod 3600 < 3600) by (apply Z.mod_pos_bound; lia).
  assert (H1 : 0 <= z / 3600 < 10 ^ 21).
  { split; [apply Z.div_pos; lia|]. apply Z.div_lt_upper_bound; lia. }
  assert (H2 : 0 <= (z mod 3600) / 60 < 10 ^ 21).
  { split; [apply Z.div_pos; lia|]. apply Z.div_lt_upper_bound; lia. }
  assert (H3 : 0 <= z mod 60 < 60) by (apply Z.mod_pos_bound; lia).
  assert (F : forall k, 0 <= k < 10 ^ 21 ->
            is_digits (padStart0 2 (toString (IInt k))) = true
            /\ dvalue (padStart0 2 (toString (IInt k))) 0 = k).
  { intros k Hk. rewrite toString_digits by assumption.
    destruct (decimal_spec k (proj1 Hk)) as [Hd Hv].
    destruct (padStart0_spec 2 _ Hd) as [Hp Hpv]. split; [assumption|].
    now rewrite Hpv. }
  destruct (F _ H1) as [D1 V1]. destruct (F _ H2) as [D2 V2].
  destruct (F (z mod 60) ltac:(lia)) as [D3 V3].
  do 3 eexists. split; [reflexivity|].
  split.
  { change (":" ++ ?x) with (String ":" x).
    rewrite split_app by now apply digits_colon_free.
    change (":" ++ ?x) with (String ":" x).
    rewrite split_app by now apply digits_colon_free.
    now rewrite split_colon_free by now apply digits_colon_free. }
  rewrite V1, V2, V3.
  repeat split; try assumption; try apply padStart0_length; try lia;
    try reflexivity.
  - apply Z.div_lt_upper_bound; lia.
  - pose proof (Z.div_mod z 3600). pose proof (Z.div_mod (z mod 3600) 60).
    assert (Hmm : (z mod 3600) mod 60 = z mod 60)
      by (apply Z.mod_mod_divide; exists 60; reflexivity).
    lia.
Qed.

Lemma formatSecondsToDuration_shape_witness :
  0 <= 3725 < 2 ^ 53 /\ exists h m s : string,
    formatSecondsToDuration (ofZ 3725) = h ++ ":" ++ m ++ ":" ++ s
    /\ is_digits h = true /\ dvalue m 0 = 2 /\ dvalue s 0 = 5.
Proof.
  split; [lia|].
  destruct (formatSecondsToDuration_shape 3725 ltac:(lia))
    as (h & m & s & E & Es & D1 & _).
  vm_compute in Es. injection Es as <- <- <-.
  exists "01", "02", "05". repeat split.
Defined.



(* ------------------------------------------------------------------ *)
(** ** Deduplication in the grouping pass *)

Section EnsureFacts.
  Context {K V : Type} (eqb : K -> K -> bool).
  Hypothesis eqb_eq : forall a b, eqb a b = true <-> a = b.

Lemma keys_ensure (m : list (K * V)) (b : bool) k v :
  JsMap.keys (if b && negb (JsMap.has eqb m k) then JsMap.set eqb m k v else m)
  = (JsMap.keys m ++ (if b && negb (JsMap.has eqb m k) then [k] else []))%list.
Proof.
  destruct (b && negb (JsMap.has eqb m k)) eqn:E; [|now rewrite app_nil_r].
  apply andb_prop in E as [_ E]. apply negb_true_iff, has_get in E.
  rewrite (set_absent eqb _ _ _ E). unfold JsMap.keys. now rewrite map_app.
Qed.

Lemma NoDup_ensure (m : list (K * V)) (b : bool) k :
  NoDup (JsMap.keys m) ->
  NoDup (JsMap.keys m ++ (if b && negb (JsMap.has eqb m k) then [k] else []))%list.
Proof.
  intros Hnd. destruct (b && negb (JsMap.has eqb m k)) eqn:E;
    [|now rewrite app_nil_r].
  apply andb_prop in E as [_ E]. apply negb_true_iff, has_get in E.
  apply (get_None_keys eqb eqb_eq) in E.
  apply NoDup_app; [assumption | constructor; [intros []|constructor] |].
  intros x Hx [<-|[]]. contradiction.
Qed.

Lemma keys_set_get (m : list (K * V)) k v :
  JsMap.keys (match JsMap.get eqb m k with
              | Some v0 => JsMap.set eqb m k (v v0)
              | None => m
              end) = JsMap.keys m.
Proof.
  destruct (JsMap.get eqb m k) eqn:E; [|reflexivity].
  exact (keys_set_present eqb _ _ _ _ E).
Qed.

Lemma set_same (m : list (K * V)) k v :
  JsMap.get eqb m k = Some v -> JsMap.set eqb m k v = m.
Proof.
  induction m as [|[k' v'] m IH]; cbn [JsMap.get JsMap.set]; [discriminate|].
  destruct (eqb k' k); [now intros [= ->]|]. intros H. now rewrite IH.
Qed.

End EnsureFacts.

Lemma stepUser_distinct act r ua : userDistinct ua -> userDistinct (stepUser act r ua).
Proof.
  unfold userDistinct. destruct act as [a|]; [|auto]. intros Hnd.
  cbn [stepUser Acc.with_performance Acc._activityPerformanceMap].
  destruct (truthy_scalar (ConceptId r)).
  - rewrite (keys_set_get String.eqb _ _ (addCategory r)).
    rewrite <- (andb_true_l (negb _)), keys_ensure.
    now apply (NoDup_ensure String.eqb String.eqb_eq).
  - rewrite <- (andb_true_l (negb _)), keys_ensure.
    now apply (NoDup_ensure String.eqb String.eqb_eq).
Qed.

Lemma newUser_distinct act r : userDistinct (stepUser act r (newUser r)).
Proof. apply stepUser_distinct. constructor. Qed.

Lemma stepUnit_users_keys r u :
  JsMap.keys (Acc._usersMap (stepUnit r u))
  = (JsMap.keys (Acc._usersMap u)
     ++ (if truthy_scalar (UserId r)
            && negb (JsMap.has scalar_eqb (Acc._usersMap u) (UserId r))
         then [UserId r] else []))%list.
Proof.
  destruct (stepUnit_users r u) as (act & ->). unfold JsMap.has.
  destruct (truthy_scalar (UserId r)); cbn [andb]; [|now rewrite app_nil_r].
  destruct (JsMap.get scalar_eqb (Acc._usersMap u) (UserId r)) eqn:E; cbn [negb].
  - rewrite (keys_set_present scalar_eqb _ _ _ _ E). now rewrite app_nil_r.
  - unfold JsMap.keys. now rewrite map_app.
Qed.

Lemma forallb_keys_ensure (keys : list scalar) (b : bool) k :
  forallb truthy_scalar keys = true ->
  forallb truthy_scalar
    (keys ++ (if truthy_scalar k && b then [k] else []))%list = true.
Proof.
  intros H. rewrite forallb_app, H.
  destruct (truthy_scalar k) eqn:E; cbn [andb]; [|reflexivity].
  destruct b; cbn [forallb]; [now rewrite E|reflexivity].
Qed.

Lemma stepUnit_distinct r u : unitDistinct u -> unitDistinct (stepUnit r u).
Proof.
  intros (H1 & H2 & H3 & H4). repeat split.
  - rewrite stepUnit_users_keys.
    now apply (NoDup_ensure scalar_eqb scalar_eqb_eq).
  - rewrite stepUnit_users_keys. now apply forallb_keys_ensure.
  - cbn [stepUnit Acc.with_maps Acc._activitiesMap].
    set (acts := Acc._activitiesMap u) in *.
    set (acts1 := if truthy_scalar (ActivityTypeId r)
                     && negb (JsMap.has scalar_eqb acts (SequenceBuilderID r))
                  then JsMap.set scalar_eqb acts (SequenceBuilderID r) (newActivity r)
                  else acts).
    assert (Hk : NoDup (JsMap.keys acts1)).
    { subst acts1. rewrite keys_ensure.
      now apply (NoDup_ensure scalar_eqb scalar_eqb_eq). }
    destruct (JsMap.get scalar_eqb acts1 (SequenceBuilderID r)) as [a|] eqn:E;
      [|assumption].
    destruct (truthy_scalar (ConceptId r)
              && negb (existsb (hasConcept r) (Acc.concepts a))); [|assumption].
    now rewrite (keys_set_present scalar_eqb _ _ _ _ E).
  - apply stepUnit_users_Forall; [ | | assumption].
    + intros act. apply newUser_distinct.
    + intros act ua. apply stepUser_distinct.
Qed.

Lemma newUnit_distinct r : unitDistinct (newUnit r).
Proof. repeat split; constructor. Qed.

Lemma stepChapter_units_keys r c :
  JsMap.keys (Acc._unitsMap (stepChapter r c))
  = (JsMap.keys (Acc._unitsMap c)
     ++ (if truthy_scalar (UnitId r)
            && negb (JsMap.has scalar_eqb (Acc._unitsMap c) (UnitId r))
         then [UnitId r] else []))%list.
Proof.
  unfold stepChapter.
  match goal with |- context [JsMap.get scalar_eqb ?x _] => set (units1 := x) end.
  assert (Hk : JsMap.keys units1 = (JsMap.keys (Acc._unitsMap c)
     ++ (if truthy_scalar (UnitId r)
            && negb (JsMap.has scalar_eqb (Acc._unitsMap c) (UnitId r))
         then [UnitId r] else []))%list) by apply keys_ensure.
  destruct (JsMap.get scalar_eqb units1 (UnitId r)) eqn:E;
    cbn [Acc.with_units Acc._unitsMap]; [|assumption].
  now rewrite (keys_set_present scalar_eqb _ _ _ _ E).
Qed.

Lemma stepChapter_distinct r c : chapterDistinct c -> chapterDistinct (stepChapter r c).
Proof.
  intros (H1 & H2 & H3). repeat split.
  - rewrite stepChapter_units_keys.
    now apply (NoDup_ensure scalar_eqb scalar_eqb_eq).
  - rewrite stepChapter_units_keys. now apply forallb_keys_ensure.
  - apply stepChapter_units_Forall;
      [intros _; apply newUnit_distinct | apply stepUnit_distinct | assumption].
Qed.

Lemma step_keys (m : ChaptersMap) r :
  JsMap.keys (step m r)
  = (JsMap.keys m
     ++ (if negb (JsMap.has scalar_eqb m (ChapterId r)) then [ChapterId r]
         else []))%list.
Proof.
  unfold step.
  match goal with |- context [JsMap.get scalar_eqb ?x _] => set (m1 := x) end.
  assert (Hk : JsMap.keys m1
               = (JsMap.keys m
                  ++ (if negb (JsMap.has scalar_eqb m (ChapterId r))
                      then [ChapterId r] else []))%list).
  { subst m1. rewrite <- (andb_true_l (negb _)). apply keys_ensure. }
  destruct (JsMap.get scalar_eqb m1 (ChapterId r)) eqn:E; [|assumption].
  now rewrite (keys_set_present scalar_eqb _ _ _ _ E).
Qed.

Lemma step_distinct m r : groupingDistinct m -> groupingDistinct (step m r).
Proof.
  intros [H1 H2]. split.
  - rewrite step_keys, <- (andb_true_l (negb _)).
    now apply (NoDup_ensure scalar_eqb scalar_eqb_eq).
  - apply step_chapters_Forall; [|apply stepChapter_distinct|assumption].
    repeat split; constructor.
Qed.

Lemma group_distinct (rows : list Row) : groupingDistinct (group rows).
Proof.
  unfold group.
  assert (H : forall m, groupingDistinct m -> groupingDistinct (fold_left step rows m)).
  { induction rows as [|r rows IH]; intros m Hm; cbn [fold_left]; [assumption|].
    apply IH, step_distinct, Hm. }
  apply H. split; constructor.
Qed.

(** X4: the dedup invariant.  Whatever the rows, no key occurs twice in a
    map of the grouping (chapters, units of a chapter, activities and
    users of a unit, activity records of a user), and no unit or user was
    created for a missing id. *)
Theorem grouping_distinct (rows : list Row) :
  NoDup (JsMap.keys (group rows))
  /\ (forall c, In c (JsMap.values (group rows)) ->
        NoDup (JsMap.keys (Acc._unitsMap c))
        /\ forallb truthy_scalar (JsMap.keys (Acc._unitsMap c)) = true)
  /\ (forall u, In u (unitAccs (group rows)) ->
        NoDup (JsMap.keys (Acc._usersMap u))
        /\ forallb truthy_scalar (JsMap.keys (Acc._usersMap u)) = true
        /\ NoDup (JsMap.keys (Acc._activitiesMap u)))
  /\ (forall ua, In ua (userAccs (group rows)) ->
        NoDup (JsMap.keys (Acc._activityPerformanceMap ua))).
Proof.
  destruct (group_distinct rows) as [H1 H2]. rewrite Forall_forall in H2.
  split; [assumption|]. split.
  { intros c Hc. destruct (H2 c Hc) as (Ha & Hb & _). auto. }
  split.
  { intros u Hu. unfold unitAccs in Hu. apply in_flat_map in Hu as (c & Hc & Hu).
    destruct (H2 c Hc) as (_ & _ & Hunits). rewrite Forall_forall in Hunits.
    destruct (Hunits u Hu) as (Ha & Hb & Hc' & _). auto. }
  intros ua Hua. unfold userAccs, unitAccs in Hua.
  apply in_flat_map in Hua as (u & Hu & Hua).
  apply in_flat_map in Hu as (c & Hc & Hu).
  destruct (H2 c Hc) as (_ & _ & Hunits). rewrite Forall_forall in Hunits.
  destruct (Hunits u Hu) as (_ & _ & _ & Husers).
  rewrite Forall_forall in Husers. exact (Husers ua Hua).
Qed.

Lemma or0_not_NaN (x : num) : isNaN (or0 x) = false.
Proof.
  destruct x as [|a|q]; try reflexivity.
  unfold or0, truthy_num. now destruct (is_zero q).
Qed.

(** X5: No accuracy or completion of a user in a built hierarchy is [NaN]:
    both are read from one of the rows with [parseFloat(...) || 0]. *)
Theorem user_figures_not_NaN (rows : list Row) (root : Course.t) :
  getLearningSystemHierarchy (Some rows) = Built root ->
  forall usr, In usr (allUsers root) ->
    isNaN (User.accuracy usr) = false
    /\ isNaN (User.completion usr) = false
    /\ exists r, In r rows
                 /\ User.userId usr = String_ (UserId r)
                 /\ User.accuracy usr = or0 (parseFloat (UnitAccuracyPercentage r))
                 /\ User.completion usr
                    = or0 (parseFloat (UnitCompletionPercentage r)).
Proof.
  intros Hb usr Husr. destruct rows as [|r0 rows]; [discriminate|].
  injection Hb as <-. unfold allUsers, allUnits in Husr.
  apply in_flat_map in Husr as (u & Hu & Husr).
  apply in_flat_map in Hu as (ch & Hch & Hu).
  destruct (built_user_acc _ _ _ _ Hch Hu Husr) as (uacc & ua & Hin & ->).
  destruct (user_from_some_row _ _ Hin) as (r & Hr & H1 & H2 & H3 & H4 & H5).
  cbn [buildUser User.accuracy User.completion User.userId].
  rewrite H3, H4. split; [apply or0_not_NaN|]. split; [apply or0_not_NaN|].
  exists r. auto.
Qed.

Lemma user_figures_not_NaN_witness :
  isNaN (User.accuracy
           (hd (buildUser NaN (newUser blankRow))
               (allUsers (rootOf [unitRow 1 1 "u1" (JStr "n/a") Undefined "a:b:c"]))))
  = false.
Proof.
  apply (user_figures_not_NaN
           [unitRow 1 1 "u1" (JStr "n/a") Undefined "a:b:c"] _ eq_refl).
  vm_compute. left. reflexivity.
Defined.

Lemma with_units_same c : Acc.with_units c (Acc._unitsMap c) = c.
Proof. now destruct c. Qed.

Lemma falsy_not_key (keys : list scalar) k :
  forallb truthy_scalar keys = true -> truthy_scalar k = false -> ~ In k keys.
Proof.
  intros H Hk Hin. rewrite forallb_forall in H. specialize (H k Hin). congruence.
Qed.

Lemma stepChapter_without_unit r c :
  chapterDistinct c -> truthy_scalar (UnitId r) = false -> stepChapter r c = c.
Proof.
  intros (_ & Ht & _) Hf. unfold stepChapter. rewrite Hf. cbn [andb].
  assert (E : JsMap.get scalar_eqb (Acc._unitsMap c) (UnitId r) = None).
  { apply (get_None_keys scalar_eqb scalar_eqb_eq). now apply falsy_not_key. }
  rewrite E. apply with_units_same.
Qed.

(** X6: A row without a unit id adds nothing below the chapter level: the
    units of the grouping, with their users and activities, are the same
    with and without it; the row only makes sure its chapter exists. *)
Theorem row_without_unit (rows : list Row) (r : Row) :
  truthy_scalar (UnitId r) = false ->
  unitAccs (group (rows ++ [r])) = unitAccs (group rows)
  /\ (JsMap.has scalar_eqb (group rows) (ChapterId r) = true ->
      group (rows ++ [r]) = group rows)
  /\ (JsMap.has scalar_eqb (group rows) (ChapterId r) = false ->
      group (rows ++ [r]) = (group rows ++ [(ChapterId r, newChapter r)])%list).
Proof.
  intros Hf. unfold group. rewrite fold_left_app. cbn [fold_left].
  fold (group rows). set (m := group rows).
  assert (Hd : groupingDistinct m) by apply group_distinct.
  assert (Hstep : step m r
                  = if JsMap.has scalar_eqb m (ChapterId r) then m
                    else (m ++ [(ChapterId r, newChapter r)])%list).
  { unfold step, JsMap.has.
    destruct (JsMap.get scalar_eqb m (ChapterId r)) as [c|] eqn:E; cbn [negb].
    - rewrite E. rewrite stepChapter_without_unit; [|..|assumption].
      + now apply (set_same scalar_eqb).
      + destruct Hd as [_ Hd]. rewrite Forall_forall in Hd. apply Hd.
        now apply (get_In_values scalar_eqb scalar_eqb_eq _ (ChapterId r)).
    - rewrite (get_set_same scalar_eqb scalar_eqb_eq).
      rewrite (set_absent scalar_eqb _ _ _ E).
      rewrite stepChapter_without_unit; [| repeat split; constructor | assumption].
      now rewrite (set_last scalar_eqb scalar_eqb_eq _ _ _ _ E). }
  rewrite Hstep. split; [|split; intros ->; reflexivity].
  destruct (JsMap.has scalar_eqb m (ChapterId r)); [reflexivity|].
  unfold unitAccs, JsMap.values. rewrite map_app, flat_map_app.
  cbn. now rewrite app_nil_r.
Qed.

Lemma row_without_unit_witness :
  unitAccs (group (scenarioB ++ [blankRow])) = unitAccs (group scenarioB).
Proof. apply (proj1 (row_without_unit scenarioB blankRow eq_refl)). Defined.

Lemma In_distinct x l : In x (distinct l) <-> In x l.
Proof.
  induction l as [|y l IH]; cbn [distinct In]; [tauto|].
  rewrite filter_In, IH. split.
  - intros [H|[H _]]; auto.
  - intros [H|H]; [now left|].
    destruct (scalar_eqb y x) eqn:E.
    + left. now apply scalar_eqb_eq.
    + right. split; [assumption|]. reflexivity.
Qed.

Lemma NoDup_distinct l : NoDup (distinct l).
Proof.
  induction l as [|y l IH]; cbn [distinct]; constructor.
  - intros H. apply filter_In in H as [_ H]. cbv beta in H.
    now rewrite scalar_eqb_refl in H.
  - now apply NoDup_filter.
Qed.

Lemma fold_step_keys (rows : list Row) : forall m k,
  In k (JsMap.keys (fold_left step rows m))
  <-> In k (JsMap.keys m) \/ In k (map ChapterId rows).
Proof.
  induction rows as [|r rows IH]; intros m k; cbn [fold_left map In]; [tauto|].
  rewrite IH, step_keys, in_app_iff. unfold JsMap.has.
  destruct (JsMap.get scalar_eqb m (ChapterId r)) eqn:E; cbn [negb In].
  - apply (get_In scalar_eqb scalar_eqb_eq) in E.
    assert (Hk : In (ChapterId r) (JsMap.keys m)).
    { unfold JsMap.keys. change (ChapterId r) with (fst (ChapterId r, c)).
      now apply in_map. }
    split; [tauto|]. intros [H|[<-|H]]; auto.
  - tauto.
Qed.

(** X7: A built hierarchy has one chapter per distinct [ChapterId] value of
    the rows, a missing id included. *)
Theorem one_chapter_per_id (rows : list Row) :
  List.length (Course.chapters (rootOf rows))
  = List.length (distinct (map ChapterId rows)).
Proof.
  unfold rootOf, buildCourse. cbn [Course.chapters].
  rewrite length_map, (Permutation_length (sort_perm _ _)).
  unfold JsMap.values. rewrite length_map, <- (length_map fst).
  apply Permutation_length, NoDup_Permutation.
  - apply group_distinct.
  - apply NoDup_distinct.
  - intros k. rewrite In_distinct. unfold group.
    rewrite (fold_step_keys rows [] k). cbn [JsMap.keys map In]. tauto.
Qed.

(* ------------------------------------------------------------------ *)
(** ** Collecting records by key *)

Section CollectFacts.
  Context {A K V : Type} (eqb : K -> K -> bool).
  Hypothesis eqb_eq : forall a b, eqb a b = true <-> a = b.
  Context (key : A -> K) (init : A -> V) (upd : V -> A -> V).

Lemma get_set_other (m : list (K * V)) k k' v :
  eqb k k' = false -> JsMap.get eqb (JsMap.set eqb m k v) k' = JsMap.get eqb m k'.
Proof.
  intros Hk. induction m as [|[k0 v0] m IH]; cbn [JsMap.set JsMap.get].
  - now rewrite Hk.
  - destruct (eqb k0 k) eqn:E; cbn [JsMap.get]; [|now rewrite IH].
    apply eqb_eq in E. subst k0. now rewrite Hk.
Qed.

Lemma In_get_NoDup (m : list (K * V)) k v :
  NoDup (JsMap.keys m) -> In (k, v) m -> JsMap.get eqb m k = Some v.
Proof.
  induction m as [|[k0 v0] m IH]; cbn [JsMap.keys map fst JsMap.get In];
    [contradiction|].
  intros Hnd [H|H].
  - injection H as -> ->. now rewrite (eqb_refl_ eqb eqb_eq).
  - inversion Hnd as [|? ? Hnotin Hnd']; subst.
    destruct (eqb k0 k) eqn:E; [|now apply IH].
    apply eqb_eq in E. subst k0. exfalso. apply Hnotin.
    change k with (fst (k, v)). now apply in_map.
Qed.

Lemma collect_get (m : list (K * V)) (a : A) k :
  JsMap.get eqb (collect eqb key init upd m a) k
  = if eqb (key a) k
    then Some (upd (match JsMap.get eqb m (key a) with
                    | Some v => v
                    | None => init a
                    end) a)
    else JsMap.get eqb m k.
Proof.
  unfold collect, JsMap.has.
  destruct (JsMap.get eqb m (key a)) as [v|] eqn:E; cbn [negb].
  - rewrite E. destruct (eqb (key a) k) eqn:Ek.
    + apply eqb_eq in Ek. subst k. apply (get_set_same eqb eqb_eq).
    + now apply get_set_other.
  - rewrite (get_set_same eqb eqb_eq). destruct (eqb (key a) k) eqn:Ek.
    + apply eqb_eq in Ek. subst k. apply (get_set_same eqb eqb_eq).
    + now rewrite !get_set_other.
Qed.

Lemma collect_keys (m : list (K * V)) (a : A) :
  JsMap.keys (collect eqb key init upd m a)
  = (JsMap.keys m ++ (if JsMap.has eqb m (key a) then [] else [key a]))%list.
Proof.
  unfold collect.
  rewrite (keys_set_get eqb _ _ (fun v => upd v a)).
  rewrite <- (andb_true_l (negb _)), keys_ensure. cbn [andb].
  now destruct (JsMap.has eqb m (key a)).
Qed.

Lemma collect_NoDup (l : list A) : forall m,
  NoDup (JsMap.keys m) ->
  NoDup (JsMap.keys (fold_left (collect eqb key init upd) l m)).
Proof.
  induction l as [|a l IH]; intros m Hnd; cbn [fold_left]; [assumption|].
  apply IH. rewrite collect_keys.
  pose proof (NoDup_ensure eqb eqb_eq m true (key a) Hnd) as H.
  cbn [andb] in H. now destruct (JsMap.has eqb m (key a)).
Qed.

(** The entry of a key after the loop: the update of every record with
    that key, in order, starting from the entry made for the first one. *)
Lemma collect_all (l : list A) : forall m k,
  JsMap.get eqb (fold_left (collect eqb key init upd) l m) k
  = match JsMap.get eqb m k, filter (fun a => eqb (key a) k) l with
    | Some v, sub => Some (fold_left upd sub v)
    | None, [] => None
    | None, a0 :: sub => Some (fold_left upd (a0 :: sub) (init a0))
    end.
Proof.
  induction l as [|a l IH]; intros m k; cbn [fold_left filter].
  - now destruct (JsMap.get eqb m k).
  - rewrite IH, collect_get. destruct (eqb (key a) k) eqn:E.
    + apply eqb_eq in E. subst k.
      destruct (JsMap.get eqb m (key a)); reflexivity.
    + destruct (JsMap.get eqb m k); reflexivity.
Qed.

End CollectFacts.

Lemma noteUser_collect :
  noteUser = collect String.eqb User.userId initStudent updStudent.
Proof. reflexivity. Qed.

Lemma noteActivity_collect :
  noteActivity = collect scalar_eqb Activity.activityName initActivity updActivity.
Proof. reflexivity. Qed.

Lemma updStudent_all (sub : list User.t) : forall st,
  Student.isStruggling (fold_left updStudent sub st)
  = Student.isStruggling st || existsb User.isStruggling sub
  /\ Student.accuracies (fold_left updStudent sub st)
     = (Student.accuracies st ++ filter positive (map User.accuracy sub))%list
  /\ Student.times (fold_left updStudent sub st)
     = (Student.times st
        ++ map (fun u => parseDurationToSeconds (JStr (User.totalTimeSpent u)))
               sub)%list.
Proof.
  induction sub as [|u sub IH]; intros st; cbn [fold_left existsb map filter].
  - now rewrite orb_false_r, !app_nil_r.
  - destruct (IH (updStudent st u)) as (H1 & H2 & H3).
    rewrite H1, H2, H3. cbn [updStudent Student.isStruggling
                             Student.accuracies Student.times].
    unfold positive. repeat split.
    + destruct (User.isStruggling u), (Student.isStruggling st); reflexivity.
    + destruct (gtb (User.accuracy u) (Fin 0)); [|reflexivity].
      now rewrite <- app_assoc.
    + now rewrite <- app_assoc.
Qed.

Lemma updActivity_all (sub : list Activity.t) : forall s,
  ActivityStat.accuracies (fold_left updActivity sub s)
  = (ActivityStat.accuracies s ++ map Activity.accuracy sub)%list
  /\ ActivityStat.attempts (fold_left updActivity sub s)
     = (ActivityStat.attempts s ++ map Activity.totalAttempts sub)%list.
Proof.
  induction sub as [|a sub IH]; intros s; cbn [fold_left map].
  - now rewrite !app_nil_r.
  - destruct (IH (updActivity s a)) as (H1 & H2). rewrite H1, H2.
    cbn [updActivity ActivityStat.accuracies ActivityStat.attempts].
    now rewrite <- !app_assoc.
Qed.

Section CollectKeys.
  Context {A K V : Type} (eqb : K -> K -> bool).
  Hypothesis eqb_eq : forall a b, eqb a b = true <-> a = b.
  Context (key : A -> K) (init : A -> V) (upd : V -> A -> V).

Lemma filter_nil_iff (p : A -> bool) (l : list A) :
  filter p l = [] <-> forall a, In a l -> p a = false.
Proof.
  induction l as [|x l IH]; cbn [filter In]; [tauto|].
  destruct (p x) eqn:E; split.
  - discriminate.
  - intros H. specialize (H x (or_introl eq_refl)). congruence.
  - intros H a [<-|Ha]; [assumption|]. now apply IH.
  - intros H. apply IH. intros a Ha. apply H. now right.
Qed.

Lemma collect_key_seen (l : list A) (k : K) :
  In k (JsMap.keys (fold_left (collect eqb key init upd) l []))
  <-> exists a, In a l /\ key a = k.
Proof.
  destruct (JsMap.get eqb (fold_left (collect eqb key init upd) l []) k) eqn:G.
  - split; [|intros _].
    + intros _. rewrite (collect_all eqb eqb_eq) in G. cbn [JsMap.get] in G.
      destruct (filter (fun a => eqb (key a) k) l) as [|a0 sub] eqn:F;
        [discriminate|].
      assert (Hin : In a0 (filter (fun a => eqb (key a) k) l))
        by (rewrite F; now left).
      apply filter_In in Hin as [Hin Hk]. exists a0. split; [assumption|].
      now apply eqb_eq.
    + apply (get_In eqb eqb_eq) in G. unfold JsMap.keys.
      change k with (fst (k, v)). now apply in_map.
  - split.
    + intros H. now apply (get_None_keys eqb eqb_eq) in G.
    + intros (a & Ha & Hk). exfalso.
      rewrite (collect_all eqb eqb_eq) in G. cbn [JsMap.get] in G.
      destruct (filter (fun a => eqb (key a) k) l) as [|a0 sub] eqn:F;
        [|discriminate].
      rewrite filter_nil_iff in F. specialize (F a Ha).
      subst k. now rewrite (eqb_refl_ eqb eqb_eq) in F.
Qed.

Lemma collect_entry (l : list A) (k : K) (v : V) :
  In (k, v) (fold_left (collect eqb key init upd) l []) ->
  exists a0 sub,
    filter (fun a => eqb (key a) k) l = a0 :: sub
    /\ v = fold_left upd (a0 :: sub) (init a0).
Proof.
  intros H. apply (In_get_NoDup eqb eqb_eq) in H;
    [|apply (collect_NoDup eqb eqb_eq); constructor].
  rewrite (collect_all eqb eqb_eq) in H. cbn [JsMap.get] in H.
  destruct (filter (fun a => eqb (key a) k) l) as [|a0 sub]; [discriminate|].
  injection H as <-. eauto.
Qed.

End CollectKeys.

(* ------------------------------------------------------------------ *)
(** ** The student and activity cards *)

(** X8: The student view shows one card per distinct user id of the course.
    The card of a student is filed under Struggling exactly when one of
    the student's unit records is flagged as struggling, else under
    Excelling when the mean of the student's positive unit accuracies
    exceeds 90, else under On-Track. *)
Theorem student_cards (data : Course.t) :
  NoDup (map fst (renderStudentAnalysis data))
  /\ (forall id, In id (map fst (renderStudentAnalysis data))
                 <-> exists u, In u (userRecords data) /\ User.userId u = id)
  /\ (forall id status,
        In (id, status) (renderStudentAnalysis data) ->
        filter (isUser id) (userRecords data) <> []
        /\ status
           = if existsb User.isStruggling (filter (isUser id) (userRecords data))
             then Struggling
             else if gtb (calculateAverage
                            (filter positive
                               (map User.accuracy
                                    (filter (isUser id) (userRecords data)))))
                         (Fin 90)
                  then Excelling else OnTrack).
Proof.
  unfold renderStudentAnalysis. rewrite noteUser_collect, map_map. cbn [fst].
  split; [apply (collect_NoDup String.eqb String.eqb_eq); constructor|].
  split; [intros id; apply (collect_key_seen String.eqb String.eqb_eq)|].
  intros id status Hin. apply in_map_iff in Hin as ([k st] & E & Hin).
  cbn [fst snd] in E. injection E as -> <-.
  apply (collect_entry String.eqb String.eqb_eq) in Hin as (a0 & sub & F & ->).
  unfold isUser. rewrite F. split; [discriminate|].
  destruct (updStudent_all (a0 :: sub) (initStudent a0)) as (H1 & H2 & _).
  unfold statusOf. rewrite H1, H2. reflexivity.
Qed.

Lemma student_cards_witness :
  filter (isUser "u1") (userRecords (rootOf scenarioB)) <> []
  /\ OnTrack
     = if existsb User.isStruggling
                  (filter (isUser "u1") (userRecords (rootOf scenarioB)))
       then Struggling
       else if gtb (calculateAverage
                      (filter positive
                         (map User.accuracy
                              (filter (isUser "u1")
                                      (userRecords (rootOf scenarioB))))))
                   (Fin 90)
            then Excelling else OnTrack.
Proof.
  apply (proj2 (proj2 (student_cards (rootOf scenarioB))) "u1" OnTrack).
  vm_compute. left. reflexivity.
Defined.

(** X9: The activity view shows one card per distinct activity name.  The
    figures of a card are the means of the accuracy and of the attempts
    of every activity record with that name: Needs Review when the mean
    accuracy is below 70 and the mean attempts exceed 10, else Moderate
    when the mean accuracy is below 80, else Effective. *)
Theorem activity_cards (data : Course.t) :
  NoDup (map fst (renderActivityAnalysis data))
  /\ (forall name, In name (map fst (renderActivityAnalysis data))
                   <-> exists a, In a (activityRecords data)
                                 /\ Activity.activityName a = name)
  /\ (forall name eff,
        In (name, eff) (renderActivityAnalysis data) ->
        let recs := filter (isActivity name) (activityRecords data) in
        let avgAccuracy := calculateAverage (map Activity.accuracy recs) in
        let avgAttempts := calculateAverage (map Activity.totalAttempts recs) in
        recs <> []
        /\ eff = if ltb avgAccuracy (Fin 70) && gtb avgAttempts (Fin 10)
                 then NeedsReview
                 else if ltb avgAccuracy (Fin 80) then Moderate else Effective).
Proof.
  unfold renderActivityAnalysis. rewrite noteActivity_collect, map_map. cbn [fst].
  split; [apply (collect_NoDup scalar_eqb scalar_eqb_eq); constructor|].
  split; [intros name; apply (collect_key_seen scalar_eqb scalar_eqb_eq)|].
  intros name eff Hin. apply in_map_iff in Hin as ([k st] & E & Hin).
  cbn [fst snd] in E. injection E as -> <-.
  apply (collect_entry scalar_eqb scalar_eqb_eq) in Hin as (a0 & sub & F & ->).
  unfold isActivity. cbv zeta. rewrite F. split; [discriminate|].
  destruct (updActivity_all (a0 :: sub) (initActivity a0)) as (H1 & H2).
  unfold effectivenessOf. rewrite H1, H2. reflexivity.
Qed.

Lemma activity_cards_witness :
  filter (isActivity (SStr "Quiz")) (activityRecords (rootOf scenarioC)) <> []
  /\ NeedsReview
     = if ltb (calculateAverage
                 (map Activity.accuracy
                      (filter (isActivity (SStr "Quiz"))
                              (activityRecords (rootOf scenarioC)))))
              (Fin 70)
          && gtb (calculateAverage
                    (map Activity.totalAttempts
                         (filter (isActivity (SStr "Quiz"))
                                 (activityRecords (rootOf scenarioC)))))
                 (Fin 10)
       then NeedsReview
       else if ltb (calculateAverage
                      (map Activity.accuracy
                           (filter (isActivity (SStr "Quiz"))
                                   (activityRecords (rootOf scenarioC)))))
                   (Fin 80)
            then Moderate else Effective.
Proof.
  apply (proj2 (proj2 (activity_cards (rootOf scenarioC))) (SStr "Quiz") NeedsReview).
  vm_compute. left. reflexivity.
Defined.

(* ------------------------------------------------------------------ *)
(** ** First-seen order of the keys of a collecting loop *)

Section FirstSeenFacts.
  Context {K : Type} (eqb : K -> K -> bool).
  Hypothesis eqb_eq : forall a b, eqb a b = true <-> a = b.

Lemma firstSeen_snoc (l : list K) (x : K) :
  firstSeen eqb (l ++ [x])
  = (firstSeen eqb l ++ (if existsb (fun y => eqb y x) l then [] else [x]))%list.
Proof.
  induction l as [|y l IH]; cbn [app firstSeen filter existsb]; [reflexivity|].
  rewrite IH, filter_app. f_equal. f_equal.
  destruct (existsb (fun y0 => eqb y0 x) l); cbn [filter orb].
  - now rewrite orb_true_r.
  - rewrite orb_false_r. now destruct (eqb y x).
Qed.



End FirstSeenFacts.

Section CollectOrder.
  Context {A K V : Type} (eqb : K -> K -> bool).
  Hypothesis eqb_eq : forall a b, eqb a b = true <-> a = b.
  Context (key : A -> K) (init : A -> V) (upd : V -> A -> V).

Lemma collect_has (l : list A) (k : K) :
  JsMap.has eqb (fold_left (collect eqb key init upd) l []) k
  = existsb (fun y => eqb y k) (map key l).
Proof.
  unfold JsMap.has. rewrite (collect_all eqb eqb_eq). cbn [JsMap.get].
  induction l as [|a l IH]; cbn [filter map existsb]; [reflexivity|].
  destruct (eqb (key a) k); cbn [orb]; [reflexivity|exact IH].
Qed.

(** The keys of the map are the keys of the records, each at its first
    occurrence. *)
Lemma collect_keys_firstSeen (l : list A) :
  JsMap.keys (fold_left (collect eqb key init upd) l [])
  = firstSeen eqb (map key l).
Proof.
  induction l as [|a l IH] using rev_ind; [reflexivity|].
  rewrite fold_left_app. cbn [fold_left].
  rewrite (collect_keys eqb), IH, collect_has, map_app. cbn [map].
  now rewrite firstSeen_snoc.
Qed.

End CollectOrder.

Lemma fold_left_ext {A B} (f g : A -> B -> A) (l : list B) (a : A) :
  (forall x y, f x y = g x y) -> fold_left f l a = fold_left g l a.
Proof.
  intros H. revert a. induction l as [|y l IH]; intros a; cbn [fold_left];
    [reflexivity|]. now rewrite H, IH.
Qed.

Lemma observe_collect (m : list (string * ConceptStat.t)) (o : User.t * Element.t) :
  observe m o
  = collect String.eqb (fun o => Element.elementId (snd o)) initConcept updConcept
            m o.
Proof.
  destruct o as [user el]. unfold observe, collect. cbn [snd fst].
  destruct (JsMap.get String.eqb _ (Element.elementId el)) as [c|]; [|reflexivity].
  unfold updConcept, attemptsOf. cbn [snd fst].
  destruct (find (mentions (Element.elementId el)) (User.activities user));
    [reflexivity|]. now rewrite app_nil_r.
Qed.

Lemma updConcept_all (sub : list (User.t * Element.t)) : forall c,
  ConceptStat.name (fold_left updConcept sub c) = ConceptStat.name c
  /\ ConceptStat.accuracies (fold_left updConcept sub c)
     = (ConceptStat.accuracies c
        ++ filter positive (map (fun o => Element.accuracy (snd o)) sub))%list
  /\ ConceptStat.attempts (fold_left updConcept sub c)
     = (ConceptStat.attempts c ++ flat_map attemptsOf sub)%list.
Proof.
  induction sub as [|o sub IH]; intros c; cbn [fold_left map filter flat_map].
  - now rewrite !app_nil_r.
  - destruct (IH (updConcept c o)) as (H1 & H2 & H3).
    rewrite H1, H2, H3. cbn [updConcept ConceptStat.name ConceptStat.accuracies
                             ConceptStat.attempts].
    split; [reflexivity|]. unfold positive at 2.
    destruct (gtb (Element.accuracy (snd o)) (Fin 0));
      now rewrite <- !app_assoc.
Qed.

(** The entries of the concept map: one for each concept observed, made
    of its observations. *)
Lemma concept_entries (data : Course.t) (id : string) (s : ConceptStat.t) :
  In (id, s) (fold_left observe (observations data) []) <->
  exists o0 rest,
    conceptObservations id data = o0 :: rest
    /\ s = fold_left updConcept (o0 :: rest) (initConcept o0).
Proof.
  rewrite (fold_left_ext observe _ _ _ observe_collect). split.
  - intros H. now apply (collect_entry String.eqb String.eqb_eq) in H.
  - intros (o0 & rest & Hobs & ->).
    apply (get_In String.eqb String.eqb_eq).
    rewrite (collect_all String.eqb String.eqb_eq). cbn [JsMap.get].
    unfold conceptObservations in Hobs. now rewrite Hobs.
Qed.

Lemma ranked_from (o0 : User.t * Element.t) (rest : list (User.t * Element.t)) :
  rankedFrom o0 rest (rank (fold_left updConcept (o0 :: rest) (initConcept o0))).
Proof.
  destruct (updConcept_all (o0 :: rest) (initConcept o0)) as (H1 & H2 & H3).
  unfold rankedFrom.
  cbn [rank RankedConcept.name RankedConcept.accuracies RankedConcept.attempts].
  now rewrite H1, H2, H3.
Qed.

(** The mean of copies of one integer is that integer. *)
Lemma fold_add_const (z : Z) (l : list num) : forall a,
  (forall x, In x l -> x = ofZ z) ->
  fold_left add l (ofZ a) = ofZ (a + z * Z.of_nat (List.length l)).
Proof.
  induction l as [|x l IH]; intros a H; cbn [fold_left List.length].
  - f_equal. lia.
  - rewrite (H x (or_introl eq_refl)), add_ofZ, IH.
    + f_equal. lia.
    + intros y Hy. apply H. now right.
Qed.

Lemma mean_const (z : Z) (l : list num) :
  l <> [] -> (forall x, In x l -> x = ofZ z) -> calculateAverage l = ofZ z.
Proof.
  intros Hne H. destruct l as [|x l]; [congruence|].
  unfold calculateAverage. change (Fin 0) with (ofZ 0).
  rewrite (fold_add_const z (x :: l) 0 H).
  set (n := Z.of_nat (List.length (x :: l))).
  assert (Hn : n <> 0) by (subst n; cbn [List.length]; lia).
  unfold div, ofZ, is_zero. cbn [Qnum].
  destruct (Z.eqb_spec n 0) as [E|_]; [contradiction|].
  apply fin_inject. change (0 + z * n # 1) with (inject_Z (0 + z * n)).
  change (n # 1) with (inject_Z n).
  rewrite Z.add_0_l, inject_Z_mult. apply Qdiv_mult_l.
  change 0%Q with (inject_Z 0). rewrite inject_Z_injective. exact Hn.
Qed.

Lemma gtb_leb (a b : num) :
  isNaN a = false -> isNaN b = false -> (gtb a b = false <-> leb a b = true).
Proof.
  intros Ha Hb. unfold leb, gtb.
  destruct a, b; try discriminate; destruct (ltb _ _); cbn; intuition congruence.
Qed.

Lemma StronglySorted_on {A} (P : A -> Prop) (R : A -> A -> Prop) (l : list A) :
  (forall x y z, P x -> P y -> P z -> R x y -> R y z -> R x z) ->
  Forall P l -> Sorted R l -> StronglySorted R l.
Proof.
  intros Htrans Hp Hs. induction Hs as [|x l Hs IH Hhd]; [constructor|].
  inversion Hp as [|? ? Hx Hl]; subst. specialize (IH Hl).
  constructor; [assumption|].
  destruct Hhd as [|y l' Hxy]; [constructor|].
  inversion Hl as [|? ? Hy Hl']; subst.
  inversion IH as [|? ? Hss Hall]; subst.
  constructor; [assumption|].
  rewrite Forall_forall in *. intros z Hz.
  apply (Htrans x y z); auto.
Qed.

(** C2: the ranked list holds one concept for each concept id observed in
    the cohort, and no other.  A concept carries the name of its first
    observation, the positive accuracies observed for it and, for each
    observation, the attempts of the first activity of the observing user
    that mentions it.  Its difficulty is [(100 - avgAccuracy) * m], where
    [avgAccuracy] is the mean of those accuracies and [m] the mean of
    those attempts when that mean exceeds 1, and 1.1 otherwise; this is
    the stated [max(avgAttempts, 1.1)] unless the mean lies between 1 and
    1.1.  A concept whose observations all have accuracy 40 and 5
    attempts has difficulty 300.  No concept of the list ranks above the one before
    it, nor above any before it when no difficulty is [NaN]. *)
Theorem difficulty_index (data : Course.t) :
  (forall c, In c (renderConceptAnalysis data) ->
     exists id o0 rest,
       conceptObservations id data = o0 :: rest
       /\ rankedFrom o0 rest c
       /\ RankedConcept.avgAccuracy c = calculateAverage (RankedConcept.accuracies c)
       /\ RankedConcept.avgAttempts c = calculateAverage (RankedConcept.attempts c)
       /\ RankedConcept.difficulty c
          = mul (sub (Fin 100) (RankedConcept.avgAccuracy c))
                (if gtb (RankedConcept.avgAttempts c) (Fin 1)
                 then RankedConcept.avgAttempts c else Fin (11 # 10))
       /\ (gtb (RankedConcept.avgAttempts c) (Fin (11 # 10)) = true
           \/ gtb (RankedConcept.avgAttempts c) (Fin 1) = false ->
           RankedConcept.difficulty c
           = difficultyAsStated (RankedConcept.avgAccuracy c)
                                (RankedConcept.avgAttempts c)))
  /\ (forall id o0 rest,
        conceptObservations id data = o0 :: rest ->
        exists c, In c (renderConceptAnalysis data) /\ rankedFrom o0 rest c)
  /\ (forall c o0 rest,
        In c (renderConceptAnalysis data) -> rankedFrom o0 rest c ->
        (forall o, In o (o0 :: rest) ->
           Element.accuracy (snd o) = Fin 40 /\ attemptsOf o = [Fin 5]) ->
        RankedConcept.difficulty c = Fin 300)
  /\ List.length (renderConceptAnalysis data)
     = List.length
         (firstSeen String.eqb
            (map (fun o => Element.elementId (snd o)) (observations data)))
  /\ Sorted notEasierThan (renderConceptAnalysis data)
  /\ (Forall (fun c => isNaN (RankedConcept.difficulty c) = false)
             (renderConceptAnalysis data) ->
      StronglySorted notEasierThan (renderConceptAnalysis data)).
Proof.
  assert (Hsorted : Sorted notEasierThan (renderConceptAnalysis data)).
  { unfold renderConceptAnalysis.
    apply (sort_sorted byDifficultyDesc
             (fun a b => gtb (RankedConcept.difficulty b) (RankedConcept.difficulty a))).
    - intros x y. apply gtb_sub.
    - intros x y. apply gtb_asym. }
  split.
  { intros c Hc. unfold renderConceptAnalysis in Hc.
    apply In_sort, in_map_iff in Hc as (s & <- & Hs).
    apply in_map_iff in Hs as ([id s'] & Es & Hin). cbn [snd] in Es. subst s'.
    apply concept_entries in Hin as (o0 & rest & Hobs & ->).
    exists id, o0, rest. split; [assumption|].
    pose proof (ranked_from o0 rest) as Hfrom.
    split; [exact Hfrom|].
    set (s := fold_left updConcept (o0 :: rest) (initConcept o0)) in *.
    split; [reflexivity|]. split; [reflexivity|]. split; [reflexivity|].
    cbn [rank RankedConcept.avgAccuracy RankedConcept.avgAttempts
         RankedConcept.difficulty].
    unfold difficultyAsStated, maxNum. intros [H|H].
    + now rewrite H, (gtb_above _ H).
    + now rewrite H, (gtb_below _ H). }
  split.
  { intros id o0 rest Hobs.
    exists (rank (fold_left updConcept (o0 :: rest) (initConcept o0))).
    split; [|apply ranked_from].
    unfold renderConceptAnalysis. apply In_sort, in_map.
    unfold JsMap.values.
    change (fold_left updConcept (o0 :: rest) (initConcept o0))
      with (snd (id, fold_left updConcept (o0 :: rest) (initConcept o0))).
    apply in_map. apply concept_entries. eauto. }
  split.
  { intros c o0 rest Hc (_ & Hacc & Hatt) Hall.
    unfold renderConceptAnalysis in Hc.
    apply In_sort, in_map_iff in Hc as (s & <- & _).
    cbn [rank RankedConcept.accuracies RankedConcept.attempts] in Hacc, Hatt.
    cbn [rank RankedConcept.difficulty].
    assert (H40 : calculateAverage (ConceptStat.accuracies s) = ofZ 40).
    { rewrite Hacc. apply mean_const.
      - cbn [map filter]. destruct (Hall o0 (or_introl eq_refl)) as [-> _].
        discriminate.
      - intros x Hx. apply filter_In in Hx as [Hx _].
        apply in_map_iff in Hx as (o & <- & Ho). now apply Hall. }
    assert (H5 : calculateAverage (ConceptStat.attempts s) = ofZ 5).
    { rewrite Hatt. apply mean_const.
      - cbn [flat_map]. destruct (Hall o0 (or_introl eq_refl)) as [_ ->].
        discriminate.
      - intros x Hx. apply in_flat_map in Hx as (o & Ho & Hx).
        destruct (Hall o Ho) as [_ E]. rewrite E in Hx.
        destruct Hx as [<-|[]]. reflexivity. }
    rewrite H40, H5. vm_compute. reflexivity. }
  split.
  { unfold renderConceptAnalysis.
    rewrite (Permutation_length (sort_perm _ _)), length_map.
    unfold JsMap.values. rewrite length_map.
    rewrite <- (length_map fst).
    rewrite (fold_left_ext observe _ _ _ observe_collect).
    change (map fst ?m) with (JsMap.keys m).
    now rewrite collect_keys_firstSeen by exact String.eqb_eq. }
  split; [exact Hsorted|].
  intros Hnan.
  apply (StronglySorted_on (fun c => isNaN (RankedConcept.difficulty c) = false));
    [|assumption|assumption].
  unfold notEasierThan. intros x y z Hx Hy Hz Hxy Hyz.
  apply gtb_leb; [assumption|assumption|].
  apply (leb_trans _ (RankedConcept.difficulty y)); now apply gtb_leb.
Qed.

Lemma difficulty_index_witness :
  RankedConcept.difficulty
    (hd (rank (initConcept (buildUser NaN (newUser blankRow), newElement blankRow)))
        (renderConceptAnalysis (rootOf scenarioE)))
  = Fin 300
  /\ StronglySorted notEasierThan (renderConceptAnalysis (rootOf elevenLearners)).
Proof.
  split.
  - apply (proj1 (proj2 (proj2 (difficulty_index (rootOf scenarioE))))
             (hd (rank (initConcept (buildUser NaN (newUser blankRow),
                                     newElement blankRow)))
                 (renderConceptAnalysis (rootOf scenarioE)))
             (hd (buildUser NaN (newUser blankRow), newElement blankRow)
                 (observations (rootOf scenarioE)))
             []).
    + vm_compute. left. reflexivity.
    + vm_compute. repeat split.
    + intros o [<-|[]]. vm_compute. split; reflexivity.
  - apply (proj2 (proj2 (proj2 (proj2 (proj2 (difficulty_index
                                                (rootOf elevenLearners))))))).
    vm_compute. repeat constructor.
Defined.

(** Ten learners with one attempt and one with two: the mean is 12/11,
    the index is [60 * 12/11], where [max(12/11, 1.1)] gives 66. *)
Lemma difficulty_is_not_max :
  map (fun c => (RankedConcept.avgAccuracy c, RankedConcept.avgAttempts c,
                 RankedConcept.difficulty c))
      (renderConceptAnalysis (rootOf elevenLearners))
  = [(Fin 40, Fin (12 # 11), Fin (720 # 11))]
  /\ difficultyAsStated (Fin 40) (Fin (12 # 11)) = Fin 66
  /\ ~ (forall c, In c (renderConceptAnalysis (rootOf elevenLearners)) ->
          RankedConcept.difficulty c
          = difficultyAsStated (RankedConcept.avgAccuracy c)
                               (RankedConcept.avgAttempts c)).
Proof.
  split; [vm_compute; reflexivity|]. split; [vm_compute; reflexivity|].
  intros H.
  specialize (H (hd (rank {| ConceptStat.name := SUndefined;
                             ConceptStat.accuracies := [];
                             ConceptStat.attempts := [] |})
                    (renderConceptAnalysis (rootOf elevenLearners)))).
  vm_compute in H. specialize (H (or_introl eq_refl)). discriminate H.
Qed.

(* ------------------------------------------------------------------ *)
(** ** Collecting records into an array *)

Lemma fold_left_guard {A B} (g : B -> bool) (f : A -> B -> A) (l : list B) :
  forall a,
    fold_left (fun m x => if g x then f m x else m) l a
    = fold_left f (filter g l) a.
Proof.
  induction l as [|x l IH]; intros a; cbn [fold_left filter]; [reflexivity|].
  destruct (g x); cbn [fold_left]; apply IH.
Qed.

Lemma find_app_ {A} (p : A -> bool) (l l' : list A) :
  find p (l ++ l')
  = match find p l with Some x => Some x | None => find p l' end.
Proof.
  induction l as [|x l IH]; cbn [app find]; [reflexivity|].
  now destruct (p x).
Qed.

Lemma update_first_id {A} (p : A -> bool) (l : list A) :
  update_first p (fun v => v) l = l.
Proof.
  induction l as [|x l IH]; cbn [update_first]; [reflexivity|].
  destruct (p x); [reflexivity|]. now rewrite IH.
Qed.

Lemma Forall2_entries {K V} (P : K -> V -> Prop) (m : list (K * V)) :
  (forall k v, In (k, v) m -> P k v) ->
  Forall2 P (JsMap.keys m) (JsMap.values m).
Proof.
  induction m as [|[k v] m IH]; intros H; cbn [JsMap.keys JsMap.values map fst snd];
    constructor.
  - apply H. now left.
  - apply IH. intros k' v' Hin. apply H. now right.
Qed.

Lemma Forall2_map_r {A B C} (P : A -> C -> Prop) (f : B -> C) l (l' : list B) :
  Forall2 (fun a b => P a (f b)) l l' -> Forall2 P l (map f l').
Proof. induction 1; cbn [map]; constructor; auto. Qed.

Section CollectListFacts.
  Context {A K V : Type} (eqb : K -> K -> bool).
  Hypothesis eqb_eq : forall a b, eqb a b = true <-> a = b.
  Context (keyOf : V -> K) (key : A -> K) (init : A -> V) (upd : V -> A -> V).
  Hypothesis key_init : forall a, keyOf (init a) = key a.
  Hypothesis key_upd : forall v a, keyOf (upd v a) = keyOf v.

Lemma get_keyed (l : list V) (k : K) :
  JsMap.get eqb (keyed keyOf l) k = find (fun v => eqb (keyOf v) k) l.
Proof.
  induction l as [|x l IH]; cbn [keyed map JsMap.get find]; [reflexivity|].
  destruct (eqb (keyOf x) k); [reflexivity|exact IH].
Qed.

Lemma keyed_app (l l' : list V) :
  keyed keyOf (l ++ l') = (keyed keyOf l ++ keyed keyOf l')%list.
Proof. unfold keyed. apply map_app. Qed.

Lemma set_keyed (l : list V) (k : K) (f : V -> V) (v : V) :
  (forall x, keyOf (f x) = keyOf x) ->
  find (fun v => eqb (keyOf v) k) l = Some v ->
  JsMap.set eqb (keyed keyOf l) k (f v)
  = keyed keyOf (update_first (fun v => eqb (keyOf v) k) f l).
Proof.
  intros Hf. induction l as [|x l IH];
    cbn [keyed map JsMap.set find update_first]; [discriminate|].
  destruct (eqb (keyOf x) k).
  - intros [= ->]. cbn [map]. now rewrite Hf.
  - intros H. cbn [map]. f_equal. now apply IH.
Qed.

Lemma keyed_collectList (l : list V) (a : A) :
  keyed keyOf (collectList eqb keyOf key init upd l a)
  = collect eqb key init upd (keyed keyOf l) a.
Proof.
  unfold collectList, collect, push_unless, JsMap.has.
  rewrite get_keyed.
  destruct (find (fun v => eqb (keyOf v) (key a)) l) as [v|] eqn:F; cbn [negb].
  - rewrite get_keyed, F. symmetry.
    apply (set_keyed l (key a) (fun v => upd v a)); [|assumption].
    intros x. apply key_upd.
  - assert (G : JsMap.get eqb (keyed keyOf l) (key a) = None)
      by now rewrite get_keyed.
    rewrite (get_set_same eqb eqb_eq).
    rewrite (set_absent eqb _ _ _ G).
    assert (E : (keyed keyOf l ++ [(key a, init a)])%list
                = keyed keyOf (l ++ [init a])).
    { rewrite keyed_app. cbn [keyed map]. now rewrite key_init. }
    rewrite E. symmetry.
    apply (set_keyed (l ++ [init a]) (key a) (fun v => upd v a));
      [intros x; apply key_upd|].
    rewrite find_app_, F. cbn [find].
    now rewrite key_init, (eqb_refl_ eqb eqb_eq).
Qed.

Lemma keyed_fold (l : list A) : forall m,
  keyed keyOf (fold_left (collectList eqb keyOf key init upd) l m)
  = fold_left (collect eqb key init upd) l (keyed keyOf m).
Proof.
  induction l as [|a l IH]; intros m; cbn [fold_left]; [reflexivity|].
  now rewrite IH, keyed_collectList.
Qed.

(** The keys of the array are the keys of the records, each at its
    first occurrence. *)
Lemma collectList_keys (l : list A) :
  map keyOf (fold_left (collectList eqb keyOf key init upd) l [])
  = firstSeen eqb (map key l).
Proof.
  rewrite <- (collect_keys_firstSeen eqb eqb_eq key init upd).
  change [] with (keyed keyOf []) at 2. rewrite <- keyed_fold.
  unfold JsMap.keys, keyed. now rewrite map_map.
Qed.

(** An element of the array is the update of every record with its key,
    starting from the element made for the first of them. *)
Lemma collectList_entry (l : list A) (v : V) :
  In v (fold_left (collectList eqb keyOf key init upd) l []) ->
  exists a0 sub,
    filter (fun a => eqb (key a) (keyOf v)) l = a0 :: sub
    /\ v = fold_left upd (a0 :: sub) (init a0).
Proof.
  intros H. apply (collect_entry eqb eqb_eq key init upd).
  change [] with (keyed keyOf []). rewrite <- keyed_fold.
  unfold keyed. apply in_map_iff. eauto.
Qed.

End CollectListFacts.

(* ------------------------------------------------------------------ *)
(** ** The grouping pass as nested collecting loops *)

(** Elements of a component. *)
Lemma addElement_step (r : Row) (c : Component.t) :
  addElement r c
  = Component.with_elements c (elementStep (Component.elements c) r).
Proof.
  unfold addElement, elementStep, collectList. now rewrite update_first_id.
Qed.

Lemma fold_addElement (l : list Row) : forall c,
  Component.componentId (fold_left (fun c r => addElement r c) l c)
  = Component.componentId c
  /\ Component.elements (fold_left (fun c r => addElement r c) l c)
     = fold_left elementStep l (Component.elements c).
Proof.
  induction l as [|r l IH]; intros c; cbn [fold_left]; [auto|].
  destruct (IH (addElement r c)) as [H1 H2]. rewrite H1, H2.
  now rewrite addElement_step.
Qed.

Lemma elements_firstSeen (l : list Row) (r0 : Row) :
  map Element.elementId
      (Component.elements (fold_left (fun c r => addElement r c) l (newComponent r0)))
  = firstSeen String.eqb (map (fun r => String_ (ConceptId r)) l).
Proof.
  rewrite (proj2 (fold_addElement l _)). cbn [newComponent Component.elements].
  apply (collectList_keys String.eqb String.eqb_eq); reflexivity.
Qed.

(** Components of a category. *)
Lemma fold_addComponent (l : list Row) : forall c,
  Category.category (fold_left (fun c r => addComponent r c) l c)
  = Category.category c
  /\ Category.components (fold_left (fun c r => addComponent r c) l c)
     = fold_left componentStep l (Category.components c).
Proof.
  induction l as [|r l IH]; intros c; cbn [fold_left]; [auto|].
  destruct (IH (addComponent r c)) as [H1 H2]. now rewrite H1, H2.
Qed.

Lemma components_firstSeen (rs l : list Row) (r0 : Row) :
  let cat := fold_left (fun c r => addComponent r c) l (newCategory r0) in
  l = ofCategory (Category.category cat) rs ->
  componentsFirstSeen rs cat.
Proof.
  intros cat Hl. unfold componentsFirstSeen. rewrite <- Hl.
  assert (Hc : Category.components cat = fold_left componentStep l []).
  { subst cat. now rewrite (proj2 (fold_addComponent l _)). }
  rewrite Hc. split.
  - apply (collectList_keys String.eqb String.eqb_eq); reflexivity.
  - apply Forall_forall. intros comp Hin.
    apply (collectList_entry String.eqb String.eqb_eq) in Hin
      as (a0 & sub & Hf & ->); [|reflexivity|reflexivity].
    unfold elementsFirstSeen, ofComponent. cbn beta in Hf. rewrite Hf.
    change (fold_left (fun (v : Component.t) (a : Row) => addElement a v)
                      (a0 :: sub) (newComponent a0))
      with (fold_left (fun c r => addElement r c) (a0 :: sub) (newComponent a0)).
    apply elements_firstSeen.
Qed.

(** Categories of an activity record. *)
Lemma fold_addCategory (l : list Row) : forall ap,
  Activity.performanceByCategory (fold_left (fun ap r => addCategory r ap) l ap)
  = fold_left categoryStep l (Activity.performanceByCategory ap).
Proof.
  induction l as [|r l IH]; intros ap; cbn [fold_left]; [reflexivity|].
  now rewrite IH.
Qed.

Lemma fold_updPerformance (l : list (Row * Row)) (ap : Activity.t) :
  Activity.performanceByCategory (fold_left updPerformance l ap)
  = fold_left categoryStep
      (map fst (filter (fun rec => truthy_scalar (ConceptId (fst rec))) l))
      (Activity.performanceByCategory ap).
Proof.
  unfold updPerformance.
  rewrite (fold_left_guard (fun rec => truthy_scalar (ConceptId (fst rec)))
             (fun ap rec => addCategory (fst rec) ap)).
  rewrite <- fold_addCategory.
  generalize (filter (fun rec : Row * Row => truthy_scalar (ConceptId (fst rec))) l).
  intros l'. revert ap. induction l' as [|x l' IH]; intros ap; cbn [fold_left map];
    [reflexivity|]. now rewrite IH.
Qed.

Lemma categories_firstSeen (recs : list (Row * Row)) (k : string)
      (rec0 : Row * Row) (sub : list (Row * Row)) :
  filter (fun rec => String.eqb (activityKey rec) k) recs = rec0 :: sub ->
  categoriesFirstSeen recs k
    (fold_left updPerformance (rec0 :: sub) (initPerformance rec0)).
Proof.
  intros Hf. unfold categoriesFirstSeen, conceptRows. rewrite Hf.
  rewrite fold_updPerformance.
  cbn [initPerformance newPerformance Activity.performanceByCategory].
  set (rs := map fst (filter _ (rec0 :: sub))). split.
  - apply (collectList_keys scalar_eqb scalar_eqb_eq); reflexivity.
  - apply Forall_forall. intros cat Hin.
    pose proof Hin as Hin'.
    apply (collectList_entry scalar_eqb scalar_eqb_eq) in Hin
      as (a0 & sub' & Hf' & E); [|reflexivity|reflexivity].
    rewrite E.
    change (fold_left (fun (v : Category.t) (a : Row) => addComponent a v)
                      (a0 :: sub') (newCategory a0))
      with (fold_left (fun c r => addComponent r c) (a0 :: sub') (newCategory a0)).
    apply components_firstSeen. cbv zeta.
    change (fold_left (fun c r => addComponent r c) (a0 :: sub') (newCategory a0))
      with (fold_left (fun (v : Category.t) (a : Row) => addComponent a v)
                      (a0 :: sub') (newCategory a0)).
    rewrite <- E. unfold ofCategory. now rewrite <- Hf'.
Qed.

(** Activity records of a user. *)
Lemma stepUser_collect (r r0 : Row) (ua : Acc.user) :
  stepUser (Some (newActivity r0)) r ua
  = Acc.with_performance ua
      (performanceStep (Acc._activityPerformanceMap ua) (r, r0)).
Proof.
  unfold stepUser, performanceStep, collect, activityKey, initPerformance,
    updPerformance. cbn [fst snd]. f_equal.
  destruct (truthy_scalar (ConceptId r)); [reflexivity|].
  match goal with |- ?m = match JsMap.get _ ?m ?k with _ => _ end =>
    destruct (JsMap.get String.eqb m k) eqn:G; [|reflexivity] end.
  symmetry. now apply set_same.
Qed.

Lemma records_cons (o : Row * option Row) (l : list (Row * option Row)) :
  records (o :: l)
  = (match snd o with Some r0 => [(fst o, r0)] | None => [] end ++ records l)%list.
Proof. reflexivity. Qed.

Lemma fold_updUser (l : list (Row * option Row)) : forall ua,
  Acc._activityPerformanceMap (fold_left updUser l ua)
  = fold_left performanceStep (records l) (Acc._activityPerformanceMap ua)
  /\ Acc.userId (fold_left updUser l ua) = Acc.userId ua
  /\ Acc.userName (fold_left updUser l ua) = Acc.userName ua
  /\ Acc.completion (fold_left updUser l ua) = Acc.completion ua
  /\ Acc.accuracy (fold_left updUser l ua) = Acc.accuracy ua
  /\ Acc.totalTimeSpentSeconds (fold_left updUser l ua)
     = Acc.totalTimeSpentSeconds ua.
Proof.
  induction l as [|o l IH]; intros ua; cbn [fold_left]; [cbn; auto 6|].
  destruct (IH (updUser ua o)) as (H0 & H1 & H2 & H3 & H4 & H5).
  rewrite H0, H1, H2, H3, H4, H5, records_cons, fold_left_app.
  unfold updUser.
  destruct (stepUser_fields (option_map newActivity (snd o)) (fst o) ua)
    as (E1 & E2 & E3 & E4 & E5).
  rewrite E1, E2, E3, E4, E5. split; [|auto].
  destruct (snd o) as [r0|]; cbn [option_map fold_left]; [|reflexivity].
  now rewrite stepUser_collect.
Qed.

Lemma activities_firstSeen (obs : list (Row * option Row)) (x : scalar)
      (o0 : Row * option Row) (sub : list (Row * option Row)) :
  ofUser x obs = o0 :: sub ->
  activitiesFirstSeen obs x
    (JsMap.values
       (Acc._activityPerformanceMap
          (fold_left updUser (o0 :: sub) (newUser (fst o0))))).
Proof.
  intros Hx. unfold activitiesFirstSeen. rewrite Hx.
  rewrite (proj1 (fold_updUser (o0 :: sub) _)).
  cbn [newUser Acc._activityPerformanceMap].
  set (recs := records (o0 :: sub)).
  rewrite <- (collect_keys_firstSeen String.eqb String.eqb_eq activityKey
                initPerformance updPerformance).
  apply Forall2_entries. intros k ap Hin.
  apply (collect_entry String.eqb String.eqb_eq) in Hin as (rec0 & sub' & Hf & ->).
  now apply categories_firstSeen.
Qed.

(** Users of a unit. *)
Lemma stepUser_heads (act act' : option Acc.activity) (r : Row) (ua : Acc.user) :
  option_map headOf act = option_map headOf act' ->
  stepUser act r ua = stepUser act' r ua.
Proof.
  destruct act as [a|], act' as [a'|]; cbn [option_map]; try discriminate;
    [|reflexivity].
  unfold headOf. intros [= H1 H2]. unfold stepUser, newPerformance.
  now rewrite H1, H2.
Qed.

Lemma option_map_map {A B C} (f : A -> B) (g : B -> C) (o : option A) :
  option_map g (option_map f o) = option_map (fun x => g (f x)) o.
Proof. now destruct o. Qed.

Lemma stepUnit_users_obs (r : Row) (u : Acc.unit) (reg : option Row) :
  option_map headOf
    (JsMap.get scalar_eqb (registered (Acc._activitiesMap u) r)
               (SequenceBuilderID r))
  = option_map (fun r0 => headOf (newActivity r0)) reg ->
  Acc._usersMap (stepUnit r u)
  = if truthy_scalar (UserId r) then userStep (Acc._usersMap u) (r, reg)
    else Acc._usersMap u.
Proof.
  intros H. unfold stepUnit. cbn [Acc.with_maps Acc._usersMap].
  fold (registered (Acc._activitiesMap u) r).
  destruct (truthy_scalar (UserId r)); [|reflexivity].
  unfold userStep, collect, updUser. cbn [fst snd].
  match goal with |- match JsMap.get _ ?m ?k with _ => _ end = _ =>
    destruct (JsMap.get scalar_eqb m k) as [ua|]; [|reflexivity] end.
  f_equal. apply stepUser_heads. now rewrite option_map_map.
Qed.

Lemma registered_agree (before : list Row) (acts : list (scalar * Acc.activity))
      (r : Row) :
  actsAgree before acts ->
  option_map headOf
    (JsMap.get scalar_eqb (registered acts r) (SequenceBuilderID r))
  = option_map (fun r0 => headOf (newActivity r0))
               (find (registers r) (before ++ [r])).
Proof.
  intros Hagree. specialize (Hagree r). rewrite find_app_.
  assert (Hrr : registers r r = truthy_scalar (ActivityTypeId r)).
  { unfold registers. now rewrite scalar_eqb_refl, andb_true_r. }
  unfold registered, JsMap.has. cbn [find]. rewrite Hrr.
  destruct (JsMap.get scalar_eqb acts (SequenceBuilderID r)) as [a|] eqn:G;
    cbn [negb option_map] in *.
  - rewrite andb_false_r, G.
    destruct (find (registers r) before); [exact Hagree|discriminate].
  - rewrite andb_true_r.
    destruct (find (registers r) before); [discriminate|].
    destruct (truthy_scalar (ActivityTypeId r)).
    + now rewrite (get_set_same scalar_eqb scalar_eqb_eq).
    + now rewrite G.
Qed.

Lemma registers_same (r r' : Row) (l : list Row) :
  SequenceBuilderID r' = SequenceBuilderID r ->
  find (registers r') l = find (registers r) l.
Proof. intros E. unfold registers. now rewrite E. Qed.

Lemma heads_registered_other (acts : list (scalar * Acc.activity)) (r : Row)
      (k : scalar) :
  scalar_eqb (SequenceBuilderID r) k = false ->
  JsMap.get scalar_eqb (registered acts r) k = JsMap.get scalar_eqb acts k.
Proof.
  intros E. unfold registered. destruct (_ && _); [|reflexivity].
  now apply (get_set_other scalar_eqb scalar_eqb_eq).
Qed.

Lemma stepUnit_acts (r : Row) (u : Acc.unit) (k : scalar) :
  option_map headOf (JsMap.get scalar_eqb (Acc._activitiesMap (stepUnit r u)) k)
  = option_map headOf
      (JsMap.get scalar_eqb (registered (Acc._activitiesMap u) r) k).
Proof.
  unfold stepUnit. cbn [Acc.with_maps Acc._activitiesMap].
  fold (registered (Acc._activitiesMap u) r).
  set (acts1 := registered (Acc._activitiesMap u) r).
  destruct (JsMap.get scalar_eqb acts1 (SequenceBuilderID r)) as [a|] eqn:G;
    [|reflexivity].
  destruct (_ && _); [|reflexivity].
  destruct (scalar_eqb (SequenceBuilderID r) k) eqn:E.
  - apply scalar_eqb_eq in E. subst k.
    now rewrite (get_set_same scalar_eqb scalar_eqb_eq), G.
  - now rewrite (get_set_other scalar_eqb scalar_eqb_eq).
Qed.

Lemma stepUnit_acts_agree (before : list Row) (u : Acc.unit) (r : Row) :
  actsAgree before (Acc._activitiesMap u) ->
  actsAgree (before ++ [r]) (Acc._activitiesMap (stepUnit r u)).
Proof.
  intros Hagree r'. rewrite stepUnit_acts.
  destruct (scalar_eqb (SequenceBuilderID r) (SequenceBuilderID r')) eqn:E.
  - apply scalar_eqb_eq in E. rewrite <- E.
    rewrite (registers_same r r' _ (eq_sym E)).
    now apply registered_agree.
  - rewrite heads_registered_other by assumption.
    assert (Hrr : registers r' r = false).
    { unfold registers. now rewrite E, andb_false_r. }
    rewrite find_app_. cbn [find]. rewrite Hrr.
    rewrite (Hagree r'). now destruct (find (registers r') before).
Qed.

Lemma fold_stepUnit (l : list Row) : forall before u,
  actsAgree before (Acc._activitiesMap u) ->
  Acc._usersMap (fold_left (fun u r => stepUnit r u) l u)
  = fold_left userStep (withUser (withActivity before l)) (Acc._usersMap u)
  /\ Acc.unitId (fold_left (fun u r => stepUnit r u) l u) = Acc.unitId u
  /\ Acc.unitNo (fold_left (fun u r => stepUnit r u) l u) = Acc.unitNo u.
Proof.
  induction l as [|r l IH]; intros before u Hagree;
    cbn [fold_left withActivity]; [cbn; auto|].
  destruct (IH (before ++ [r])%list (stepUnit r u)
              (stepUnit_acts_agree before u r Hagree)) as (H1 & H2 & H3).
  rewrite H1, H2, H3. split; [|split; reflexivity].
  rewrite (stepUnit_users_obs r u (find (registers r) (before ++ [r])))
    by now apply registered_agree.
  unfold withUser. cbn [filter fst].
  destruct (truthy_scalar (UserId r)); reflexivity.
Qed.

Lemma actsAgree_nil : actsAgree [] [].
Proof. intros r. reflexivity. Qed.

Lemma users_firstSeen (l : list Row) (r0 : Row) (avg : num) :
  usersFirstSeen (withActivity [] l)
    (map (buildUser avg)
         (JsMap.values
            (Acc._usersMap (fold_left (fun u r => stepUnit r u) l (newUnit r0))))).
Proof.
  rewrite (proj1 (fold_stepUnit l [] (newUnit r0) actsAgree_nil)).
  cbn [newUnit Acc._usersMap]. set (obs := withActivity [] l).
  unfold usersFirstSeen.
  rewrite <- (collect_keys_firstSeen scalar_eqb scalar_eqb_eq
                (fun o => UserId (fst o)) (fun o => newUser (fst o)) updUser).
  apply Forall2_map_r, Forall2_entries. intros x ua Hin.
  apply (collect_entry scalar_eqb scalar_eqb_eq) in Hin as (o0 & sub & Hf & ->).
  fold (fold_left userStep (withUser obs) []).
  change (filter (fun a => scalar_eqb (UserId (fst a)) x) (withUser obs))
    with (ofUser x obs) in Hf.
  assert (Hx : UserId (fst o0) = x).
  { assert (Hin : In o0 (ofUser x obs)) by (rewrite Hf; now left).
    apply filter_In in Hin as [_ Hin]. now apply scalar_eqb_eq. }
  destruct (fold_updUser (o0 :: sub) (newUser (fst o0)))
    as (_ & E1 & E2 & E3 & E4 & E5).
  cbn [buildUser User.userId User.userName User.accuracy User.completion
       User.totalTimeSpent User.activities].
  rewrite E1, E2, E3, E4, E5. cbn [newUser Acc.userId Acc.userName Acc.completion
                                   Acc.accuracy Acc.totalTimeSpentSeconds].
  split; [now rewrite Hx|]. split.
  - exists o0, sub. auto 6.
  - now apply activities_firstSeen.
Qed.

(** Units of a chapter. *)
Lemma stepChapter_units (r : Row) (c : Acc.chapter) :
  forallb truthy_scalar (JsMap.keys (Acc._unitsMap c)) = true ->
  Acc._unitsMap (stepChapter r c)
  = (if truthy_scalar (UnitId r) then unitStep (Acc._unitsMap c) r
     else Acc._unitsMap c)
  /\ Acc.chapterId (stepChapter r c) = Acc.chapterId c.
Proof.
  intros Ht. unfold stepChapter.
  destruct (truthy_scalar (UnitId r)) eqn:E; cbn [andb].
  - unfold unitStep, collect.
    match goal with |- context [JsMap.get scalar_eqb ?m ?k] =>
      destruct (JsMap.get scalar_eqb m k) end; cbn; auto.
  - assert (G : JsMap.get scalar_eqb (Acc._unitsMap c) (UnitId r) = None).
    { apply (get_None_keys scalar_eqb scalar_eqb_eq). now apply falsy_not_key. }
    rewrite G. cbn. auto.
Qed.

Lemma fold_stepChapter (l : list Row) : forall c,
  forallb truthy_scalar (JsMap.keys (Acc._unitsMap c)) = true ->
  Acc._unitsMap (fold_left (fun c r => stepChapter r c) l c)
  = fold_left unitStep (filter (fun r => truthy_scalar (UnitId r)) l)
              (Acc._unitsMap c)
  /\ Acc.chapterId (fold_left (fun c r => stepChapter r c) l c) = Acc.chapterId c.
Proof.
  induction l as [|r l IH]; intros c Ht; cbn [fold_left filter]; [auto|].
  assert (Ht' : forallb truthy_scalar (JsMap.keys (Acc._unitsMap (stepChapter r c)))
                = true).
  { rewrite stepChapter_units_keys. now apply forallb_keys_ensure. }
  destruct (IH _ Ht') as [H1 H2]. destruct (stepChapter_units r c Ht) as [E1 E2].
  rewrite H1, H2, E1, E2. split; [|reflexivity].
  destruct (truthy_scalar (UnitId r)); reflexivity.
Qed.

Lemma group_collect (rows : list Row) : group rows = fold_left chapterStep rows [].
Proof. reflexivity. Qed.

(** Where the entries of the grouping maps come from. *)
Lemma chapter_entry (rows : list Row) (c : scalar) (cacc : Acc.chapter) :
  In (c, cacc) (group rows) ->
  exists r0 sub,
    rowsOfChapter c rows = r0 :: sub
    /\ cacc = fold_left (fun c r => stepChapter r c) (r0 :: sub) (newChapter r0).
Proof.
  rewrite group_collect. intros H.
  now apply (collect_entry scalar_eqb scalar_eqb_eq) in H.
Qed.

Lemma chapter_units (rows : list Row) (c : scalar) (cacc : Acc.chapter) :
  In (c, cacc) (group rows) ->
  Acc.chapterId cacc = String_ c
  /\ Acc._unitsMap cacc
     = fold_left unitStep
         (filter (fun r => truthy_scalar (UnitId r)) (rowsOfChapter c rows)) [].
Proof.
  intros H. apply chapter_entry in H as (r0 & sub & Hf & ->).
  destruct (fold_stepChapter (r0 :: sub) (newChapter r0) eq_refl) as [H1 H2].
  rewrite H1, H2, Hf. split; [|reflexivity].
  cbn [newChapter Acc.chapterId]. f_equal.
  assert (Hin : In r0 (rowsOfChapter c rows)) by (rewrite Hf; now left).
  apply filter_In in Hin as [_ Hin]. now apply scalar_eqb_eq.
Qed.

Lemma unit_entry (rows : list Row) (c u : scalar) (cacc : Acc.chapter)
      (uacc : Acc.unit) :
  In (c, cacc) (group rows) -> In (u, uacc) (Acc._unitsMap cacc) ->
  exists r0 sub,
    rowsOfUnit c u rows = r0 :: sub
    /\ uacc = fold_left (fun u r => stepUnit r u) (r0 :: sub) (newUnit r0).
Proof.
  intros Hc Hu. rewrite (proj2 (chapter_units rows c cacc Hc)) in Hu.
  now apply (collect_entry scalar_eqb scalar_eqb_eq) in Hu.
Qed.

Lemma unit_id (rows : list Row) (c u : scalar) (cacc : Acc.chapter)
      (uacc : Acc.unit) :
  In (c, cacc) (group rows) -> In (u, uacc) (Acc._unitsMap cacc) ->
  Acc.unitId uacc = String_ u.
Proof.
  intros Hc Hu. destruct (unit_entry rows c u cacc uacc Hc Hu) as (r0 & sub & Hf & ->).
  destruct (fold_stepUnit (r0 :: sub) [] (newUnit r0) actsAgree_nil) as (_ & H & _).
  rewrite H. cbn [newUnit Acc.unitId]. f_equal.
  assert (Hin : In r0 (rowsOfUnit c u rows)) by (rewrite Hf; now left).
  apply filter_In in Hin as [_ Hin]. now apply scalar_eqb_eq.
Qed.

Lemma map_keys_values {K V B} (f : K -> B) (g : V -> B) (m : list (K * V)) :
  (forall k v, In (k, v) m -> g v = f k) ->
  map g (JsMap.values m) = map f (JsMap.keys m).
Proof.
  induction m as [|[k v] m IH]; intros H;
    cbn [JsMap.values JsMap.keys map fst snd]; [reflexivity|].
  f_equal; [apply H; now left|]. apply IH. intros k' v' Hin. apply H. now right.
Qed.

Lemma In_values {K V} (m : list (K * V)) (v : V) :
  In v (JsMap.values m) -> exists k, In (k, v) m.
Proof.
  unfold JsMap.values. intros H. apply in_map_iff in H as ([k v'] & E & H).
  cbn [snd] in E. subst v'. eauto.
Qed.

(** The chapters of the course and their units, from the rows. *)
Lemma chapters_firstSeen (rows : list Row) :
  Permutation (map Chapter.chapterId (Course.chapters (rootOf rows)))
              (map String_ (firstSeen scalar_eqb (map ChapterId rows))).
Proof.
  unfold rootOf, buildCourse. cbn [Course.chapters]. rewrite map_map.
  cbn [buildChapter Chapter.chapterId].
  rewrite (Permutation_map Acc.chapterId (sort_perm byChapterNo _)).
  rewrite (map_keys_values String_ Acc.chapterId).
  - rewrite group_collect. unfold chapterStep, ChaptersMap.
    pose proof (collect_keys_firstSeen scalar_eqb scalar_eqb_eq ChapterId
                  newChapter (fun c r => stepChapter r c) rows) as E.
    now rewrite E.
  - intros c cacc H. exact (proj1 (chapter_units rows c cacc H)).
Qed.

Lemma chapter_firstSeen (rows : list Row) (ch : Chapter.t) :
  In ch (Course.chapters (rootOf rows)) -> chapterFirstSeen rows ch.
Proof.
  intros Hch. apply built_chapter in Hch as (cacc & Hc & ->).
  apply In_values in Hc as (c & Hc).
  destruct (chapter_units rows c cacc Hc) as [Hid Hunits].
  exists c. split.
  { apply chapter_entry in Hc as (r0 & sub & Hf & _).
    assert (Hin : In r0 (rowsOfChapter c rows)) by (rewrite Hf; now left).
    apply filter_In in Hin as [Hin E]. apply scalar_eqb_eq in E. subst c.
    now apply in_map. }
  split; [exact Hid|]. split.
  - cbn [buildChapter Chapter.units]. rewrite map_map.
    cbn [buildUnit Unit.unitId].
    rewrite (Permutation_map Acc.unitId (sort_perm byUnitNo _)).
    rewrite (map_keys_values String_ Acc.unitId).
    + rewrite Hunits. unfold unitStep.
      pose proof (collect_keys_firstSeen scalar_eqb scalar_eqb_eq UnitId
                    newUnit (fun u r => stepUnit r u)
                    (filter (fun r => truthy_scalar (UnitId r))
                            (rowsOfChapter c rows))) as E.
      now rewrite E.
    + intros u uacc H. now apply (unit_id rows c u cacc).
  - intros u Hu. cbn [buildChapter Chapter.units] in Hu.
    apply in_map_iff in Hu as (uacc & <- & Hu). apply In_sort in Hu.
    apply In_values in Hu as (uk & Hu). exists uk.
    split; [now apply (unit_id rows c uk cacc)|].
    destruct (unit_entry rows c uk cacc uacc Hc Hu) as (r0 & sub & Hf & ->).
    rewrite Hf. cbn [buildUnit Unit.users]. apply users_firstSeen.
Qed.


(** A user of a unit carries the figures of the first row of that user in
    the unit. *)
Lemma user_entry (rows : list Row) (c uk x : scalar) (cacc : Acc.chapter)
      (uacc : Acc.unit) (ua : Acc.user) :
  In (c, cacc) (group rows) -> In (uk, uacc) (Acc._unitsMap cacc) ->
  In (x, ua) (Acc._usersMap uacc) ->
  exists o0 rest,
    ofUser x (withActivity [] (rowsOfUnit c uk rows)) = o0 :: rest
    /\ UserId (fst o0) = x
    /\ userFromRow (fst o0) ua.
Proof.
  intros Hc Hu Hx.
  destruct (unit_entry rows c uk cacc uacc Hc Hu) as (r0 & sub & Hf & ->).
  rewrite (proj1 (fold_stepUnit (r0 :: sub) [] (newUnit r0) actsAgree_nil)) in Hx.
  cbn [newUnit Acc._usersMap] in Hx. rewrite <- Hf in Hx.
  apply (collect_entry scalar_eqb scalar_eqb_eq) in Hx as (o0 & rest & Hx & ->).
  exists o0, rest. split; [exact Hx|].
  assert (Hin : In o0 (ofUser x (withActivity [] (rowsOfUnit c uk rows))))
    by (unfold ofUser; rewrite Hx; now left).
  apply filter_In in Hin as [_ Hin]. apply scalar_eqb_eq in Hin.
  split; [exact Hin|].
  destruct (fold_updUser (o0 :: rest) (newUser (fst o0)))
    as (_ & E1 & E2 & E3 & E4 & E5).
  unfold userFromRow. rewrite E1, E2, E3, E4, E5. cbn. auto.
Qed.

(** C8: when every row carries a numeric chapter number the chapters of
    the hierarchy are in non-decreasing order of their number, and when
    every row that names a unit carries a numeric unit number so are the
    units of each chapter.  The chapters are those the rows name, one for
    each id, and so are the units of a chapter.  Every other sequence is
    in first-seen order: the users of a unit are the user ids of the rows
    of the unit, each at its first row and with the figures of that row;
    the activities of a user are the activities of the rows of the user,
    each at its first row; and so are the categories of an activity, the
    components of a category and the elements of a component. *)
Theorem sequences_ordered :
  (forall rows : list Row,
     (forall r, In r rows -> numbered (ChapterNo r) = true) ->
     StronglySorted leChapterNo (Course.chapters (rootOf rows)))
  /\ (forall rows : list Row,
        (forall r, In r rows -> truthy_scalar (UnitId r) = true ->
                   numbered (UnitNo r) = true) ->
        forall ch, In ch (Course.chapters (rootOf rows)) ->
                   StronglySorted leUnitNo (Chapter.units ch))
  /\ (forall rows : list Row,
        Permutation (map Chapter.chapterId (Course.chapters (rootOf rows)))
                    (map String_ (firstSeen scalar_eqb (map ChapterId rows)))
        /\ Forall (chapterFirstSeen rows) (Course.chapters (rootOf rows))).
Proof.
  split; [exact chapters_sorted|]. split.
  - intros rows H ch Hch. apply built_chapter in Hch as (cacc & Hc & ->).
    now apply (units_sorted rows).
  - intros rows. split; [apply chapters_firstSeen|].
    apply Forall_forall. intros ch Hch. now apply chapter_firstSeen.
Qed.

Lemma sequences_ordered_witness :
  StronglySorted leChapterNo (Course.chapters (rootOf threeUnits))
  /\ StronglySorted leUnitNo
       (Chapter.units (hd (buildChapter NaN (newChapter blankRow))
                          (Course.chapters (rootOf threeUnits))))
  /\ Forall (chapterFirstSeen twoLearners) (Course.chapters (rootOf twoLearners)).
Proof.
  split.
  - apply (proj1 sequences_ordered threeUnits).
    intros r Hr. cbn in Hr. destruct Hr as [<-|[<-|[<-|[]]]]; reflexivity.
  - split.
    + apply (proj1 (proj2 sequences_ordered) threeUnits).
      * intros r Hr _. cbn in Hr. destruct Hr as [<-|[<-|[<-|[]]]]; reflexivity.
      * vm_compute. left. reflexivity.
    + apply (proj2 (proj2 sequences_ordered) twoLearners).
Defined.

(** The rows of [twoLearners], read on the hierarchy: the user read first
    comes first, and so does the activity read first. *)
Lemma twoLearners_order :
  map (fun usr => (User.userId usr, User.accuracy usr, User.totalTimeSpent usr,
                   map Activity.totalAttempts (User.activities usr)))
      (allUsers (rootOf twoLearners))
  = [("u2", Fin 70, "00:10:00", [Fin 3; Fin 4]); ("u1", Fin 80, "00:20:00", [Fin 2])].
Proof. vm_compute. reflexivity. Qed.

(** A row without a chapter number: its chapter compares as [NaN] with
    every other, and the sort leaves the chapters as they were read.  With
    two chapters the numbered one stays before the one without a number;
    with three, chapter 2 stays before chapter 1. *)
Lemma unnumbered_chapters_unsorted :
  map Chapter.chapterNo (Course.chapters (rootOf unnumbered))
  = [JNum (Fin 2); Undefined; JNum (Fin 1)]
  /\ map Chapter.chapterNo (Course.chapters (rootOf (firstn 2 unnumbered)))
     = [JNum (Fin 2); Undefined]
  /\ leb (ToNumber (JNum (Fin 2))) (ToNumber Undefined) = false
  /\ leb (ToNumber (JNum (Fin 2))) (ToNumber (JNum (Fin 1))) = false
  /\ ~ Sorted leChapterNo (Course.chapters (rootOf (firstn 2 unnumbered)))
  /\ ~ StronglySorted leChapterNo (Course.chapters (rootOf unnumbered)).
Proof.
  split; [vm_compute; reflexivity|]. split; [vm_compute; reflexivity|].
  split; [reflexivity|]. split; [reflexivity|]. split.
  - intros H.
    match type of H with Sorted _ ?l =>
      let l' := eval vm_compute in l in
      replace l with l' in H by (vm_compute; reflexivity) end.
    inversion H as [|a l _ Hhd]; subst.
    inversion Hhd as [|b l' Hab]; subst. discriminate Hab.
  - intros H.
    match type of H with StronglySorted _ ?l =>
      let l' := eval vm_compute in l in
      replace l with l' in H by (vm_compute; reflexivity) end.
    inversion H as [|a l _ Hall]; subst.
    inversion Hall as [|b l' _ Hall']; subst.
    inversion Hall' as [|d l'' Hd _]; subst. discriminate Hd.
Qed.

(* ------------------------------------------------------------------ *)
(** ** Struggling users *)

(** A user of the hierarchy, the accumulator it is built from and the
    first row of that user in the unit. *)
Lemma built_user_first_row (rows : list Row) ch u usr :
  In ch (Course.chapters (rootOf rows)) -> In u (Chapter.units ch) ->
  In usr (Unit.users u) ->
  exists c uk x o0 rest uacc ua,
    Chapter.chapterId ch = String_ c
    /\ Unit.unitId u = String_ uk
    /\ User.userId usr = String_ x
    /\ ofUser x (withActivity [] (rowsOfUnit c uk rows)) = o0 :: rest
    /\ In (x, ua) (Acc._usersMap uacc)
    /\ u = buildUnit (courseAverageTimePerUnit rows) uacc
    /\ usr = buildUser (avgUnitTimePerUser uacc) ua
    /\ userFromRow (fst o0) ua.
Proof.
  intros Hch Hu Husr. apply built_chapter in Hch as (cacc & Hc & ->).
  apply In_values in Hc as (c & Hc).
  cbn [buildChapter Chapter.units] in Hu.
  apply in_map_iff in Hu as (uacc & <- & Hu). apply In_sort in Hu.
  apply In_values in Hu as (uk & Hu).
  cbn [buildUnit Unit.users] in Husr.
  apply in_map_iff in Husr as (ua & <- & Hua).
  apply In_values in Hua as (x & Hua).
  destruct (user_entry rows c uk x cacc uacc ua Hc Hu Hua)
    as (o0 & rest & Hx & Hid & Hfrom).
  exists c, uk, x, o0, rest, uacc, ua.
  split; [exact (proj1 (chapter_units rows c cacc Hc))|].
  split; [exact (unit_id rows c uk cacc uacc Hc Hu)|].
  split.
  { cbn [buildUser User.userId]. destruct Hfrom as (E & _). now rewrite E, Hid. }
  auto 8.
Qed.

(** C3: in every built hierarchy a user of a unit carries the accuracy
    and the time of the first row of that user in that unit, and is
    struggling exactly when that accuracy is below 50 and that time
    exceeds the mean of the times of the users of the same unit.  Two rows
    of the same chapter, unit and user give a unit with that single user,
    whose time is the unit's mean: the user is not struggling, whatever
    the rows say. *)
Theorem isStruggling_of_same_user_rows :
  (forall rows root,
     getLearningSystemHierarchy (Some rows) = Built root ->
     forall ch u usr,
       In ch (Course.chapters root) -> In u (Chapter.units ch) ->
       In usr (Unit.users u) ->
       exists c uk x o0 rest uacc ua,
         Chapter.chapterId ch = String_ c
         /\ Unit.unitId u = String_ uk
         /\ User.userId usr = String_ x
         /\ ofUser x (withActivity [] (rowsOfUnit c uk rows)) = o0 :: rest
         /\ In (x, ua) (Acc._usersMap uacc)
         /\ u = buildUnit (courseAverageTimePerUnit rows) uacc
         /\ usr = buildUser (avgUnitTimePerUser uacc) ua
         /\ Acc.totalTimeSpentSeconds ua
            = parseTimeObjectToSeconds (UnitTimeSpent (fst o0))
         /\ User.accuracy usr = or0 (parseFloat (UnitAccuracyPercentage (fst o0)))
         /\ User.isStruggling usr
            = ltb (User.accuracy usr) (Fin 50)
              && gtb (Acc.totalTimeSpentSeconds ua)
                     (calculateAverage
                        (map Acc.totalTimeSpentSeconds
                             (JsMap.values (Acc._usersMap uacc)))))
  /\ (forall r1 r2 : Row,
        ChapterId r2 = ChapterId r1 -> UnitId r2 = UnitId r1 ->
        UserId r2 = UserId r1 ->
        truthy_scalar (UnitId r1) = true -> truthy_scalar (UserId r1) = true ->
        forall ch u usr,
          In ch (Course.chapters (rootOf [r1; r2])) -> In u (Chapter.units ch) ->
          In usr (Unit.users u) ->
          User.isStruggling usr = false
          /\ User.accuracy usr = or0 (parseFloat (UnitAccuracyPercentage r1))).
Proof.
  split.
  - intros rows root Hb ch u usr Hch Hu Husr.
    destruct rows as [|r rows]; [discriminate|]. injection Hb as <-.
    destruct (built_user_first_row _ _ _ _ Hch Hu Husr)
      as (c & uk & x & o0 & rest & uacc & ua & H1 & H2 & H3 & H4 & H5 & H6 & H7 & H8).
    exists c, uk, x, o0, rest, uacc, ua.
    destruct H8 as (_ & _ & _ & Eacc & Etime).
    repeat (split; [assumption|]). split.
    { rewrite H7. cbn [buildUser User.accuracy]. exact Eacc. }
    rewrite H7. cbn [buildUser User.isStruggling User.accuracy].
    now rewrite avgUnitTimePerUser_mean.
  - intros r1 r2 Hc Hu Hid Tu Tusr ch u usr Hch Hin Husr.
    destruct (group_same_user r1 r2 Hc Hu Hid Tu Tusr)
      as (cacc & uacc & ua & Hg & Hunits & Husers & Hfrom).
    destruct (built_user _ _ _ _ Hch Hin Husr) as (uacc' & ua' & H1 & H2 & _ & ->).
    unfold unitAccs in H1. rewrite Hg in H1.
    cbn [JsMap.values map snd flat_map] in H1. rewrite Hunits in H1.
    cbn [map snd app In] in H1. destruct H1 as [E|[]]. subst uacc'.
    change (snd (UnitId r1, uacc)) with uacc in *.
    rewrite Husers in H2. cbn [JsMap.values map snd In] in H2.
    destruct H2 as [E|[]]. subst ua'.
    split; [now apply (single_user_not_struggling uacc (UserId r1))|].
    cbn [buildUser User.accuracy]. apply Hfrom.
Qed.

Lemma isStruggling_of_same_user_rows_witness :
  User.isStruggling
    (hd (buildUser NaN (newUser blankRow)) (allUsers (rootOf scenarioB))) = false
  /\ User.accuracy
       (hd (buildUser NaN (newUser blankRow)) (allUsers (rootOf scenarioB)))
     = Fin 30.
Proof.
  apply (proj2 isStruggling_of_same_user_rows
           (unitRow 1 1 "u1" (JNum (Fin 30)) (JNum (Fin 100)) "02:00:00")
           (unitRow 1 1 "u1" (JNum (Fin 30)) (JNum (Fin 100)) "00:30:00")
           eq_refl eq_refl eq_refl eq_refl eq_refl
           (hd (buildChapter NaN (newChapter blankRow))
               (Course.chapters (rootOf scenarioB)))
           (hd (buildUnit NaN (newUnit blankRow)) (allUnits (rootOf scenarioB)))).
  - vm_compute. left. reflexivity.
  - vm_compute. left. reflexivity.
  - vm_compute. left. reflexivity.
Defined.

(** Scenario B on the code: accuracy 30 and two hours spent, and the user
    is not struggling. *)
Lemma scenarioB_is_not_struggling :
  map (fun usr => (User.accuracy usr, User.totalTimeSpent usr,
                   User.isStruggling usr))
      (allUsers (rootOf scenarioB))
  = [(Fin 30, "02:00:00", false)]
  /\ ~ (forall usr, In usr (allUsers (rootOf scenarioB)) ->
                    User.isStruggling usr = true).
Proof.
  split; [vm_compute; reflexivity|].
  intros H.
  specialize (H (hd (buildUser NaN (newUser blankRow))
                    (allUsers (rootOf scenarioB)))).
  vm_compute in H. specialize (H (or_introl eq_refl)). discriminate H.
Qed.

(* ------------------------------------------------------------------ *)
(** ** The learning pattern of a student *)









(* ------------------------------------------------------------------ *)
(** ** The time shown and the time counted *)

(** X11: The total time of the course is counted from the times shown for the
    users, re-parsed.  The time shown for a user is the formatted time of
    the first row of that user in the unit; when that time is a whole
    number of seconds from 0 to below [2^53], the time shown parses back
    to it. *)
Theorem shown_time_parses_back (rows : list Row) (root : Course.t) :
  getLearningSystemHierarchy (Some rows) = Built root ->
  Course.totalTimeSpent root
  = formatSecondsToDuration
      (fold_left add
         (map (fun usr => parseDurationToSeconds (JStr (User.totalTimeSpent usr)))
              (allUsers root))
         (Fin 0))
  /\ (forall ch u usr,
        In ch (Course.chapters root) -> In u (Chapter.units ch) ->
        In usr (Unit.users u) ->
        exists c uk x o0 rest,
          Chapter.chapterId ch = String_ c
          /\ Unit.unitId u = String_ uk
          /\ User.userId usr = String_ x
          /\ ofUser x (withActivity [] (rowsOfUnit c uk rows)) = o0 :: rest
          /\ User.totalTimeSpent usr
             = formatSecondsToDuration
                 (parseTimeObjectToSeconds (UnitTimeSpent (fst o0)))
          /\ (forall z, 0 <= z < 2 ^ 53 ->
                parseTimeObjectToSeconds (UnitTimeSpent (fst o0)) = ofZ z ->
                parseDurationToSeconds (JStr (User.totalTimeSpent usr)) = ofZ z)).
Proof.
  intros Hb. destruct rows as [|r0 rows]; [discriminate|].
  injection Hb as <-. split.
  - unfold allUsers, allUnits, rootOf, buildCourse.
    cbn [Course.totalTimeSpent Course.chapters].
    now rewrite <- flat_map_map, <- flat_map_flat_map.
  - intros ch u usr Hch Hu Husr.
    destruct (built_user_first_row _ _ _ _ Hch Hu Husr)
      as (c & uk & x & o0 & rest & uacc & ua & H1 & H2 & H3 & H4 & _ & _ & H7 & H8).
    exists c, uk, x, o0, rest.
    destruct H8 as (_ & _ & _ & _ & Etime).
    assert (Eshown : User.totalTimeSpent usr
                     = formatSecondsToDuration
                         (parseTimeObjectToSeconds (UnitTimeSpent (fst o0)))).
    { rewrite H7. cbn [buildUser User.totalTimeSpent]. now rewrite Etime. }
    repeat (split; [assumption|]).
    intros z Hz E. rewrite Eshown, E. apply parse_format_ofZ. lia.
Qed.

Lemma shown_time_parses_back_witness :
  Course.totalTimeSpent (rootOf threeUnits) = "00:30:00".
Proof.
  rewrite (proj1 (shown_time_parses_back threeUnits (rootOf threeUnits) eq_refl)).
  vm_compute. reflexivity.
Defined.

(* ------------------------------------------------------------------ *)
(** ** The struggling concepts of a student *)

Lemma In_set_cases {V} (m : list (scalar * V)) k v (e : scalar * V) :
  In e (JsMap.set scalar_eqb m k v) -> e = (k, v) \/ In e m.
Proof.
  induction m as [|[k0 v0] m IH]; cbn [JsMap.set In].
  - intros [<-|[]]. now left.
  - destruct (scalar_eqb k0 k) eqn:E; cbn [In].
    + apply scalar_eqb_eq in E. subst k0. intros [<-|H]; auto.
    + intros [<-|H]; auto. destruct (IH H); auto.
Qed.

Lemma keys_set_NoDup {V} (m : list (scalar * V)) k v :
  NoDup (JsMap.keys m) -> NoDup (JsMap.keys (JsMap.set scalar_eqb m k v)).
Proof.
  intros Hnd. destruct (JsMap.get scalar_eqb m k) eqn:E.
  - now rewrite (keys_set_present scalar_eqb _ _ _ _ E).
  - rewrite (set_absent scalar_eqb _ _ _ E). unfold JsMap.keys. rewrite map_app.
    apply (get_None_keys scalar_eqb scalar_eqb_eq) in E.
    apply NoDup_app; [assumption | constructor; [intros []|constructor] |].
    intros x Hx [<-|[]]. contradiction.
Qed.

Lemma noteStruggles_inv (Q : scalar * num -> Prop) (act : Activity.t) :
  (forall el, In el (elementsOf act) ->
              ltb (Element.accuracy el) (Fin 60) = true ->
              Q (Element.elementName el, Element.accuracy el)) ->
  forall m, NoDup (JsMap.keys m) -> Forall Q m ->
    NoDup (JsMap.keys (noteStruggles m act)) /\ Forall Q (noteStruggles m act).
Proof.
  unfold noteStruggles. induction (elementsOf act) as [|el els IH];
    intros HQ m Hnd Hm; cbn [fold_left]; [auto|].
  apply IH; [intros x Hx; apply HQ; now right | |].
  - destruct (ltb (Element.accuracy el) (Fin 60)); [|assumption].
    now apply keys_set_NoDup.
  - destruct (ltb (Element.accuracy el) (Fin 60)) eqn:E; [|assumption].
    apply Forall_forall. intros e He. apply In_set_cases in He as [->|He].
    + apply HQ; [now left | assumption].
    + rewrite Forall_forall in Hm. auto.
Qed.

(** X10: The struggling concepts shown for a student hold each concept name
    once, and every accuracy shown is below 60 and is the accuracy of an
    element of one of the student's activity records with that name. *)
Theorem struggling_concepts (fullData : Course.t) (id : string) (d : Diagnostic.t) :
  renderStudentDiagnosticPanel fullData (Some id) = Some d ->
  NoDup (JsMap.keys (Diagnostic.strugglingConcepts d))
  /\ (forall name accuracy,
        In (name, accuracy) (Diagnostic.strugglingConcepts d) ->
        ltb accuracy (Fin 60) = true
        /\ exists act el,
             In act (studentActivities fullData id)
             /\ In el (elementsOf act)
             /\ Element.elementName el = name
             /\ Element.accuracy el = accuracy).
Proof.
  unfold renderStudentDiagnosticPanel.
  destruct (String.length id =? 0)%nat; [discriminate|]. intros [= <-].
  cbn [Diagnostic.strugglingConcepts].
  set (Q := fun e : scalar * num =>
              ltb (snd e) (Fin 60) = true
              /\ exists act el,
                   In act (studentActivities fullData id)
                   /\ In el (elementsOf act)
                   /\ Element.elementName el = fst e
                   /\ Element.accuracy el = snd e).
  assert (H : forall acts m,
             incl acts (studentActivities fullData id) ->
             NoDup (JsMap.keys m) -> Forall Q m ->
             NoDup (JsMap.keys (fold_left noteStruggles acts m))
             /\ Forall Q (fold_left noteStruggles acts m)).
  { induction acts as [|act acts IH]; intros m Hincl Hnd Hm; cbn [fold_left];
      [auto|].
    destruct (noteStruggles_inv Q act) with (m := m) as [H1 H2]; try assumption.
    - intros el Hel Hlt. split; [assumption|]. exists act, el.
      repeat split; try assumption. apply Hincl. now left.
    - apply IH; try assumption. intros x Hx. apply Hincl. now right. }
  destruct (H (studentActivities fullData id) [] (incl_refl _)
              (NoDup_nil _) (Forall_nil _)) as [H1 H2].
  split; [assumption|]. intros name accuracy Hin.
  rewrite Forall_forall in H2. exact (H2 _ Hin).
Qed.

Lemma struggling_concepts_witness :
  exists d,
    renderStudentDiagnosticPanel (rootOf elevenLearners) (Some "11") = Some d
    /\ Diagnostic.strugglingConcepts d = [(SStr "Concept", Fin 40)]
    /\ NoDup (JsMap.keys (Diagnostic.strugglingConcepts d)).
Proof.
  eexists. split; [reflexivity|]. split; [vm_compute; reflexivity|].
  apply (struggling_concepts (rootOf elevenLearners) "11" _ eq_refl).
Defined.

(* ------------------------------------------------------------------ *)
(** ** [truncateToDecimals] rounds to the nearest decimal *)

Lemma substring_split (k : nat) : forall s,
  (k <= String.length s)%nat ->
  substring 0 k s ++ substring k (String.length s - k) s = s
  /\ String.length (substring 0 k s) = k.
Proof.
  induction k as [|k IH]; intros s Hk.
  - rewrite Nat.sub_0_r. destruct s as [|c s]; cbn [substring String.length];
      [auto|]. split; [|reflexivity]. cbn [String.append]. f_equal.
    clear. induction s as [|c' s IH]; cbn [substring String.length]; [reflexivity|].
    now rewrite IH.
  - destruct s as [|c s]; cbn [String.length] in Hk; [lia|].
    cbn [substring String.length String.append Nat.sub].
    destruct (IH s ltac:(lia)) as [H1 H2]. now rewrite H1, H2.
Qed.

Lemma dvalue_shift (s : string) : forall acc,
  dvalue s acc = acc * 10 ^ Z.of_nat (String.length s) + dvalue s 0.
Proof.
  induction s as [|c s IH]; intros acc; cbn [dvalue String.length].
  - change (10 ^ Z.of_nat 0) with 1. lia.
  - rewrite IH, (IH (10 * 0 + _)), Nat2Z.inj_succ, Z.pow_succ_r by lia. lia.
Qed.

Lemma read_digits_dot (hi lo : string) : forall acc cnt,
  is_digits hi = true ->
  read_digits 10 (hi ++ String "." lo) acc cnt
  = (dvalue hi acc, (cnt + String.length hi)%nat, String "." lo).
Proof.
  induction hi as [|c r IH]; intros acc cnt H;
    cbn [read_digits dvalue String.length String.append].
  - now rewrite Nat.add_0_r.
  - cbn [is_digits] in H. apply andb_prop in H as [Hc Hr].
    rewrite (digit_val_digit _ Hc), IH by assumption. f_equal. f_equal. lia.
Qed.

(** Reading back what [toFixed] prints: integer digits, and fraction
    digits after a point when there are any. *)
Lemma parse_fixed (negative : bool) (hi lo : string) :
  is_digits hi = true -> hi <> EmptyString -> is_digits lo = true ->
  parseFloat_string
    ((if negative then "-" else "") ++ hi
     ++ (if (String.length lo =? 0)%nat then "" else String "." lo))
  = fin (let v := (inject_Z (dvalue hi 0)
                   + inject_Z (dvalue lo 0)
                     / inject_Z (10 ^ Z.of_nat (String.length lo)))%Q in
         if negative then (- v)%Q else v).
Proof.
  intros Hhi Hne Hlo. destruct hi as [|c hi']; [congruence|].
  pose proof Hhi as Hall. cbn [is_digits] in Hhi.
  apply andb_prop in Hhi as [Hc Hhi'].
  set (rest := if (String.length lo =? 0)%nat then "" else String "." lo).
  assert (Hread : read_digits 10 (String c hi' ++ rest) 0 0
                  = (dvalue (String c hi') 0, String.length (String c hi'), rest)).
  { subst rest. destruct (String.length lo =? 0)%nat.
    - assert (E : String c hi' ++ "" = String c hi')
        by (clear; induction (String c hi') as [|x s IH]; cbn; congruence).
      rewrite E. now rewrite read_digits_digits.
    - now rewrite read_digits_dot. }
  assert (Hfrac : (let '(fp, nf, r2) :=
                     match rest with
                     | String "." r => read_digits 10 r 0 0
                     | _ => (0, 0%nat, rest)
                     end in (fp, nf, r2))
                  = (dvalue lo 0, String.length lo, "")).
  { subst rest. destruct lo as [|x lo']; [reflexivity|].
    cbn [String.length Nat.eqb]. now rewrite read_digits_digits. }
  assert (Hlit : strDecimalLiteral (String c hi' ++ rest)
                 = Some (fin (inject_Z (dvalue (String c hi') 0)
                              + inject_Z (dvalue lo 0)
                                / inject_Z (10 ^ Z.of_nat (String.length lo)))%Q,
                         "")
          /\ strDecimalLiteral (String "-" (String c hi' ++ rest))
             = Some (fin (- (inject_Z (dvalue (String c hi') 0)
                             + inject_Z (dvalue lo 0)
                               / inject_Z (10 ^ Z.of_nat (String.length lo))))%Q,
                     "")).
  { assert (Hsign : match String c hi' ++ rest with
                    | String "+" r0 => (false, r0)
                    | String "-" r0 => (true, r0)
                    | _ => (false, String c hi' ++ rest)
                    end = (false, String c hi' ++ rest))
      by (cbn [String.append]; digit_cases c Hc; reflexivity).
    assert (Hinf : strip_prefix "Infinity" (String c hi' ++ rest) = None)
      by (cbn [String.append]; digit_cases c Hc; reflexivity).
    split; unfold strDecimalLiteral; [rewrite Hsign|]; cbv iota beta;
      rewrite Hinf, Hread;
      (destruct (match rest with
                 | String "." r => read_digits 10 r 0 0
                 | _ => (0, 0%nat, rest)
                 end) as [[fp nf] r2]);
      injection Hfrac as -> -> ->;
      cbn [String.length Nat.add Nat.eqb exponentPart];
      do 2 f_equal; unfold fin; apply f_equal, Qred_complete;
      cbn [Qpower]; now rewrite Qmult_1_r. }
  destruct Hlit as [Hpos Hneg]. unfold parseFloat_string.
  destruct negative.
  - change ("-" ++ String c hi' ++ rest) with (String "-" (String c hi' ++ rest)).
    cbn [trimStart]. change (is_space "-") with false. cbv iota.
    now rewrite Hneg.
  - change ("" ++ String c hi' ++ rest) with (String c (hi' ++ rest)).
    cbn [trimStart]. rewrite (digit_not_space _ Hc).
    change (String c (hi' ++ rest)) with (String c hi' ++ rest).
    now rewrite Hpos.
Qed.

Lemma pow10_pos (d : nat) : 0 < 10 ^ Z.of_nat d.
Proof. apply Z.pow_pos_nonneg; lia. Qed.

(** X12: Below [10^21], [truncateToDecimals] gives the multiple of [10^-d]
    nearest to the number, the one of larger magnitude on a tie: it
    rounds, and it truncates only when the dropped digits are below one
    half of the last digit kept. *)
Theorem truncateToDecimals_nearest (q : Q) (d : nat) (Hdigits : Digits d) :
  Qle_bool (inject_Z (10 ^ 21)) (Qabs q) = false ->
  truncateToDecimals (JNum (Fin q)) d = fin (nearestDecimal q d).
Proof.
  intros Hsmall. unfold truncateToDecimals. cbn [parseFloat isNaN toFixed].
  rewrite Hsmall.
  set (n := Qfloor (Qabs q * inject_Z (10 ^ Z.of_nat d) + (1 # 2))%Q).
  assert (Hn : 0 <= n).
  { subst n. rewrite <- (Qfloor_Z 0). apply Qfloor_resp_le.
    apply (Qle_trans _ (0 + (1 # 2))%Q); [discriminate|].
    apply Qplus_le_compat; [|apply Qle_refl].
    apply Qmult_le_0_compat; [apply Qabs_nonneg|].
    change 0%Q with (inject_Z 0). rewrite <- Zle_Qle.
    pose proof (pow10_pos d). lia. }
  destruct (decimal_spec n Hn) as [Hd Hv].
  destruct (padStart0_spec (S d) _ Hd) as [Hp Hpv].
  pose proof (padStart0_length (S d) (decimal n)) as Hlen.
  set (ds := padStart0 (S d) (decimal n)) in *.
  set (k := (String.length ds - d)%nat).
  destruct (substring_split k ds ltac:(subst k; lia)) as [Hsplit Hk].
  replace (String.length ds - k)%nat with d in Hsplit by (subst k; lia).
  set (hi := substring 0 k ds) in *. set (lo := substring k d ds) in *.
  assert (Hlo : String.length lo = d).
  { pose proof (f_equal String.length Hsplit) as E. rewrite length_app_ in E.
    subst k. lia. }
  assert (Hdig : is_digits hi = true /\ is_digits lo = true).
  { rewrite <- Hsplit, is_digits_app in Hp. now apply andb_prop in Hp. }
  destruct Hdig as [Hhi Hlod].
  assert (Hne : hi <> EmptyString).
  { intros E. rewrite E in Hk. cbn [String.length] in Hk. unfold k in Hk. lia. }
  pose proof (parse_fixed (is_neg q) hi lo Hhi Hne Hlod) as Hparse.
  rewrite Hlo in Hparse. rewrite Hparse. unfold fin, nearestDecimal.
  apply f_equal, Qred_complete. fold n.
  assert (Hval : n = dvalue hi 0 * 10 ^ Z.of_nat d + dvalue lo 0).
  { rewrite <- Hv, <- Hpv. fold ds. rewrite <- Hsplit, dvalue_app.
    now rewrite dvalue_shift, Hlo. }
  assert (Hq : (inject_Z (dvalue hi 0)
                + inject_Z (dvalue lo 0) / inject_Z (10 ^ Z.of_nat d)
                == inject_Z n / inject_Z (10 ^ Z.of_nat d))%Q).
  { rewrite Hval, inject_Z_plus, inject_Z_mult. field.
    change 0%Q with (inject_Z 0). rewrite inject_Z_injective.
    pose proof (pow10_pos d). lia. }
  cbv zeta. destruct (is_neg q); now rewrite Hq.
Qed.

Lemma truncateToDecimals_nearest_witness :
  Qle_bool (inject_Z (10 ^ 21)) (Qabs (59996 # 1000)) = false
  /\ truncateToDecimals (JNum (Fin (59996 # 1000))) 1
     = fin (nearestDecimal (59996 # 1000) 1).
Proof.
  split; [reflexivity|].
  apply (truncateToDecimals_nearest (59996 # 1000) 1 digits_1). reflexivity.
Defined.
